(** * shelf.nu booking service, bulk-selection atoms and geolocation

    A shallow embedding of
    - [app/utils/geolocate.server.ts]: [geolocate] and, in the same
      file, the booking service ([upsertBooking], [getBookings],
      [deleteBooking] and their helpers);
    - the bulk-selection atoms ([selectedBulkItemsAtom],
      [setSelectedBulkItemAtom]).

    Conventions.  A JavaScript string is the [string] of its UTF-8
    bytes; a [number] is a binary64 [float], with the arithmetic and
    the comparisons of IEEE 754; a value that may be [null] or
    [undefined] is an [option]; a [Date] is its time value, the number
    of milliseconds since the epoch, a [Z]; an exception is the
    [Thrown] outcome of a call.  The booking service runs in a world made of
    the tables of the persistence store, the queue of the job
    scheduler, the mail handed to the mailer and the clock; an [async]
    function is a transformer of that world.

    The first part holds the programs, the second their properties. *)

From Stdlib Require Import ZArith NArith List String Ascii Bool Lia Permutation.
From Stdlib Require Import Floats.
From stdpp Require Import base option list gmap strings stringmap fin_maps.

Local Open Scope string_scope.
Local Open Scope list_scope.

(** * The programs *)

(** ** JavaScript values shared by the modules *)

(** Truthiness of a string: every string but the empty one. *)
Definition truthy (s : string) : bool := negb (String.eqb s "").

(** Truthiness of [string | null | undefined]. *)
Definition otruthy (o : option string) : bool :=
  match o with
  | Some s => truthy s
  | None => false
  end.

(** The exceptions the modelled code can raise. *)
Inductive Exn : Type :=
| TypeError            (* property access on [undefined] *)
| FetchError           (* [fetch] or [json()] rejected *)
| ShelfStackError (message : string)
| RecordNotFound       (* Prisma: required record missing *)
| ValidationError.     (* Prisma: arguments of a call not valid *)

Inductive Outcome (A : Type) : Type :=
| Returned (a : A)
| Thrown (e : Exn).
Arguments Returned {A} a.
Arguments Thrown {A} e.

(** ** Bulk selection: [setSelectedBulkItemAtom] *)

Module BulkSelect.

(** The value held by [selectedBulkItemsAtom], initially [[]]. *)
Definition selectedBulkItems : Type := list string.

Definition initial : selectedBulkItems := [].

(** [prev.includes(update)] *)
Definition includes (update : string) (prev : list string) : bool :=
  existsb (String.eqb update) prev.

(** The updater passed to [set(selectedBulkItemsAtom, ...)]:
    [prev.filter((item) => item !== update)] when [update] is
    included, [[...prev, update]] otherwise. *)
Definition setSelectedBulkItem (update : string) (prev : selectedBulkItems)
  : selectedBulkItems :=
  if includes update prev
  then List.filter (fun item => negb (String.eqb item update)) prev
  else prev ++ [update].

(** [setSelectedBulkItemsAtom]: the list is replaced. *)
Definition setSelectedBulkItems (update : list string)
  (_ : selectedBulkItems) : selectedBulkItems := update.

(** [selectedBulkItemsCountAtom] *)
Definition selectedBulkItemsCount (cur : selectedBulkItems) : nat :=
  length cur.

End BulkSelect.

(** ** Geolocation: [geolocate] *)

Module Geolocate.

Section WithCoord.

(** The coordinates of a response entry are handed through unchanged;
    their type is left open. *)
Variable Coord : Type.

Record MapData : Type := { lat : Coord; lon : Coord }.

(** What [fetch(url)] followed by [request.json()] yields: [None] when
    either rejects, otherwise the response array. *)
Variable fetch_json : string -> option (list MapData).

Definition search_url (address : string) : string :=
  "https://geocode.maps.co/search?q=" +:+ address.

(** [mapData || null]: an object is always truthy. *)
Definition or_null (mapData : MapData) : option MapData := Some mapData.

(** [response[0].lat] throws a [TypeError] when the array is empty. *)
Definition geolocate (address : option string) : Outcome (option MapData) :=
  match address with
  | None => Returned None
  | Some a =>
      if negb (truthy a) || String.eqb a ""
      then Returned None
      else
        match fetch_json (search_url a) with
        | None => Thrown FetchError
        | Some response =>
            match response with
            | [] => Thrown TypeError
            | first :: _ =>
                let mapData := {| lat := lat first; lon := lon first |} in
                Returned (or_null mapData)
            end
        end
  end.

End WithCoord.

Arguments lat {Coord} _.
Arguments lon {Coord} _.
Arguments geolocate {Coord} fetch_json address.

End Geolocate.


(** ** The booking service *)

Module Booking.

(** *** Enumerations and dates *)

(** Modelled from the spec: [BookingStatus] is declared by the Prisma
    client, outside these sources.  Its members are the six statuses of
    the status-transition table and [DRAFT], the status of a booking
    that was created without one; the service never names [DRAFT]. *)
Inductive BookingStatus : Type :=
| DRAFT | RESERVED | ONGOING | OVERDUE | COMPLETE | ARCHIVED | CANCELLED.

(** Modelled from the spec: [AssetStatus] is declared by the Prisma
    client, outside these sources.  The service names [AVAILABLE] and
    [CHECKED_OUT]; [IN_CUSTODY] is the status of an asset that is
    neither. *)
Inductive AssetStatus : Type :=
| AVAILABLE | IN_CUSTODY | CHECKED_OUT.

#[global] Instance BookingStatus_eq_dec : EqDecision BookingStatus.
Proof. solve_decision. Defined.

#[global] Instance AssetStatus_eq_dec : EqDecision AssetStatus.
Proof. solve_decision. Defined.

(** [xs.includes(x)] on an array of enumeration members. *)
Definition includes {A} `{EqDecision A} (xs : list A) (x : A) : bool :=
  existsb (fun y => bool_decide (y = x)) xs.

(** A [Date], in milliseconds since the epoch. *)
Definition Date : Type := Z.

Definition msPerHour : Z := 3600000.
Definition msPerDay : Z := 86400000.

(** [{ hours, minutes }], the result of [calcTimeDifference]. *)
Record TimeDifference : Type := { hours : Z; minutes : Z }.

Section Service.

(** *** Collaborators declared outside these sources *)

(** [ClientHint] (from [./types]) is only forwarded to the job payload
    and to the email templates. *)
Context {ClientHint : Type}.

(** [calcTimeDifference] (from [~/utils/date-fns]). *)
Variable calcTimeDifference : Date -> Date -> TimeDifference.

(** [schedulerKeys.checkoutReminder] (from [./constants]). *)
Variable checkoutReminder : string.

(** [LocalTZA(t, isUTC)] of ECMAScript: the offset of local time from
    UTC, in milliseconds, in the time zone of the server.  With
    [isUTC], [t] is an instant and the offset is the one in force
    then; without, [t] is a local time and the offset is the one that
    local time is read under: where a change of the offset skips or
    repeats local times, the offset before the change. *)
Variable LocalTZA : Z -> bool -> Z.

(** The time-value arithmetic of ECMAScript behind the methods of
    [Date].  [TimeClip] is left out: the dates of a booking are taken
    to lie, with a day to spare, within the range of time values. *)
Definition LocalTime (t : Date) : Z := (t + LocalTZA t true)%Z.
Definition UTC (t : Z) : Date := (t - LocalTZA t false)%Z.
Definition Day (t : Z) : Z := (t / msPerDay)%Z.
Definition HourFromTime (t : Z) : Z := ((t / msPerHour) mod 24)%Z.
Definition MinFromTime (t : Z) : Z := ((t / 60000) mod 60)%Z.
Definition SecFromTime (t : Z) : Z := ((t / 1000) mod 60)%Z.
Definition msFromTime (t : Z) : Z := (t mod 1000)%Z.
Definition MakeTime (hour min sec ms : Z) : Z :=
  (hour * msPerHour + min * 60000 + sec * 1000 + ms)%Z.
Definition MakeDate (day time : Z) : Z := (day * msPerDay + time)%Z.

(** [d.getHours()]: the hour of [d] in local time. *)
Definition getHours (d : Date) : Z := HourFromTime (LocalTime d).

(** [d.setHours(h)]: the hour field of the local time of [d] becomes
    [h], the other fields stay, and the local time so made is read
    back as an instant; an [h] outside 0..23 carries into the day. *)
Definition setHours (d : Date) (h : Z) : Date :=
  let t := LocalTime d in
  UTC (MakeDate (Day t)
         (MakeTime h (MinFromTime t) (SecFromTime t) (msFromTime t))).

(** *** Rows of the persistence store

    A table is a finite map from the row id to the other columns. *)

Record Booking : Type := mkBooking {
  b_name : string;
  b_status : BookingStatus;
  b_from : option Date;
  b_to : option Date;
  b_activeSchedulerReference : option string;
  b_creatorId : string;
  b_organizationId : string;
  b_custodianUserId : option string;
  b_custodianTeamMemberId : option string;
  b_assets : list string          (* ids of the related assets *)
}.

Record User : Type := mkUser {
  u_email : string;
  u_firstName : option string;
  u_lastName : option string
}.

Record TeamMember : Type := mkTeamMember {
  tm_name : string;
  tm_userId : option string
}.

(** An asset as a query returns it. *)
Record Asset : Type := mkAsset { a_id : string; a_status : AssetStatus }.

(** A booking as [update], [create] and [delete] return it, with the
    relations named by [include]. *)
Record BookingPayload : Type := mkPayload {
  r_id : string;
  r_row : Booking;
  r_custodianUser : option User;
  r_custodianTeamMember : option TeamMember;
  r_assets : list Asset;
  r_count_assets : nat
}.

(** *** Scheduler and mail *)

Record SchedulerData : Type := { sd_id : string; sd_hints : ClientHint }.

Record Job : Type := mkJob {
  j_key : string;
  j_data : SchedulerData;
  j_when : Date;
  j_cancelled : bool
}.

(** The text of an email is a template of [./email-helpers] applied
    to its arguments. *)
Record TemplateArgs : Type := {
  t_bookingName : string;
  t_assetsCount : nat;
  t_custodian : option string;
  t_from : option Date;
  t_to : option Date;
  t_hints : ClientHint;
  t_bookingId : string
}.

Inductive EmailText : Type :=
| assetReservedEmailContent (args : TemplateArgs)
| completedBookingEmailContent (args : TemplateArgs)
| deletedBookingEmailContent (args : TemplateArgs)
| checkinReminderEmailContent (args : TemplateArgs).

Record Email : Type := mkEmail {
  e_to : string;
  e_subject : string;
  e_text : EmailText
}.

(** *** The world the service acts on *)

Record World : Type := mkWorld {
  bookings : gmap string Booking;
  assets : gmap string AssetStatus;
  users : gmap string User;
  teamMembers : gmap string TeamMember;
  organizations : gset string;
  jobs : gmap string Job;          (* the scheduler's queue *)
  outbox : list Email;             (* mail handed to the mailer *)
  now : Date                       (* what [new Date()] reads *)
}.

Definition set_bookings (f : gmap string Booking -> gmap string Booking)
  (w : World) : World :=
  mkWorld (f (bookings w)) (assets w) (users w) (teamMembers w)
    (organizations w) (jobs w) (outbox w) (now w).

Definition set_assets (f : gmap string AssetStatus -> gmap string AssetStatus)
  (w : World) : World :=
  mkWorld (bookings w) (f (assets w)) (users w) (teamMembers w)
    (organizations w) (jobs w) (outbox w) (now w).

Definition set_jobs (f : gmap string Job -> gmap string Job)
  (w : World) : World :=
  mkWorld (bookings w) (assets w) (users w) (teamMembers w)
    (organizations w) (f (jobs w)) (outbox w) (now w).

Definition set_outbox (f : list Email -> list Email) (w : World) : World :=
  mkWorld (bookings w) (assets w) (users w) (teamMembers w)
    (organizations w) (jobs w) (f (outbox w)) (now w).

(** *** Asynchronous computations

    An [async] function is a state transformer that either returns or
    throws; what it did before throwing stays done.  [await] is [bind]. *)

Definition M (A : Type) : Type := World -> World * Outcome A.

Definition ret {A} (a : A) : M A := fun w => (w, Returned a).

Definition throw {A} (e : Exn) : M A := fun w => (w, Thrown e).

Definition bind {A B} (m : M A) (k : A -> M B) : M B :=
  fun w =>
    match m w with
    | (w', Returned a) => k a w'
    | (w', Thrown e) => (w', Thrown e)
    end.

Notation "'let*' x ':=' m 'in' k" := (bind m (fun x => k))
  (at level 10, x name, m at level 200, k at level 200).

(** *** The persistence layer

    [db] (from [~/database]) is the Prisma client, the persistence
    store of the service; it is outside these sources.  The calls the
    service makes are modelled on the tables of the world: [update]
    and [delete] throw when the row is missing, a nested [connect]
    throws when its target is missing, [create] draws a fresh id and
    throws when a required field is absent or a nested [disconnect] is
    present. *)

Inductive Relation : Type :=
| connect (id : string)
| disconnect.

(** [Prisma.BookingUpdateInput], restricted to the fields written. *)
Record BookingUpdateInput : Type := mkData {
  d_from : option (option Date);
  d_name : option string;
  d_status : option BookingStatus;
  d_to : option (option Date);
  d_assets : option (list string);             (* [{ connect: [{ id }...] }] *)
  d_custodianUser : option Relation;
  d_custodianTeamMember : option Relation;
  d_creator : option string;                   (* [{ connect: { id } }] *)
  d_organization : option string;              (* [{ connect: { id } }] *)
  d_activeSchedulerReference : option string
}.

Definition has_row {V} (t : gmap string V) (i : string) : bool :=
  bool_decide (is_Some (t !! i)).

Definition relation_target_exists {V} (t : gmap string V)
  (r : option Relation) : bool :=
  match r with
  | Some (connect i) => has_row t i
  | _ => true
  end.

Definition connect_target_exists {V} (t : gmap string V)
  (r : option string) : bool :=
  match r with
  | Some i => has_row t i
  | None => true
  end.

Definition references_exist (w : World) (data : BookingUpdateInput) : bool :=
  forallb (has_row (assets w)) (default [] (d_assets data))
  && relation_target_exists (users w) (d_custodianUser data)
  && relation_target_exists (teamMembers w) (d_custodianTeamMember data)
  && connect_target_exists (users w) (d_creator data)
  && match d_organization data with
     | Some o => bool_decide (o ∈ organizations w)
     | None => true
     end.

Definition relate (r : option Relation) (cur : option string)
  : option string :=
  match r with
  | Some (connect i) => Some i
  | Some disconnect => None
  | None => cur
  end.

(** Connecting an asset that is already related changes nothing. *)
Definition connect_assets (new cur : list string) : list string :=
  foldl (fun acc i => if bool_decide (i ∈ acc) then acc else acc ++ [i])
        cur new.

Definition updated (data : BookingUpdateInput) (b : Booking) : Booking :=
  {| b_name := default (b_name b) (d_name data);
     b_status := default (b_status b) (d_status data);
     b_from := default (b_from b) (d_from data);
     b_to := default (b_to b) (d_to data);
     b_activeSchedulerReference :=
       match d_activeSchedulerReference data with
       | Some ref => Some ref
       | None => b_activeSchedulerReference b
       end;
     b_creatorId := default (b_creatorId b) (d_creator data);
     b_organizationId := default (b_organizationId b) (d_organization data);
     b_custodianUserId := relate (d_custodianUser data) (b_custodianUserId b);
     b_custodianTeamMemberId :=
       relate (d_custodianTeamMember data) (b_custodianTeamMemberId b);
     b_assets := connect_assets (default [] (d_assets data)) (b_assets b) |}.

(** The related assets of a booking, read from the asset table. *)
Definition included_assets (w : World) (b : Booking) : list Asset :=
  omap (fun i => mkAsset i <$> assets w !! i) (b_assets b).

(** [include: { ...commonInclude, assets: true, _count: ... }] *)
Definition payload (w : World) (id : string) (b : Booking) : BookingPayload :=
  {| r_id := id;
     r_row := b;
     r_custodianUser := b_custodianUserId b ≫= (fun i => users w !! i);
     r_custodianTeamMember :=
       b_custodianTeamMemberId b ≫= (fun i => teamMembers w !! i);
     r_assets := included_assets w b;
     r_count_assets := length (included_assets w b) |}.

(** [include: { ...commonInclude, organization: true }]: the assets
    are not part of what [create] returns. *)
Definition payload_created (w : World) (id : string) (b : Booking)
  : BookingPayload :=
  {| r_id := id;
     r_row := b;
     r_custodianUser := b_custodianUserId b ≫= (fun i => users w !! i);
     r_custodianTeamMember :=
       b_custodianTeamMemberId b ≫= (fun i => teamMembers w !! i);
     r_assets := [];
     r_count_assets := 0 |}.

(** Modelled from the spec: [db.booking.update({ where: { id }, data,
    include })] of the persistence store.  The row is rewritten with
    the data and returned with its relations. *)
Definition db_booking_update (id : string) (data : BookingUpdateInput)
  : M BookingPayload :=
  fun w =>
    match bookings w !! id with
    | None => (w, Thrown RecordNotFound)
    | Some b =>
        if references_exist w data
        then
          let w' := set_bookings (insert id (updated data b)) w in
          (w', Returned (payload w' id (updated data b)))
        else (w, Thrown RecordNotFound)
    end.

Definition is_disconnect (r : option Relation) : bool :=
  match r with
  | Some disconnect => true
  | _ => false
  end.

(** Modelled from the spec: [db.booking.create({ data, include })] of
    the persistence store.  The name, the creator and the organization
    are required; a missing status is [DRAFT]. *)
Definition db_booking_create (data : BookingUpdateInput) : M BookingPayload :=
  fun w =>
    match d_name data, d_creator data, d_organization data with
    | Some n, Some c, Some o =>
        if is_disconnect (d_custodianUser data)
           || is_disconnect (d_custodianTeamMember data)
        then (w, Thrown ValidationError)
        else if references_exist w data
        then
          let id := fresh_string "booking" (bookings w) in
          let b :=
            {| b_name := n;
               b_status := default DRAFT (d_status data);
               b_from := mjoin (d_from data);
               b_to := mjoin (d_to data);
               b_activeSchedulerReference := d_activeSchedulerReference data;
               b_creatorId := c;
               b_organizationId := o;
               b_custodianUserId := relate (d_custodianUser data) None;
               b_custodianTeamMemberId :=
                 relate (d_custodianTeamMember data) None;
               b_assets := connect_assets (default [] (d_assets data)) [] |} in
          let w' := set_bookings (insert id b) w in
          (w', Returned (payload_created w' id b))
        else (w, Thrown RecordNotFound)
    | _, _, _ => (w, Thrown ValidationError)
    end.

(** Modelled from the spec: [db.booking.delete({ where: { id },
    include })] of the persistence store.  The row is removed and
    returned with the relations it had. *)
Definition db_booking_delete (id : string) : M BookingPayload :=
  fun w =>
    match bookings w !! id with
    | None => (w, Thrown RecordNotFound)
    | Some b => (set_bookings (delete id) w, Returned (payload w id b))
    end.

(** Modelled from the spec: [db.booking.findFirst({ where: { id,
    status: { in } } })] of the persistence store; the status
    condition is optional. *)
Definition db_booking_findFirst (id : string)
  (statusIn : option (list BookingStatus)) : M (option Booking) :=
  fun w =>
    (w, Returned
          (match bookings w !! id with
           | Some b =>
               match statusIn with
               | Some sts => if includes sts (b_status b) then Some b else None
               | None => Some b
               end
           | None => None
           end)).

(** Modelled from the spec: [db.teamMember.findUnique({ where: { id },
    select: { id, user } })] of the persistence store: the member and,
    when it is linked to a user, that user's id. *)
Definition db_teamMember_findUnique (id : string)
  : M (option (TeamMember * option string)) :=
  fun w =>
    (w, Returned
          ((fun tm =>
              (tm, tm_userId tm ≫=
                     (fun u => if has_row (users w) u then Some u else None)))
             <$> teamMembers w !! id)).

(** Modelled from the spec: [db.asset.updateMany({ where: { status:
    { not }, id: { in } }, data: { status } })] of the persistence
    store: every asset that passes the [where] gets the status. *)
Definition db_asset_updateMany (not_ : AssetStatus) (in_ : list string)
  (status : AssetStatus) : M unit :=
  fun w =>
    (set_assets
       (map_imap (fun i s =>
                    Some (if bool_decide (s <> not_) && bool_decide (i ∈ in_)
                          then status else s))) w,
     Returned tt).

(** *** The job scheduler and the mailer

    [scheduler] (from [~/utils/scheduler.server]) and [sendEmail] (from
    [~/utils/mail.server]) are outside these sources.  Both are taken
    to do what they are asked. *)

(** A job once it is cancelled. *)
Definition cancelled (j : Job) : Job :=
  mkJob (j_key j) (j_data j) (j_when j) true.

(** Modelled from the spec: [scheduler.cancel(id)] of the job
    scheduler.  The job with the id is marked cancelled; an unknown id
    changes nothing. *)
Definition scheduler_cancel (ref : string) : M unit :=
  fun w => (set_jobs (alter cancelled ref) w, Returned tt).

(** Modelled from the spec: [scheduler.sendAfter(key, data, {}, when)]
    of the job scheduler.  The job is queued under an id not in use
    and the id is returned. *)
Definition scheduler_sendAfter (key : string) (data : SchedulerData)
  (when : Date) : M string :=
  fun w =>
    let id := fresh_string "job" (jobs w) in
    (set_jobs (insert id (mkJob key data when false)) w, Returned id).

(** Modelled from the spec: [sendEmail({ to, subject, text })] of the
    mail sender.  The mail is handed over. *)
Definition sendEmail (e : Email) : M unit :=
  fun w => (set_outbox (fun o => o ++ [e]) w, Returned tt).

(** [new Date()] *)
Definition new_Date : M Date := fun w => (w, Returned (now w)).

(** *** Helpers of the service *)

(** [cancelSheduler]: a failure of [scheduler.cancel] is caught and
    logged, so the call never throws. *)
Definition cancelSheduler (b : option Booking) : M unit :=
  match b ≫= b_activeSchedulerReference with
  | Some ref => if truthy ref then scheduler_cancel ref else ret tt
  | None => ret tt
  end.

(** [data: { activeSchedulerReference: id }] *)
Definition reference_data (id : string) : BookingUpdateInput :=
  mkData None None None None None None None None None (Some id).

Definition scheduleNextBookingJob (data : SchedulerData) (when : Date)
  (key : string) : M unit :=
  let* id := scheduler_sendAfter key data when in
  let* _ := db_booking_update (sd_id data) (reference_data id) in
  ret tt.

Definition updateBookinAssetStates (booking : BookingPayload)
  (status : AssetStatus) : M unit :=
  db_asset_updateMany status (map a_id (r_assets booking)) status.

(** [const when = new Date(from); when.setHours(when.getHours() - 1)] *)
Definition one_hour_before (from : Date) : Date :=
  let when := from in
  setHours when (getHours when - 1)%Z.

(** A nullable column inside a template literal. *)
Definition interpolate (o : option string) : string := default "null" o.

(** [`${firstName} ${lastName}` || custodianTeamMember?.name] *)
Definition custodian_name (res : BookingPayload) : option string :=
  let part (column : User -> option string) : string :=
    match r_custodianUser res with
    | Some u => interpolate (column u)
    | None => "undefined"
    end in
  let full := part u_firstName +:+ " " +:+ part u_lastName in
  if truthy full then Some full else tm_name <$> r_custodianTeamMember res.

(** Modelled from the spec: [sendCheckinReminder] is defined in
    [./email-helpers], outside these sources.  It is the check-in
    reminder of the booking life cycle: one email to the custodian user
    of the booking; its subject line is not fixed by the sources. *)
Definition sendCheckinReminder (booking : BookingPayload) (assetCount : nat)
  (hints : ClientHint) : M unit :=
  match r_custodianUser booking with
  | Some u =>
      sendEmail
        {| e_to := u_email u;
           e_subject :=
             "Checkin reminder (" +:+ b_name (r_row booking) +:+ ") - shelf.nu";
           e_text :=
             checkinReminderEmailContent
               {| t_bookingName := b_name (r_row booking);
                  t_assetsCount := assetCount;
                  t_custodian := custodian_name booking;
                  t_from := b_from (r_row booking);
                  t_to := b_to (r_row booking);
                  t_hints := hints;
                  t_bookingId := r_id booking |} |}
  | None => throw TypeError
  end.

(** *** [upsertBooking] *)

(** The argument of [upsertBooking]; [None] is an absent property. *)
Record BookingInput : Type := mkInput {
  i_from : option (option Date);
  i_id : option string;
  i_creatorId : option string;
  i_name : option string;
  i_organizationId : option string;
  i_status : option BookingStatus;
  i_to : option (option Date);
  i_custodianTeamMemberId : option string;
  i_custodianUserId : option string;
  i_assetIds : option (list string)
}.

(** [{ ...rest }]: the properties left by the destructuring. *)
Definition rest (booking : BookingInput) : BookingUpdateInput :=
  mkData (i_from booking) (i_name booking) (i_status booking) (i_to booking)
    None None None None None None.

Definition with_assets (ids : list string) (d : BookingUpdateInput)
  : BookingUpdateInput :=
  mkData (d_from d) (d_name d) (d_status d) (d_to d) (Some ids)
    (d_custodianUser d) (d_custodianTeamMember d) (d_creator d)
    (d_organization d) (d_activeSchedulerReference d).

Definition with_custodians (user member : Relation) (d : BookingUpdateInput)
  : BookingUpdateInput :=
  mkData (d_from d) (d_name d) (d_status d) (d_to d) (d_assets d)
    (Some user) (Some member) (d_creator d)
    (d_organization d) (d_activeSchedulerReference d).

Definition with_creator (id : string) (d : BookingUpdateInput)
  : BookingUpdateInput :=
  mkData (d_from d) (d_name d) (d_status d) (d_to d) (d_assets d)
    (d_custodianUser d) (d_custodianTeamMember d) (Some id)
    (d_organization d) (d_activeSchedulerReference d).

Definition with_organization (id : string) (d : BookingUpdateInput)
  : BookingUpdateInput :=
  mkData (d_from d) (d_name d) (d_status d) (d_to d) (d_assets d)
    (d_custodianUser d) (d_custodianTeamMember d) (d_creator d)
    (Some id) (d_activeSchedulerReference d).

(** [assetIds?.length] as a condition. *)
Definition has_length {A} (o : option (list A)) : bool :=
  match o with
  | Some (_ :: _) => true
  | _ => false
  end.

(** The first part of [upsertBooking]: the update data with the
    assets to connect and the custodian. *)
Definition upsert_data (booking : BookingInput) : M BookingUpdateInput :=
  let data := rest booking in
  let data :=
    if has_length (i_assetIds booking)
    then with_assets (default [] (i_assetIds booking)) data
    else data in
  if otruthy (i_custodianUserId booking)
  then
    ret (with_custodians (connect (default "" (i_custodianUserId booking)))
           disconnect data)
  else if otruthy (i_custodianTeamMemberId booking)
  then
    let custodianTeamMemberId := default "" (i_custodianTeamMemberId booking) in
    let* custodianUser := db_teamMember_findUnique custodianTeamMemberId in
    match custodianUser with
    | None => throw (ShelfStackError "Cannot find team member")
    | Some (_, user) =>
        ret (with_custodians
               (if otruthy user then connect (default "" user) else disconnect)
               (connect custodianTeamMemberId) data)
    end
  else ret data.

(** The email sent when an update carries a status
    ([if (data.status) ...]). *)
Definition notify_status_change (booking : BookingInput)
  (data : BookingUpdateInput) (res : BookingPayload) (hints : ClientHint)
  : M unit :=
  match d_status data with
  | None => ret tt
  | Some status =>
      match u_email <$> r_custodianUser res with
      | None => ret tt
      | Some email =>
          if truthy email
          then
            if bool_decide (status = RESERVED) || bool_decide (status = COMPLETE)
            then
              let subject :=
                "Booking reserved (" +:+ b_name (r_row res) +:+ ") - shelf.nu" in
              let text :=
                assetReservedEmailContent
                  {| t_bookingName := b_name (r_row res);
                     t_assetsCount := length (r_assets res);
                     t_custodian := custodian_name res;
                     t_from := b_from (r_row res);
                     t_to := b_to (r_row res);
                     t_hints := hints;
                     t_bookingId := r_id res |} in
              let '(subject, text) :=
                if bool_decide (status = COMPLETE)
                then
                  ("Booking completed (" +:+ b_name (r_row res)
                     +:+ ") - shelf.nu",
                   completedBookingEmailContent
                     {| t_bookingName := b_name (r_row res);
                        t_assetsCount := r_count_assets res;
                        t_custodian := custodian_name res;
                        t_from := mjoin (i_from booking);
                        t_to := mjoin (i_to booking);
                        t_hints := hints;
                        t_bookingId := r_id res |})
                else (subject, text) in
              sendEmail {| e_to := email; e_subject := subject; e_text := text |}
            else if bool_decide (status = ONGOING)
            then
              match b_to (r_row res) with
              | Some to =>
                  let* today := new_Date in
                  if (hours (calcTimeDifference to today) <? 1)%Z
                  then sendCheckinReminder res (length (r_assets res)) hints
                  else ret tt
              | None => ret tt
              end
            else ret tt
          else ret tt
      end
  end.

(** [isTerminalState] *)
Definition isTerminalState (booking : BookingInput) : bool :=
  match i_status booking with
  | Some s => includes [ARCHIVED; CANCELLED; COMPLETE] s
  | None => false
  end.

(** The start of the branch [if (id)]: for a terminal state the old
    booking is fetched, its scheduled job is cancelled, and the assets
    are to become available when it was ongoing or overdue.  The value
    is [newAssetStatus] as it stands before the update. *)
Definition end_of_booking (id : string) (booking : BookingInput)
  : M (option AssetStatus) :=
  let* oldBooking :=
    (if isTerminalState booking then db_booking_findFirst id None
     else ret None) in
  if isTerminalState booking
  then
    let newAssetStatus :=
      match oldBooking with
      | Some old =>
          if includes [ONGOING; OVERDUE] (b_status old)
          then Some AVAILABLE else None
      | None => None
      end in
    let* _ := cancelSheduler oldBooking in
    ret newAssetStatus
  else ret None.

(** [newAssetStatus] after the update: checked out when the booking
    is set ongoing or assets are added to an ongoing booking. *)
Definition asset_status_after (booking : BookingInput) (res : BookingPayload)
  (newAssetStatus : option AssetStatus) : option AssetStatus :=
  if bool_decide (i_status booking = Some ONGOING)
     || (bool_decide (b_status (r_row res) = ONGOING)
         && has_length (i_assetIds booking))
  then Some CHECKED_OUT
  else newAssetStatus.

(** [if (newAssetStatus) promises.push(updateBookinAssetStates(...))] *)
Definition push_asset_states (res : BookingPayload)
  (newAssetStatus : option AssetStatus) : M unit :=
  match newAssetStatus with
  | Some status => updateBookinAssetStates res status
  | None => ret tt
  end.

(** [if (res.from && booking.status === BookingStatus.RESERVED)]: the
    active job is cancelled and the checkout reminder is scheduled for
    [from] with its local hour set back by one.  Both branches of
    [upsertBooking] do this. *)
Definition reschedule_reminder (booking : BookingInput) (res : BookingPayload)
  (hints : ClientHint) : M unit :=
  match b_from (r_row res) with
  | Some from =>
      if bool_decide (i_status booking = Some RESERVED)
      then
        let* _ := cancelSheduler (Some (r_row res)) in
        scheduleNextBookingJob
          {| sd_id := r_id res; sd_hints := hints |}
          (one_hour_before from) checkoutReminder
      else ret tt
  | None => ret tt
  end.

(** The branch [if (id) { ... return res; }].  The promises collected
    in [promises] act on different parts of the world (the assets, the
    queue and the scheduler reference, the mail); they are run in the
    order in which they are pushed. *)
Definition upsert_existing (id : string) (booking : BookingInput)
  (data : BookingUpdateInput) (hints : ClientHint) : M BookingPayload :=
  let* newAssetStatus := end_of_booking id booking in
  let* res := db_booking_update id data in
  let newAssetStatus := asset_status_after booking res newAssetStatus in
  let* _ := push_asset_states res newAssetStatus in
  let* _ := reschedule_reminder booking res hints in
  let* _ := notify_status_change booking data res hints in
  ret res.

(** The rest of the function: [creator] and [organization] are
    connected and the booking is created. *)
Definition upsert_new (booking : BookingInput) (data : BookingUpdateInput)
  (hints : ClientHint) : M BookingPayload :=
  let data :=
    if otruthy (i_creatorId booking)
    then with_creator (default "" (i_creatorId booking)) data
    else data in
  let data :=
    if otruthy (i_organizationId booking)
    then with_organization (default "" (i_organizationId booking)) data
    else data in
  let* res := db_booking_create data in
  let* _ := reschedule_reminder booking res hints in
  ret res.

Definition upsertBooking (booking : BookingInput) (hints : ClientHint)
  : M BookingPayload :=
  let* data := upsert_data booking in
  if otruthy (i_id booking)
  then upsert_existing (default "" (i_id booking)) booking data hints
  else upsert_new booking data hints.

(** *** [deleteBooking] *)

(** The mail about the deletion ([if (email) ...]). *)
Definition notify_deleted (b : BookingPayload) (hints : ClientHint) : M unit :=
  match u_email <$> r_custodianUser b with
  | Some email =>
      if truthy email
      then
        sendEmail
          {| e_to := email;
             e_subject :=
               "Booking deleted (" +:+ b_name (r_row b) +:+ ") - shelf.nu";
             e_text :=
               deletedBookingEmailContent
                 {| t_bookingName := b_name (r_row b);
                    t_assetsCount := r_count_assets b;
                    t_custodian := custodian_name b;
                    t_from := b_from (r_row b);
                    t_to := b_to (r_row b);
                    t_hints := hints;
                    t_bookingId := r_id b |} |}
      else ret tt
  | None => ret tt
  end.

Definition deleteBooking (id : string) (hints : ClientHint)
  : M BookingPayload :=
  let* activeBooking := db_booking_findFirst id (Some [OVERDUE; ONGOING]) in
  let* b := db_booking_delete id in
  let* _ := notify_deleted b hints in
  let* _ :=
    match activeBooking with
    | Some _ => updateBookinAssetStates b AVAILABLE
    | None => ret tt
    end in
  let* _ := cancelSheduler (Some (r_row b)) in
  ret b.

(** *** [removeAssets] and [getBooking] *)

(** A booking without the listed assets. *)
Definition detached (ids : list string) (b : Booking) : Booking :=
  {| b_name := b_name b;
     b_status := b_status b;
     b_from := b_from b;
     b_to := b_to b;
     b_activeSchedulerReference := b_activeSchedulerReference b;
     b_creatorId := b_creatorId b;
     b_organizationId := b_organizationId b;
     b_custodianUserId := b_custodianUserId b;
     b_custodianTeamMemberId := b_custodianTeamMemberId b;
     b_assets :=
       List.filter (fun a => negb (bool_decide (a ∈ ids))) (b_assets b) |}.

(** Modelled from the spec: [db.booking.update({ where: { id },
    include: commonInclude, data: { assets: { disconnect } } })] of the
    persistence store.  The listed assets are detached from the
    booking; one that is not attached changes nothing.  The assets are
    not part of what is returned. *)
Definition db_booking_disconnect_assets (id : string) (ids : list string)
  : M BookingPayload :=
  fun w =>
    match bookings w !! id with
    | None => (w, Thrown RecordNotFound)
    | Some b =>
        let w' := set_bookings (insert id (detached ids b)) w in
        (w', Returned (payload_created w' id (detached ids b)))
    end.

Definition removeAssets (id : string) (assetIds : list string)
  : M BookingPayload :=
  db_booking_disconnect_assets id assetIds.

(** Modelled from the spec: [db.booking.findFirst({ where: { id },
    include })] of the persistence store, with the custodians and the
    assets of the booking. *)
Definition db_booking_findFirst_included (id : string)
  : M (option BookingPayload) :=
  fun w => (w, Returned (payload w id <$> bookings w !! id)).

Definition getBooking (id : string) : M (option BookingPayload) :=
  db_booking_findFirst_included id.

(** *** [getBookings]: the query handed to [findMany] and [count] *)

Record GetBookingsArgs : Type := mkArgs {
  g_organizationId : string;
  g_page : option float;
  g_perPage : option float;
  g_search : option string;
  g_statuses : option (list BookingStatus);
  g_custodianUserId : option string;
  g_custodianTeamMemberId : option string;
  g_assetIds : option (list string);
  g_bookingTo : option Date;
  g_excludeBookingIds : option (list string);
  g_bookingFrom : option Date
}.

Inductive StatusFilter : Type :=
| status_in (statuses : list BookingStatus)
| status_notIn (statuses : list BookingStatus).

(** [{ lte, gte }] on a date column. *)
Record DateFilter : Type := { lte : option Date; gte : option Date }.

(** One alternative of [where.OR]. *)
Record RangeFilter : Type := { o_from : DateFilter; o_to : DateFilter }.

(** [Prisma.BookingWhereInput], restricted to the fields written. *)
Record BookingWhereInput : Type := mkWhere {
  w_organizationId : string;
  w_name : option string;                (* [{ contains, mode: insensitive }] *)
  w_custodianTeamMemberId : option string;
  w_custodianUserId : option string;
  w_status : option StatusFilter;
  w_assets : option (list string);       (* [{ some: { id: { in } } }] *)
  w_id : option (list string);           (* [{ notIn }] *)
  w_OR : option (list RangeFilter)
}.

(** The arguments of [findMany]; [include] and [orderBy] are fixed. *)
Record FindManyArgs : Type := {
  q_skip : float;
  q_take : float;
  q_where : BookingWhereInput
}.

(** The UTF-8 bytes of a code point below U+10000. *)
Definition utf8 (cp : N) : string :=
  let byte (n : N) : string := String (ascii_of_N n) "" in
  if (cp <? 0x80)%N then byte cp
  else if (cp <? 0x800)%N
       then byte (0xC0 + cp / 64)%N +:+ byte (0x80 + cp mod 64)%N
       else byte (0xE0 + cp / 4096)%N
            +:+ byte (0x80 + (cp / 64) mod 64)%N
            +:+ byte (0x80 + cp mod 64)%N.

(** The code points [trim] strips: [WhiteSpace] of ECMAScript (tab,
    vertical tab, form feed, the byte order mark and the space
    separators of Unicode) and [LineTerminator]. *)
Definition WhiteSpace : list N :=
  [0x9; 0xB; 0xC; 0xFEFF;
   0x20; 0xA0; 0x1680;
   0x2000; 0x2001; 0x2002; 0x2003; 0x2004; 0x2005; 0x2006; 0x2007; 0x2008;
   0x2009; 0x200A;
   0x202F; 0x205F; 0x3000]%N.

Definition LineTerminator : list N := [0xA; 0xD; 0x2028; 0x2029]%N.

Definition white_space : list string := map utf8 (WhiteSpace ++ LineTerminator).

(** [s] without the prefix [p], when it starts with [p]. *)
Fixpoint strip_prefix (p s : string) : option string :=
  match p with
  | EmptyString => Some s
  | String a p' =>
      match s with
      | String b s' => if Ascii.eqb a b then strip_prefix p' s' else None
      | EmptyString => None
      end
  end.

(** [s] without the first of [ps] it starts with. *)
Fixpoint strip_any (ps : list string) (s : string) : option string :=
  match ps with
  | p :: ps' =>
      match strip_prefix p s with
      | Some r => Some r
      | None => strip_any ps' s
      end
  | [] => None
  end.

(** [s] without its leading members of [ps]; each is at least one byte
    long, so that [fuel] need not exceed the length of [s]. *)
Fixpoint strip_all (ps : list string) (fuel : nat) (s : string) : string :=
  match fuel with
  | S fuel' =>
      match strip_any ps s with
      | Some r => strip_all ps fuel' r
      | None => s
      end
  | O => s
  end.

Definition reverse_string (s : string) : string :=
  string_of_list_ascii (List.rev (list_ascii_of_string s)).

(** [s] without its leading white space. *)
Definition trim_start (s : string) : string :=
  strip_all white_space (String.length s) s.

(** [s] without its trailing white space: the bytes of [s] and of
    the white space are reversed, stripped from the start, and
    reversed again. *)
Definition trim_end (s : string) : string :=
  reverse_string
    (strip_all (map reverse_string white_space) (String.length s)
       (reverse_string s)).

(** [s.trim()] *)
Definition trim (s : string) : string := trim_end (trim_start s).

(** A string that is a sequence of members of [ps]. *)
Inductive made_of (ps : list string) : string -> Prop :=
| made_of_empty : made_of ps ""
| made_of_more (p s : string) :
    In p ps -> made_of ps s -> made_of ps (p +:+ s).

(** A string of white space only. *)
Definition blank : string -> Prop := made_of white_space.

(** No member of [ps] is empty; none is the start of another. *)
Definition without_empty (ps : list string) : bool :=
  forallb (fun p => negb (String.eqb p "")) ps.

Definition prefix_free (ps : list string) : bool :=
  forallb
    (fun p =>
       forallb
         (fun q =>
            match strip_prefix p q with
            | Some _ => String.eqb p q
            | None => true
            end) ps) ps.

Definition getBookings_where (a : GetBookingsArgs) : BookingWhereInput :=
  {| w_organizationId := g_organizationId a;
     w_name :=
       match g_search a with
       | Some search => if truthy (trim search) then Some (trim search) else None
       | None => None
       end;
     w_custodianTeamMemberId :=
       if otruthy (g_custodianTeamMemberId a)
       then g_custodianTeamMemberId a else None;
     w_custodianUserId :=
       if otruthy (g_custodianUserId a) then g_custodianUserId a else None;
     w_status :=
       Some (if has_length (g_statuses a)
             then status_in (default [] (g_statuses a))
             else status_notIn [ARCHIVED]);
     w_assets := if has_length (g_assetIds a) then g_assetIds a else None;
     w_id :=
       if has_length (g_excludeBookingIds a)
       then g_excludeBookingIds a else None;
     w_OR :=
       match g_bookingFrom a, g_bookingTo a with
       | Some bookingFrom, Some bookingTo =>
           Some [ {| o_from := {| lte := Some bookingTo; gte := None |};
                     o_to := {| lte := None; gte := Some bookingFrom |} |};
                  {| o_from := {| lte := None; gte := Some bookingFrom |};
                     o_to := {| lte := Some bookingTo; gte := None |} |} ]
       | _, _ => None
       end |}.

Definition getBookings_query (a : GetBookingsArgs) : FindManyArgs :=
  let page := default 1%float (g_page a) in
  let perPage := default 8%float (g_perPage a) in
  let skip :=
    if (1 <? page)%float then ((page - 1) * perPage)%float else 0%float in
  let take :=
    if (1 <=? perPage)%float && (perPage <=? 100)%float
    then perPage else 20%float in
  {| q_skip := skip; q_take := take; q_where := getBookings_where a |}.

(** **** What a [where] admits *)

Definition lower (c : ascii) : ascii :=
  let n := nat_of_ascii c in
  if (65 <=? n)%nat && (n <=? 90)%nat then ascii_of_nat (n + 32) else c.

Fixpoint lowercase (s : string) : string :=
  match s with
  | String c s' => String (lower c) (lowercase s')
  | EmptyString => EmptyString
  end.

Definition contains_insensitive (s pattern : string) : bool :=
  bool_decide (is_Some (index 0 (lowercase pattern) (lowercase s))).

Definition status_admits (f : StatusFilter) (s : BookingStatus) : bool :=
  match f with
  | status_in l => includes l s
  | status_notIn l => negb (includes l s)
  end.

(** A null column satisfies no comparison. *)
Definition date_admits (f : DateFilter) (d : option Date) : bool :=
  match d with
  | Some d =>
      match lte f with Some x => (d <=? x)%Z | None => true end
      && match gte f with Some x => (x <=? d)%Z | None => true end
  | None =>
      match lte f, gte f with None, None => true | _, _ => false end
  end.

Definition range_admits (f : RangeFilter) (b : Booking) : bool :=
  date_admits (o_from f) (b_from b) && date_admits (o_to f) (b_to b).

Definition optional {A} (f : option A) (test : A -> bool) : bool :=
  match f with
  | Some x => test x
  | None => true
  end.

(** The bookings a [where] matches: every condition present holds. *)
Definition where_matches (f : BookingWhereInput) (id : string) (b : Booking)
  : bool :=
  bool_decide (b_organizationId b = w_organizationId f)
  && optional (w_name f) (contains_insensitive (b_name b))
  && optional (w_custodianTeamMemberId f)
       (fun x => bool_decide (b_custodianTeamMemberId b = Some x))
  && optional (w_custodianUserId f)
       (fun x => bool_decide (b_custodianUserId b = Some x))
  && optional (w_status f) (fun x => status_admits x (b_status b))
  && optional (w_assets f)
       (fun ids => existsb (fun i => bool_decide (i ∈ ids)) (b_assets b))
  && optional (w_id f) (fun ids => negb (bool_decide (id ∈ ids)))
  && optional (w_OR f) (existsb (fun r => range_admits r b)).

(** A [where] with its status condition left out. *)
Definition ignoring_status (f : BookingWhereInput) : BookingWhereInput :=
  mkWhere (w_organizationId f) (w_name f) (w_custodianTeamMemberId f)
    (w_custodianUserId f) None (w_assets f) (w_id f) (w_OR f).

(** *** Relations used to state the properties *)

(** No booking appears or disappears, and each keeps its creator and
    its organization. *)
Definition owners_kept (before after : gmap string Booking) : Prop :=
  forall k,
    match before !! k, after !! k with
    | Some b, Some b' =>
        b_creatorId b' = b_creatorId b
        /\ b_organizationId b' = b_organizationId b
    | None, None => True
    | _, _ => False
    end.

(** What [upsert_data] makes of the input: the status and the name
    are passed on, the creator, the organization and the scheduler
    reference are not set. *)
Definition built_from (booking : BookingInput) (data : BookingUpdateInput)
  : Prop :=
  d_status data = i_status booking
  /\ d_name data = i_name booking
  /\ d_creator data = None
  /\ d_organization data = None
  /\ d_activeSchedulerReference data = None.

(** The template behind the mail for a change to [status]: the
    reserved-booking, the completed-booking and the check-in reminder
    template. *)
Definition template_for (status : BookingStatus) (text : EmailText) : Prop :=
  match status, text with
  | RESERVED, assetReservedEmailContent _ => True
  | COMPLETE, completedBookingEmailContent _ => True
  | ONGOING, checkinReminderEmailContent _ => True
  | _, _ => False
  end.

(** The statuses whose mail [notify_status_change] sends, as the code
    tests them: [RESERVED], [COMPLETE], or [ONGOING] with a [to] date
    for which [calcTimeDifference] counts less than one hour. *)
Definition mail_due (status : BookingStatus) (res : BookingPayload)
  (today : Date) : Prop :=
  status = RESERVED \/ status = COMPLETE
  \/ (status = ONGOING
      /\ exists to, b_to (r_row res) = Some to
                    /\ (hours (calcTimeDifference to today) < 1)%Z).

End Service.

(** *** A small world for the examples

    One organization, one user, two bookings and four assets.  The
    ongoing booking "b1" holds two checked-out assets and references
    the queued job "job1"; the draft "b2" holds one available asset. *)

(** An instance of [calcTimeDifference]: the whole hours, and the
    minutes left over, between two dates. *)
Definition whole_hours (d1 d2 : Date) : TimeDifference :=
  {| hours := (Z.abs (d1 - d2) / msPerHour)%Z;
     minutes := ((Z.abs (d1 - d2) mod msPerHour) / 60000)%Z |}.

Definition ann : User :=
  mkUser "ann@example.org" (Some "Ann") (Some "Lee").

Definition trip : Booking :=
  {| b_name := "Field trip";
     b_status := ONGOING;
     b_from := Some 7200000%Z;
     b_to := Some 10800000%Z;
     b_activeSchedulerReference := Some "job1";
     b_creatorId := "u1";
     b_organizationId := "o1";
     b_custodianUserId := Some "u1";
     b_custodianTeamMemberId := None;
     b_assets := ["a1"; "a2"] |}.

Definition draft : Booking :=
  {| b_name := "Workshop";
     b_status := DRAFT;
     b_from := Some 36000000%Z;
     b_to := Some 43200000%Z;
     b_activeSchedulerReference := None;
     b_creatorId := "u1";
     b_organizationId := "o1";
     b_custodianUserId := Some "u1";
     b_custodianTeamMemberId := None;
     b_assets := ["a3"] |}.

Definition world0 : @World unit :=
  {| bookings := <["b1" := trip]> (<["b2" := draft]> ∅);
     assets :=
       <["a1" := CHECKED_OUT]>
         (<["a2" := CHECKED_OUT]>
            (<["a3" := AVAILABLE]> (<["a4" := IN_CUSTODY]> ∅)));
     users := <["u1" := ann]> ∅;
     teamMembers := ∅;
     organizations := {["o1"]};
     jobs :=
       <["job1" :=
           mkJob "checkoutReminder" {| sd_id := "b1"; sd_hints := tt |}
             3600000%Z false]> ∅;
     outbox := [];
     now := 9000000%Z |}.

(** An input that carries only an id and a status. *)
Definition set_status (id : string) (status : BookingStatus) : BookingInput :=
  mkInput None (Some id) None None None (Some status) None None None None.

(** An input that adds the asset "a4" to a booking. *)
Definition add_asset (id : string) : BookingInput :=
  mkInput None (Some id) None None None None None None None (Some ["a4"]).

(** An input that names the custodian user "u1" and a team member. *)
Definition set_custodians (id : string) : BookingInput :=
  mkInput None (Some id) None None None None None (Some "tm1") (Some "u1")
    None.

(** An input that names a team member only. *)
Definition set_member (id : string) : BookingInput :=
  mkInput None (Some id) None None None None None (Some "tm1") None None.

(** An input that only renames a booking. *)
Definition rename (id : string) : BookingInput :=
  mkInput None (Some id) None (Some "Excursion") None None None None None
    None.

(** An input without an id: a reserved booking to be created. *)
Definition new_booking : BookingInput :=
  mkInput (Some (Some 72000000%Z)) None (Some "u1") (Some "Survey")
    (Some "o1") (Some RESERVED) None None None None.

(** An instance of [LocalTZA]: a server that runs on UTC. *)
Definition utc : Z -> bool -> Z := fun _ _ => 0%Z.

(** An instance of [LocalTZA]: Central European Time around the change
    to summer time on 31 March 2024.  Up to 01:00 UTC the offset is
    one hour, from then on two; the local times from 02:00 to 03:00 of
    that day are skipped and read under the offset of one hour. *)
Definition summer_time_2024 : Date := 1711846800000%Z.

Definition cet (t : Z) (isUTC : bool) : Z :=
  if isUTC
  then if (t <? summer_time_2024)%Z then msPerHour else (2 * msPerHour)%Z
  else if (t <? summer_time_2024 + 2 * msPerHour)%Z
       then msPerHour else (2 * msPerHour)%Z.

(** An input that reserves a booking from 01:30 UTC on 31 March 2024,
    03:30 local time in [cet], for two hours. *)
Definition reserve_at_0330 (id : string) : BookingInput :=
  mkInput (Some (Some 1711848600000%Z)) (Some id) None None None
    (Some RESERVED) (Some (Some 1711855800000%Z)) None None None.

(** [upsertBooking] and [deleteBooking] in this world. *)
Definition upsert0 (booking : BookingInput)
  : @World unit * Outcome BookingPayload :=
  upsertBooking whole_hours "checkoutReminder" utc booking tt world0.

Definition delete0 (id : string) : @World unit * Outcome BookingPayload :=
  deleteBooking id tt world0.

(** The arguments of [getBookings] for the organization "o1", with
    two excluded ids and a time window. *)
Definition window_args : GetBookingsArgs :=
  mkArgs "o1" (Some 2%float) (Some 50%float) (Some "  ") None (Some "u1") None
    (Some ["a2"; "a9"]) (Some 9000000%Z) (Some ["b7"; "b8"])
    (Some 8000000%Z).

(** What a call returned, or [fallback] when it threw. *)
Definition returned {A} (o : Outcome A) (fallback : A) : A :=
  match o with
  | Returned a => a
  | Thrown _ => fallback
  end.

End Booking.

(** * Properties *)

(** ** JavaScript values *)

Lemma truthy_true_iff (s : string) : truthy s = true <-> s <> "".
Proof.
  unfold truthy. rewrite negb_true_iff.
  split.
  - intros H ->. discriminate.
  - intros H. apply String.eqb_neq. exact H.
Qed.

Lemma truthy_false_iff (s : string) : truthy s = false <-> s = "".
Proof.
  unfold truthy. rewrite negb_false_iff. apply String.eqb_eq.
Qed.

(** ** Bulk selection *)

Module BulkSelectFacts.

Import BulkSelect.

Lemma includes_In (update : string) (prev : list string) :
  includes update prev = true <-> In update prev.
Proof.
  unfold includes. rewrite existsb_exists. split.
  - intros (x & Hin & Heq). apply String.eqb_eq in Heq. subst x. exact Hin.
  - intros Hin. exists update. split; [exact Hin | apply String.eqb_refl].
Qed.

Lemma includes_not_In (update : string) (prev : list string) :
  includes update prev = false <-> ~ In update prev.
Proof.
  rewrite <- includes_In. destruct (includes update prev); split; intros H;
    try reflexivity; try discriminate; try (intros [=]).
  exfalso. apply H. reflexivity.
Qed.

(** Dropping an id that does not occur is the identity. *)
Lemma filter_absent (update : string) (l : list string) :
  ~ In update l ->
  List.filter (fun item => negb (String.eqb item update)) l = l.
Proof.
  induction l as [|x l IH]; intros Hnin; simpl; [reflexivity|].
  destruct (String.eqb_spec x update) as [->|Hne]; simpl.
  - exfalso. apply Hnin. left. reflexivity.
  - f_equal. apply IH. intros Hin. apply Hnin. right. exact Hin.
Qed.

Lemma filter_In_iff (update item : string) (l : list string) :
  In item (List.filter (fun item => negb (String.eqb item update)) l)
  <-> In item l /\ item <> update.
Proof.
  rewrite List.filter_In, negb_true_iff, String.eqb_neq. reflexivity.
Qed.

(** Writing an absent id twice restores the list. *)
Lemma toggle_twice_absent (update : string) (prev : list string) :
  ~ In update prev ->
  setSelectedBulkItem update (setSelectedBulkItem update prev) = prev.
Proof.
  intros Hnin. unfold setSelectedBulkItem at 2.
  rewrite (proj2 (includes_not_In update prev) Hnin).
  unfold setSelectedBulkItem.
  assert (Hin : includes update (prev ++ [update]) = true).
  { apply includes_In, in_or_app. right. left. reflexivity. }
  rewrite Hin, List.filter_app, filter_absent by exact Hnin.
  simpl. rewrite String.eqb_refl. simpl. apply app_nil_r.
Qed.

(** Writing a present id twice moves it to the end. *)
Lemma toggle_twice_present (update : string) (prev : list string) :
  In update prev ->
  setSelectedBulkItem update (setSelectedBulkItem update prev)
  = List.filter (fun item => negb (String.eqb item update)) prev ++ [update].
Proof.
  intros Hin. unfold setSelectedBulkItem at 2.
  rewrite (proj2 (includes_In update prev) Hin).
  unfold setSelectedBulkItem.
  assert (Hout : includes update
            (List.filter (fun item => negb (String.eqb item update)) prev)
          = false).
  { apply includes_not_In. rewrite filter_In_iff. intros [_ Hne].
    apply Hne. reflexivity. }
  rewrite Hout. reflexivity.
Qed.

(** In a duplicate-free list, dropping an id and appending it again
    permutes the list. *)
Lemma filter_snoc_Permutation (update : string) (l : list string) :
  NoDup l -> In update l ->
  Permutation
    (List.filter (fun item => negb (String.eqb item update)) l ++ [update]) l.
Proof.
  induction l as [|x l IH]; intros Hnd Hin; [destruct Hin|].
  apply NoDup_cons in Hnd as [Hx Hnd].
  simpl. destruct (String.eqb_spec x update) as [->|Hne]; simpl.
  - rewrite filter_absent.
    + symmetry. apply Permutation_cons_append.
    + intros H. apply Hx. apply list_elem_of_In. exact H.
  - apply perm_skip. apply IH; [exact Hnd|].
    destruct Hin as [->|Hin]; [congruence | exact Hin].
Qed.

(** Against the order part of the toggle claim as first stated: on the
    duplicate-free list [a; b], writing [a] twice yields [b; a], not
    the original list. *)
Lemma toggle_twice_reorders :
  NoDup ["a"; "b"]
  /\ setSelectedBulkItem "a" (setSelectedBulkItem "a" ["a"; "b"])
     = ["b"; "a"]
  /\ setSelectedBulkItem "a" (setSelectedBulkItem "a" ["a"; "b"])
     <> ["a"; "b"].
Proof.
  split; [|split].
  - apply NoDup_cons. split.
    + intros H. apply list_elem_of_In in H. destruct H as [H|[]]. discriminate H.
    + apply NoDup_cons. split; [|apply NoDup_nil_2].
      intros H. apply list_elem_of_In in H. destruct H.
  - reflexivity.
  - discriminate.
Qed.

(** C9 (amended): writing an id toggles its membership: an id that
    occurs is removed at every occurrence, the other ids staying in
    place; an id that does not occur is appended at the end.
    Consequently, for a duplicate-free list, writing the same id twice
    yields a permutation of the original list, and yields the original
    list itself exactly when the id was absent or was the last
    element. *)
Theorem setSelectedBulkItem_toggle (update : string) (prev : list string) :
  (In update prev ->
     setSelectedBulkItem update prev
     = List.filter (fun item => negb (String.eqb item update)) prev
     /\ ~ In update (setSelectedBulkItem update prev)
     /\ forall item, item <> update ->
          count_occ string_dec (setSelectedBulkItem update prev) item
          = count_occ string_dec prev item)
  /\ (~ In update prev -> setSelectedBulkItem update prev = prev ++ [update])
  /\ (NoDup prev ->
        Permutation
          (setSelectedBulkItem update (setSelectedBulkItem update prev)) prev
        /\ (setSelectedBulkItem update (setSelectedBulkItem update prev) = prev
            <-> ~ In update prev \/ last prev = Some update)).
Proof.
  split; [|split].
  - intros Hin. unfold setSelectedBulkItem.
    rewrite (proj2 (includes_In update prev) Hin).
    split; [reflexivity|]. split.
    + rewrite filter_In_iff. intros [_ Hne]. apply Hne. reflexivity.
    + intros item Hne. clear Hin.
      induction prev as [|x l IH]; simpl; [reflexivity|].
      destruct (String.eqb_spec x update) as [->|Hxu]; simpl.
      * destruct (string_dec update item) as [Heq|_]; [congruence | exact IH].
      * destruct (string_dec x item); [f_equal|]; exact IH.
  - intros Hnin. unfold setSelectedBulkItem.
    rewrite (proj2 (includes_not_In update prev) Hnin). reflexivity.
  - intros Hnd. destruct (in_dec string_dec update prev) as [Hin|Hnin].
    + rewrite toggle_twice_present by exact Hin. split.
      * apply filter_snoc_Permutation; assumption.
      * split.
        -- intros Heq. right. rewrite <- Heq. apply last_snoc.
        -- intros [Hnin|Hlast]; [contradiction|].
           apply last_Some in Hlast as [l' ->].
           apply NoDup_app in Hnd as (_ & Hdisj & _).
           rewrite List.filter_app, filter_absent.
           ++ simpl. rewrite String.eqb_refl. simpl.
              rewrite app_nil_r. reflexivity.
           ++ intros H. apply (Hdisj update).
              ** apply list_elem_of_In. exact H.
              ** apply list_elem_of_In. left. reflexivity.
    + rewrite toggle_twice_absent by exact Hnin. split.
      * apply Permutation_refl.
      * split; [intros _; left; exact Hnin | reflexivity].
Qed.

(** The toggle at work on [a; b; a] (both occurrences of [a] go), on
    [a; b] with the absent [c], and twice on the duplicate-free
    [a; b] with its last element [b]. *)
Lemma setSelectedBulkItem_toggle_witness :
  setSelectedBulkItem "a" ["a"; "b"; "a"] = ["b"]
  /\ setSelectedBulkItem "c" ["a"; "b"] = ["a"; "b"; "c"]
  /\ setSelectedBulkItem "b" (setSelectedBulkItem "b" ["a"; "b"]) = ["a"; "b"].
Proof.
  pose proof (setSelectedBulkItem_toggle "a" ["a"; "b"; "a"]) as Ha.
  pose proof (setSelectedBulkItem_toggle "c" ["a"; "b"]) as Hc.
  split; [|split].
  - destruct Ha as [Ha _]. apply Ha. left. reflexivity.
  - destruct Hc as (_ & Hc & _). apply Hc.
    intros [H|[H|[]]]; discriminate H.
  - reflexivity.
Defined.

(** *** Further properties of the selection *)

(** After a write, an id is selected when it was selected and is not
    the written id, or was not selected and is the written id. *)
Lemma toggle_In (update x : string) (prev : list string) :
  In x (setSelectedBulkItem update prev)
  <-> (x <> update /\ In x prev) \/ (x = update /\ ~ In update prev).
Proof.
  unfold setSelectedBulkItem.
  destruct (includes update prev) eqn:Hinc.
  - apply includes_In in Hinc. rewrite filter_In_iff. split.
    + intros [Hin Hne]. left. split; assumption.
    + intros [[Hne Hin]|[_ Hnin]]; [split; assumption | contradiction].
  - apply includes_not_In in Hinc. rewrite in_app_iff. simpl. split.
    + intros [Hin|[<-|[]]].
      * left. split; [|exact Hin]. intros ->. contradiction.
      * right. split; [reflexivity | exact Hinc].
    + intros [[_ Hin]|[-> _]]; [left; exact Hin | right; left; reflexivity].
Qed.

(** X1: a write keeps the selection free of duplicates. *)
Theorem setSelectedBulkItem_NoDup (update : string) (prev : list string) :
  NoDup prev -> NoDup (setSelectedBulkItem update prev).
Proof.
  intros Hnd. unfold setSelectedBulkItem.
  destruct (includes update prev) eqn:Hinc.
  - apply NoDup_ListNoDup, List.NoDup_filter, NoDup_ListNoDup. exact Hnd.
  - apply includes_not_In in Hinc. apply NoDup_app.
    split; [exact Hnd|]. split.
    + intros x Hx Hu. apply list_elem_of_In in Hx, Hu.
      destruct Hu as [<-|[]]. contradiction.
    + apply NoDup_cons. split; [|apply NoDup_nil_2].
      intros H. apply list_elem_of_In in H. destruct H.
Qed.

Lemma setSelectedBulkItem_NoDup_witness :
  NoDup (setSelectedBulkItem "c" (setSelectedBulkItem "a" [])).
Proof.
  apply setSelectedBulkItem_NoDup, setSelectedBulkItem_NoDup.
  apply NoDup_nil_2.
Defined.

Lemma toggles_In (updates : list string) (x : string) (cur : list string) :
  In x (fold_left (fun prev update => setSelectedBulkItem update prev)
          updates cur)
  <-> (In x cur <-> Nat.even (count_occ string_dec updates x) = true).
Proof.
  revert cur. induction updates as [|u updates IH]; intros cur; simpl.
  - split; [intros H; split; [reflexivity | intros _; exact H]|].
    intros [_ H]. apply H. reflexivity.
  - rewrite IH, toggle_In.
    destruct (string_dec u x) as [->|Hne].
    + rewrite Nat.even_succ, <- Nat.negb_even.
      destruct (Nat.even (count_occ string_dec updates x));
        destruct (in_dec string_dec x cur) as [Hin|Hnin]; simpl;
        intuition congruence.
    + destruct (Nat.even (count_occ string_dec updates x));
        intuition congruence.
Qed.

(** X2: starting from the empty selection, after any sequence of
    writes an id is selected exactly when it was written an odd number
    of times. *)
Theorem setSelectedBulkItem_parity (updates : list string) (x : string) :
  In x (fold_left (fun prev update => setSelectedBulkItem update prev)
          updates initial)
  <-> Nat.odd (count_occ string_dec updates x) = true.
Proof.
  rewrite toggles_In, <- Nat.negb_even. unfold initial. simpl.
  destruct (Nat.even (count_occ string_dec updates x)); simpl;
    intuition congruence.
Qed.

Lemma filter_length_count (update : string) (l : list string) :
  (length (List.filter (fun item => negb (String.eqb item update)) l)
   + count_occ string_dec l update = length l)%nat.
Proof.
  induction l as [|x l IH]; simpl; [reflexivity|].
  destruct (String.eqb_spec x update) as [->|Hne]; simpl.
  - destruct (string_dec update update) as [_|H]; [lia | contradiction].
  - destruct (string_dec x update) as [H|_]; [contradiction | lia].
Qed.

(** X3: the count of selected items after a write: writing an id that
    is not selected adds one; writing a selected id takes away as many
    as it has occurrences, which is one in a duplicate-free list. *)
Theorem selectedBulkItemsCount_write (update : string) (prev : list string) :
  (~ In update prev ->
     selectedBulkItemsCount (setSelectedBulkItem update prev)
     = S (selectedBulkItemsCount prev))
  /\ (In update prev ->
        (selectedBulkItemsCount (setSelectedBulkItem update prev)
         + count_occ string_dec prev update
         = selectedBulkItemsCount prev)%nat)
  /\ (In update prev -> NoDup prev ->
        S (selectedBulkItemsCount (setSelectedBulkItem update prev))
        = selectedBulkItemsCount prev).
Proof.
  unfold selectedBulkItemsCount, setSelectedBulkItem. split; [|split].
  - intros Hnin. rewrite (proj2 (includes_not_In update prev) Hnin).
    rewrite length_app. simpl. lia.
  - intros Hin. rewrite (proj2 (includes_In update prev) Hin).
    apply filter_length_count.
  - intros Hin Hnd. rewrite (proj2 (includes_In update prev) Hin).
    pose proof (filter_length_count update prev) as Hlen.
    assert (count_occ string_dec prev update = 1%nat) as Hone.
    { apply NoDup_count_occ'; [|exact Hin].
      apply NoDup_ListNoDup. exact Hnd. }
    lia.
Qed.

Lemma selectedBulkItemsCount_write_witness :
  selectedBulkItemsCount (setSelectedBulkItem "c" ["a"; "b"]) = 3%nat
  /\ S (selectedBulkItemsCount (setSelectedBulkItem "a" ["a"; "b"])) = 2%nat.
Proof.
  destruct (selectedBulkItemsCount_write "c" ["a"; "b"]) as (Hadd & _).
  destruct (selectedBulkItemsCount_write "a" ["a"; "b"]) as (_ & _ & Hdrop).
  split.
  - apply Hadd. intros [H|[H|[]]]; discriminate H.
  - apply Hdrop.
    + left. reflexivity.
    + apply NoDup_cons. split.
      * intros H. apply list_elem_of_In in H. destruct H as [H|[]].
        discriminate H.
      * apply NoDup_cons. split; [|apply NoDup_nil_2].
        intros H. apply list_elem_of_In in H. destruct H.
Defined.

End BulkSelectFacts.

(** ** Geolocation *)

Module GeolocateFacts.

Import Geolocate.

Section WithCoord.

Context {Coord : Type}.
Variable fetch_json : string -> option (list (MapData Coord)).

Lemma falsy_address (a : string) :
  negb (truthy a) || String.eqb a "" = true <-> a = "".
Proof.
  unfold truthy. rewrite negb_involutive, orb_diag. apply String.eqb_eq.
Qed.

Lemma geolocate_null_iff (address : option string) :
  geolocate fetch_json address = Returned None
  <-> address = None \/ address = Some "".
Proof.
  unfold geolocate. destruct address as [a|].
  - destruct (negb (truthy a) || String.eqb a "") eqn:Hfalsy.
    + apply falsy_address in Hfalsy. subst a.
      split; [intros _; right; reflexivity | reflexivity].
    + assert (a <> "") as Hne.
      { intros ->. rewrite (proj2 (falsy_address "")) in Hfalsy by reflexivity.
        discriminate. }
      split.
      * destruct (fetch_json (search_url a)) as [[|first rest]|];
          unfold or_null; intros [=].
      * intros [[=]|[= ->]]. contradiction.
  - split; [intros _; left; reflexivity | reflexivity].
Qed.

(** C10 (amended): [geolocate] returns null exactly when the address
    is null or the empty string; for every non-empty address whose
    geocoding response is read and holds at least one entry, it returns
    the lat/lon of the first entry, the trailing fallback to null not
    being taken; and whatever it returns for a non-empty address is not
    null. *)
Theorem geolocate_result (address : option string) :
  (geolocate fetch_json address = Returned None
   <-> address = None \/ address = Some "")
  /\ (forall a first others,
        address = Some a -> a <> "" ->
        fetch_json (search_url a) = Some (first :: others) ->
        geolocate fetch_json address
        = Returned (Some {| lat := lat first; lon := lon first |}))
  /\ (forall a result,
        address = Some a -> a <> "" ->
        geolocate fetch_json address = Returned result ->
        result <> None).
Proof.
  split; [apply geolocate_null_iff|]. split.
  - intros a first others -> Hne Hfetch. unfold geolocate.
    destruct (negb (truthy a) || String.eqb a "") eqn:Hfalsy.
    + apply falsy_address in Hfalsy. contradiction.
    + rewrite Hfetch. reflexivity.
  - intros a result -> Hne Hret ->.
    apply geolocate_null_iff in Hret. destruct Hret as [[=]|[= ->]].
    contradiction.
Qed.

End WithCoord.

(** Against the claim that every response that is read yields the
    first entry: for the non-empty address "Oslo" the response is read
    and is the empty array; [geolocate] throws and returns no
    lat/lon. *)
Lemma geolocate_empty_response :
  let fetch_json := fun _ : string => Some (@nil (MapData Z)) in
  "Oslo" <> ""
  /\ fetch_json (search_url "Oslo") = Some []
  /\ geolocate fetch_json (Some "Oslo") = Thrown TypeError.
Proof.
  split; [discriminate|]. split; reflexivity.
Qed.

(** An address that is found: the first of two entries is returned. *)
Lemma geolocate_result_witness :
  let fetch_json :=
    fun _ : string =>
      Some [ {| lat := 59%Z; lon := 10%Z |}; {| lat := 60%Z; lon := 11%Z |} ] in
  geolocate fetch_json (Some "Oslo")
  = Returned (Some {| lat := 59%Z; lon := 10%Z |})
  /\ geolocate fetch_json (Some "") = Returned None.
Proof.
  intros fetch_json.
  destruct (geolocate_result fetch_json (Some "Oslo")) as (_ & Hfirst & _).
  destruct (geolocate_result fetch_json (Some "")) as (Hnull & _).
  split.
  - apply (Hfirst "Oslo" {| lat := 59%Z; lon := 10%Z |}
                  [ {| lat := 60%Z; lon := 11%Z |} ]).
    + reflexivity.
    + discriminate.
    + reflexivity.
  - apply Hnull. right. reflexivity.
Defined.

End GeolocateFacts.

(** ** The list query of [getBookings] *)

Module GetBookingsFacts.

Import Booking.

Lemma status_includes_In {A} `{EqDecision A} (xs : list A) (x : A) :
  includes xs x = true <-> In x xs.
Proof.
  unfold includes. rewrite existsb_exists. split.
  - intros (y & Hin & Heq). apply bool_decide_eq_true in Heq. subst y.
    exact Hin.
  - intros Hin. exists x. split; [exact Hin|].
    apply bool_decide_eq_true. reflexivity.
Qed.

Lemma has_length_false {A} (o : option (list A)) :
  has_length o = false <-> o = None \/ o = Some [].
Proof.
  destruct o as [[|x l]|]; simpl; split; intros H;
    try reflexivity; try discriminate;
    try (left; reflexivity); try (right; reflexivity).
  destruct H as [[=]|[=]].
Qed.

Lemma has_length_true {A} (o : option (list A)) :
  has_length o = true <-> exists l, o = Some l /\ l <> [].
Proof.
  destruct o as [[|x l]|]; simpl; split; intros H; try discriminate.
  - destruct H as (l & [= <-] & Hne). contradiction.
  - exists (x :: l). split; [reflexivity | discriminate].
  - reflexivity.
  - destruct H as (l & [=] & _).
Qed.

(** The status condition is one conjunct of the [where]. *)
Lemma where_matches_status (f : BookingWhereInput) (id : string)
  (b : Booking) :
  where_matches f id b
  = where_matches (ignoring_status f) id b
    && optional (w_status f) (fun x => status_admits x (b_status b)).
Proof.
  unfold where_matches, ignoring_status. simpl.
  repeat match goal with
         | |- context [bool_decide ?P] => destruct (bool_decide P)
         | |- context [optional ?o ?t] => destruct (optional o t)
         end; reflexivity.
Qed.

(** C6: the list query skips [(page - 1) * perPage] records when
    [page > 1] and none otherwise, and takes [perPage] records when
    [1 <= perPage <= 100] and 20 otherwise; an omitted [page] is 1, an
    omitted [perPage] is 8.  The difference, the product and the
    comparisons are those of the code, on binary64 numbers: a
    comparison with a [page] or a [perPage] that is no number is
    false. *)
Theorem getBookings_pagination (a : GetBookingsArgs) :
  let page := default 1%float (g_page a) in
  let perPage := default 8%float (g_perPage a) in
  ((1 <? page)%float = true ->
   q_skip (getBookings_query a) = ((page - 1) * perPage)%float)
  /\ ((1 <? page)%float = false -> q_skip (getBookings_query a) = 0%float)
  /\ ((1 <=? perPage)%float = true -> (perPage <=? 100)%float = true ->
      q_take (getBookings_query a) = perPage)
  /\ ((1 <=? perPage)%float = false \/ (perPage <=? 100)%float = false ->
      q_take (getBookings_query a) = 20%float).
Proof.
  intros page perPage. unfold getBookings_query. simpl.
  fold page perPage.
  split; [|split; [|split]].
  - intros ->. reflexivity.
  - intros ->. reflexivity.
  - intros -> ->. reflexivity.
  - intros [-> | ->]; [reflexivity|].
    rewrite andb_false_r. reflexivity.
Qed.

(** Page 3 of 25 records each skips 50 and takes 25; 500 per page is
    replaced by 20; page 1 skips nothing; a [page] that is no number
    skips nothing; and page 90071992547410 of 101 records each skips
    the binary64 product of 90071992547409 and 101, one less than
    their product as integers. *)
Lemma getBookings_pagination_witness :
  q_skip (getBookings_query
            (mkArgs "org" (Some 3%float) (Some 25%float) None None None None
               None None None None)) = 50%float
  /\ q_take (getBookings_query
               (mkArgs "org" (Some 3%float) (Some 25%float) None None None
                  None None None None None)) = 25%float
  /\ q_take (getBookings_query
               (mkArgs "org" (Some 1%float) (Some 500%float) None None None
                  None None None None None)) = 20%float
  /\ q_skip (getBookings_query
               (mkArgs "org" None None None None None None None
                  None None None)) = 0%float
  /\ q_skip (getBookings_query
               (mkArgs "org" (Some nan) None None None None None None
                  None None None)) = 0%float
  /\ q_skip (getBookings_query
               (mkArgs "org" (Some 90071992547410%float) (Some 101%float)
                  None None None None None None None None))
     = 9097271247288308%float.
Proof.
  pose proof (getBookings_pagination
                (mkArgs "org" (Some 3%float) (Some 25%float) None None None
                   None None None None None)) as (Hskip & _ & Htake & _).
  pose proof (getBookings_pagination
                (mkArgs "org" (Some 1%float) (Some 500%float) None None None
                   None None None None None)) as (_ & _ & _ & Hdefault).
  pose proof (getBookings_pagination
                (mkArgs "org" None None None None None None None
                   None None None)) as (_ & Hfirst & _).
  pose proof (getBookings_pagination
                (mkArgs "org" (Some nan) None None None None None None
                   None None None)) as (_ & Hnan & _).
  pose proof (getBookings_pagination
                (mkArgs "org" (Some 90071992547410%float) (Some 101%float)
                   None None None None None None None None))
    as (Hlarge & _).
  split; [|split; [|split; [|split; [|split]]]].
  - rewrite Hskip; reflexivity.
  - apply Htake; reflexivity.
  - apply Hdefault. right. reflexivity.
  - apply Hfirst. reflexivity.
  - apply Hnan. reflexivity.
  - rewrite Hlarge; reflexivity.
Defined.

(** C7: when [statuses] is null or empty, the constructed filter
    matches no booking whose status is [ARCHIVED] and lets every other
    status pass; when [statuses] is non-empty, it lets exactly the
    statuses of the list pass.  A booking is matched when it passes
    the status condition and the other conditions of the filter. *)
Theorem getBookings_status_filter (a : GetBookingsArgs) (id : string)
  (b : Booking) :
  let f := getBookings_where a in
  (g_statuses a = None \/ g_statuses a = Some [] ->
     where_matches f id b = true
     <-> where_matches (ignoring_status f) id b = true
         /\ b_status b <> ARCHIVED)
  /\ (forall statuses,
        g_statuses a = Some statuses -> statuses <> [] ->
        where_matches f id b = true
        <-> where_matches (ignoring_status f) id b = true
            /\ In (b_status b) statuses).
Proof.
  intros f. split.
  - intros Hnone. apply has_length_false in Hnone.
    rewrite where_matches_status, andb_true_iff.
    unfold f, getBookings_where. simpl. rewrite Hnone. simpl.
    rewrite orb_false_r, negb_true_iff, bool_decide_eq_false.
    split; intros [H1 H2]; (split; [exact H1|]); congruence.
  - intros statuses Hsome Hne.
    assert (has_length (g_statuses a) = true) as Hlen.
    { apply has_length_true. exists statuses. split; assumption. }
    rewrite where_matches_status, andb_true_iff.
    unfold f, getBookings_where. simpl. rewrite Hlen, Hsome. simpl.
    rewrite status_includes_In. reflexivity.
Qed.

(** With no statuses asked for, the ongoing booking "b1" of the
    example world is matched; asked for archived bookings only, it is
    not. *)
Lemma getBookings_status_filter_witness :
  where_matches
    (getBookings_where
       (mkArgs "o1" None None None None None None None None None None))
    "b1" trip = true
  /\ where_matches
       (getBookings_where
          (mkArgs "o1" None None None (Some [ARCHIVED]) None None None None
             None None))
       "b1" trip = false.
Proof.
  split.
  - destruct (getBookings_status_filter
                (mkArgs "o1" None None None None None None None None None None)
                "b1" trip) as [Hdefault _].
    apply Hdefault.
    + left. reflexivity.
    + split; [vm_compute; reflexivity | discriminate].
  - destruct (getBookings_status_filter
                (mkArgs "o1" None None None (Some [ARCHIVED]) None None None
                   None None None)
                "b1" trip) as [_ Hlisted].
    specialize (Hlisted [ARCHIVED] eq_refl).
    match goal with
    | |- ?m = false => destruct m; [|reflexivity]
    end.
    destruct Hlisted as [Hlisted _]; [discriminate|].
    destruct (Hlisted eq_refl) as [_ [Hin|[]]]. discriminate Hin.
Defined.

(** *** Further properties of the list query *)

(** A matched booking passes every condition of the [where]. *)
Lemma where_matches_parts (f : BookingWhereInput) (id : string)
  (b : Booking) :
  where_matches f id b = true ->
  b_organizationId b = w_organizationId f
  /\ optional (w_name f) (contains_insensitive (b_name b)) = true
  /\ optional (w_custodianTeamMemberId f)
       (fun x => bool_decide (b_custodianTeamMemberId b = Some x)) = true
  /\ optional (w_custodianUserId f)
       (fun x => bool_decide (b_custodianUserId b = Some x)) = true
  /\ optional (w_status f) (fun x => status_admits x (b_status b)) = true
  /\ optional (w_assets f)
       (fun ids => existsb (fun i => bool_decide (i ∈ ids)) (b_assets b))
     = true
  /\ optional (w_id f) (fun ids => negb (bool_decide (id ∈ ids))) = true
  /\ optional (w_OR f) (existsb (fun r => range_admits r b)) = true.
Proof.
  unfold where_matches. rewrite !andb_true_iff, bool_decide_eq_true.
  intros [[[[[[[H1 H2] H3] H4] H5] H6] H7] H8].
  repeat split; assumption.
Qed.

(** X4: whatever the arguments, also a [perPage] that is no number,
    the query takes at least 1 and at most 100 records. *)
Theorem getBookings_take_bounds (a : GetBookingsArgs) :
  (1 <=? q_take (getBookings_query a))%float = true
  /\ (q_take (getBookings_query a) <=? 100)%float = true.
Proof.
  unfold getBookings_query. simpl.
  destruct (1 <=? default 8%float (g_perPage a))%float eqn:Hmin;
    [destruct (default 8%float (g_perPage a) <=? 100)%float eqn:Hmax|];
    simpl; split; try assumption; reflexivity.
Qed.

(** X6: a booking the query matches belongs to the organization asked
    for, is none of the excluded bookings, holds at least one of the
    assets asked for, and has the custodian asked for. *)
Theorem getBookings_matched (a : GetBookingsArgs) (id : string)
  (b : Booking) :
  where_matches (getBookings_where a) id b = true ->
  b_organizationId b = g_organizationId a
  /\ (forall ids, g_excludeBookingIds a = Some ids -> ~ In id ids)
  /\ (forall i ids,
        g_assetIds a = Some (i :: ids) ->
        exists x, In x (i :: ids) /\ In x (b_assets b))
  /\ (forall u, g_custodianUserId a = Some u -> u <> "" ->
                b_custodianUserId b = Some u)
  /\ (forall t, g_custodianTeamMemberId a = Some t -> t <> "" ->
                b_custodianTeamMemberId b = Some t).
Proof.
  intros Hm. apply where_matches_parts in Hm
    as (Horg & _ & Hmember & Huser & _ & Hassets & Hid & _).
  unfold getBookings_where in *. simpl in *.
  split; [exact Horg|]. split; [|split; [|split]].
  - intros ids Hids. rewrite Hids in Hid.
    destruct ids as [|x ids]; [intros []|]. simpl in Hid.
    apply negb_true_iff, bool_decide_eq_false in Hid.
    intros Hin. apply Hid, list_elem_of_In. exact Hin.
  - intros i ids Hids. rewrite Hids in Hassets. simpl in Hassets.
    apply existsb_exists in Hassets as (x & Hx & Hin).
    apply bool_decide_eq_true, list_elem_of_In in Hin.
    exists x. split; assumption.
  - intros u Hu Hne. rewrite Hu in Huser. simpl in Huser.
    rewrite (proj2 (truthy_true_iff u) Hne) in Huser. simpl in Huser.
    apply bool_decide_eq_true in Huser. exact Huser.
  - intros t Ht Hne. rewrite Ht in Hmember. simpl in Hmember.
    rewrite (proj2 (truthy_true_iff t) Hne) in Hmember. simpl in Hmember.
    apply bool_decide_eq_true in Hmember. exact Hmember.
Qed.

Lemma getBookings_matched_witness :
  b_organizationId trip = "o1"
  /\ b_custodianUserId trip = Some "u1"
  /\ exists x, In x ["a2"; "a9"] /\ In x (b_assets trip).
Proof.
  destruct (getBookings_matched window_args "b1" trip)
    as (Horg & _ & Hassets & Huser & _).
  - vm_compute. reflexivity.
  - split; [exact Horg|]. split.
    + apply Huser; [reflexivity | discriminate].
    + apply (Hassets "a2" ["a9"]). reflexivity.
Defined.

(** X7: with both [bookingFrom] and [bookingTo] given, a booking with
    [from <= to] passes the date condition exactly when its time
    overlaps the window; a booking without a [from] or a [to] date is
    not matched. *)
Theorem getBookings_window (a : GetBookingsArgs) (id : string) (b : Booking)
  (bookingFrom bookingTo : Date) :
  g_bookingFrom a = Some bookingFrom -> g_bookingTo a = Some bookingTo ->
  (forall from to,
     b_from b = Some from -> b_to b = Some to -> (from <= to)%Z ->
     (optional (w_OR (getBookings_where a))
        (existsb (fun r => range_admits r b)) = true
      <-> (from <= bookingTo /\ bookingFrom <= to)%Z)
     /\ (where_matches (getBookings_where a) id b = true ->
         (from <= bookingTo /\ bookingFrom <= to)%Z))
  /\ (b_from b = None \/ b_to b = None ->
      where_matches (getBookings_where a) id b = false).
Proof.
  intros Hf Ht. split.
  - intros from to Hbf Hbt Hle.
    assert (Hiff : optional (w_OR (getBookings_where a))
                     (existsb (fun r => range_admits r b)) = true
                   <-> (from <= bookingTo /\ bookingFrom <= to)%Z).
    { unfold getBookings_where. simpl. rewrite Hf, Ht. simpl.
      unfold range_admits, date_admits. simpl. rewrite Hbf, Hbt.
      rewrite !andb_true_r, orb_false_r. simpl.
      rewrite orb_true_iff, !andb_true_iff, !Z.leb_le. lia. }
    split; [exact Hiff|].
    intros Hm. apply where_matches_parts in Hm as (_ & _ & _ & _ & _ & _ & _ & H).
    apply Hiff. exact H.
  - intros Hnull.
    destruct (where_matches (getBookings_where a) id b) eqn:Hm;
      [|reflexivity].
    apply where_matches_parts in Hm as (_ & _ & _ & _ & _ & _ & _ & H).
    unfold getBookings_where in H. simpl in H. rewrite Hf, Ht in H.
    simpl in H. unfold range_admits, date_admits in H. simpl in H.
    destruct Hnull as [Hn|Hn]; rewrite Hn in H; simpl in H.
    + discriminate H.
    + rewrite !andb_false_r in H. discriminate H.
Qed.

Lemma getBookings_window_witness :
  optional (w_OR (getBookings_where window_args))
    (existsb (fun r => range_admits r trip)) = true
  /\ where_matches (getBookings_where window_args) "b2" draft = false.
Proof.
  destruct (getBookings_window window_args "b1" trip 8000000%Z 9000000%Z)
    as (Hdated & _); [reflexivity | reflexivity |].
  destruct (Hdated 7200000%Z 10800000%Z) as (Hiff & _);
    [reflexivity | reflexivity | lia |].
  split; [apply Hiff; lia|].
  vm_compute. reflexivity.
Defined.

(** *** White space and [trim] *)

Lemma append_cons (c : ascii) (s t : string) :
  String c s +:+ t = String c (s +:+ t).
Proof. reflexivity. Qed.

Lemma append_nil_l (s : string) : "" +:+ s = s.
Proof. reflexivity. Qed.

Lemma append_nil_r (s : string) : s +:+ "" = s.
Proof.
  induction s as [|c s IH]; [reflexivity|].
  rewrite append_cons, IH. reflexivity.
Qed.

Lemma append_assoc (a b c : string) : (a +:+ b) +:+ c = a +:+ (b +:+ c).
Proof.
  induction a as [|x a IH]; [reflexivity|].
  rewrite !append_cons, IH. reflexivity.
Qed.

Lemma length_append (a b : string) :
  String.length (a +:+ b) = String.length a + String.length b.
Proof.
  induction a as [|x a IH]; [reflexivity|].
  rewrite append_cons. simpl. rewrite IH. reflexivity.
Qed.

Lemma append_cancel_l (a b c : string) : a +:+ b = a +:+ c -> b = c.
Proof.
  induction a as [|x a IH]; [intros H; exact H|].
  rewrite !append_cons. intros [= H]. exact (IH H).
Qed.

(** Two prefixes of one string: one is a prefix of the other. *)
Lemma append_eq_prefix (p q r r' : string) :
  p +:+ r = q +:+ r' ->
  exists t, q = p +:+ t \/ p = q +:+ t.
Proof.
  revert q. induction p as [|a p IH]; intros q.
  - intros _. exists q. left. reflexivity.
  - destruct q as [|b q].
    + intros _. exists (String a p). right. reflexivity.
    + rewrite !append_cons. intros [= <- H].
      destruct (IH q H) as (t & [->| ->]);
        exists t; [left | right]; reflexivity.
Qed.

Lemma strip_prefix_Some (p s r : string) :
  strip_prefix p s = Some r <-> s = p +:+ r.
Proof.
  revert s. induction p as [|a p IH]; intros s; simpl.
  - rewrite append_nil_l. split; [intros [= ->] | intros ->]; reflexivity.
  - rewrite append_cons.
    destruct s as [|b s]; [split; discriminate|].
    destruct (Ascii.eqb_spec a b) as [<-|Hne].
    + rewrite IH. split; [intros ->; reflexivity | intros [= ->]; reflexivity].
    + split; [discriminate | intros [= Hab _]; congruence].
Qed.

Lemma strip_any_Some (ps : list string) (s r : string) :
  strip_any ps s = Some r -> exists p, In p ps /\ s = p +:+ r.
Proof.
  induction ps as [|p ps IH]; simpl; [discriminate|].
  destruct (strip_prefix p s) as [r'|] eqn:Hp.
  - intros [= <-]. exists p. split; [left; reflexivity|].
    apply strip_prefix_Some. exact Hp.
  - intros H. destruct (IH H) as (q & Hq & Hs). exists q.
    split; [right; exact Hq | exact Hs].
Qed.

Lemma strip_any_None (ps : list string) (s : string) :
  strip_any ps s = None -> forall p r, In p ps -> s <> p +:+ r.
Proof.
  induction ps as [|q ps IH]; simpl; [intros _ p r []|].
  destruct (strip_prefix q s) as [r'|] eqn:Hq; [discriminate|].
  intros H p r [<-|Hin] Hs.
  - apply strip_prefix_Some in Hs. congruence.
  - exact (IH H p r Hin Hs).
Qed.

Lemma without_empty_In (ps : list string) (p : string) :
  without_empty ps = true -> In p ps -> p <> "".
Proof.
  unfold without_empty. rewrite forallb_forall. intros H Hin Hp.
  specialize (H p Hin). subst p. discriminate H.
Qed.

Lemma prefix_free_In (ps : list string) (p q r r' : string) :
  prefix_free ps = true -> In p ps -> In q ps ->
  p +:+ r = q +:+ r' -> p = q.
Proof.
  unfold prefix_free. rewrite forallb_forall. intros H Hp Hq Heq.
  destruct (append_eq_prefix p q r r' Heq) as (t & [Ht|Ht]).
  - pose proof (H p Hp) as Hpq. rewrite forallb_forall in Hpq.
    specialize (Hpq q Hq).
    destruct (strip_prefix p q) as [x|] eqn:Hs.
    + apply String.eqb_eq. exact Hpq.
    + exfalso. assert (strip_prefix p q = Some t) as Hs'
        by (apply strip_prefix_Some; exact Ht). congruence.
  - pose proof (H q Hq) as Hqp. rewrite forallb_forall in Hqp.
    specialize (Hqp p Hp).
    destruct (strip_prefix q p) as [x|] eqn:Hs.
    + symmetry. apply String.eqb_eq. exact Hqp.
    + exfalso. assert (strip_prefix q p = Some t) as Hs'
        by (apply strip_prefix_Some; exact Ht). congruence.
Qed.

Lemma made_of_append (ps : list string) (a b : string) :
  made_of ps a -> made_of ps b -> made_of ps (a +:+ b).
Proof.
  intros Ha Hb. induction Ha as [|p s Hp Hs IH]; [exact Hb|].
  rewrite append_assoc. apply made_of_more; assumption.
Qed.

(** What [strip_all] takes off is made of members of [ps]. *)
Lemma strip_all_prefix (ps : list string) (fuel : nat) (s : string) :
  exists pre, made_of ps pre /\ s = pre +:+ strip_all ps fuel s.
Proof.
  revert s. induction fuel as [|fuel IH]; intros s; simpl.
  - exists "". split; [apply made_of_empty | reflexivity].
  - destruct (strip_any ps s) as [r|] eqn:Hs.
    + apply strip_any_Some in Hs as (p & Hp & ->).
      destruct (IH r) as (pre & Hpre & Hr).
      exists (p +:+ pre). split; [apply made_of_more; assumption|].
      rewrite append_assoc, <- Hr. reflexivity.
    + exists "". split; [apply made_of_empty | reflexivity].
Qed.

(** With fuel for every byte, what is left starts with no member. *)
Lemma strip_all_done (ps : list string) (fuel : nat) (s : string) :
  without_empty ps = true -> String.length s <= fuel ->
  strip_any ps (strip_all ps fuel s) = None.
Proof.
  intros Hne. revert s. induction fuel as [|fuel IH]; intros s Hlen; simpl.
  - destruct s; [|simpl in Hlen; lia].
    destruct (strip_any ps "") as [r|] eqn:Hs; [|reflexivity].
    apply strip_any_Some in Hs as (p & Hp & Hs).
    destruct p; [|discriminate Hs].
    exfalso. exact (without_empty_In ps "" Hne Hp eq_refl).
  - destruct (strip_any ps s) as [r|] eqn:Hs; [|exact Hs].
    apply IH.
    apply strip_any_Some in Hs as (p & Hp & ->).
    rewrite length_append in Hlen.
    pose proof (without_empty_In ps p Hne Hp) as Hp'.
    destruct p; [contradiction|]. simpl in Hlen. lia.
Qed.

(** A string made of members of a prefix-free [ps] is stripped whole. *)
Lemma strip_all_made_of (ps : list string) (fuel : nat) (s : string) :
  without_empty ps = true -> prefix_free ps = true ->
  made_of ps s -> String.length s <= fuel -> strip_all ps fuel s = "".
Proof.
  intros Hne Hfree. revert s.
  induction fuel as [|fuel IH]; intros s Hs Hlen; simpl.
  - destruct s; [reflexivity | simpl in Hlen; lia].
  - destruct Hs as [|p s Hp Hs].
    + pose proof (strip_all_done ps 0 "" Hne (Nat.le_refl 0)) as H.
      simpl in H. rewrite H. reflexivity.
    + destruct (strip_any ps (p +:+ s)) as [r|] eqn:Hr.
      * apply strip_any_Some in Hr as (q & Hq & Heq).
        pose proof (prefix_free_In ps p q s r Hfree Hp Hq Heq) as <-.
        apply append_cancel_l in Heq as <-.
        apply IH; [exact Hs|].
        rewrite length_append in Hlen.
        pose proof (without_empty_In ps p Hne Hp) as Hp'.
        destruct p; [contradiction|]. simpl in Hlen. lia.
      * exfalso. exact (strip_any_None ps _ Hr p s Hp eq_refl).
Qed.

(** A string made of members that starts with none is empty. *)
Lemma made_of_stripped (ps : list string) (s : string) :
  made_of ps s -> strip_any ps s = None -> s = "".
Proof.
  intros [|p s' Hp Hs] Hnone; [reflexivity|].
  exfalso. exact (strip_any_None ps _ Hnone p s' Hp eq_refl).
Qed.

Lemma list_ascii_of_string_append (a b : string) :
  list_ascii_of_string (a +:+ b)
  = list_ascii_of_string a ++ list_ascii_of_string b.
Proof.
  induction a as [|x a IH]; [reflexivity|].
  rewrite append_cons. simpl. rewrite IH. reflexivity.
Qed.

Lemma string_of_list_ascii_app (l1 l2 : list ascii) :
  string_of_list_ascii (l1 ++ l2)
  = string_of_list_ascii l1 +:+ string_of_list_ascii l2.
Proof.
  induction l1 as [|x l1 IH]; [reflexivity|].
  simpl. rewrite append_cons, IH. reflexivity.
Qed.

Lemma reverse_string_append (a b : string) :
  reverse_string (a +:+ b) = reverse_string b +:+ reverse_string a.
Proof.
  unfold reverse_string.
  rewrite list_ascii_of_string_append, rev_app_distr, string_of_list_ascii_app.
  reflexivity.
Qed.

Lemma reverse_string_involutive (s : string) :
  reverse_string (reverse_string s) = s.
Proof.
  unfold reverse_string.
  rewrite list_ascii_of_string_of_list_ascii, rev_involutive,
    string_of_list_ascii_of_string.
  reflexivity.
Qed.

Lemma reverse_string_empty (s : string) : reverse_string s = "" <-> s = "".
Proof.
  split.
  - intros H. rewrite <- (reverse_string_involutive s), H. reflexivity.
  - intros ->. reflexivity.
Qed.

Lemma made_of_reverse (ps : list string) (s : string) :
  made_of ps s -> made_of (map reverse_string ps) (reverse_string s).
Proof.
  induction 1 as [|p s Hp Hs IH]; [apply made_of_empty|].
  rewrite reverse_string_append. apply made_of_append; [exact IH|].
  rewrite <- (append_nil_r (reverse_string p)).
  apply made_of_more; [|apply made_of_empty].
  apply in_map. exact Hp.
Qed.

Lemma made_of_reversed (ps : list string) (s : string) :
  made_of (map reverse_string ps) (reverse_string s) -> made_of ps s.
Proof.
  intros H. apply made_of_reverse in H.
  rewrite reverse_string_involutive, map_map in H.
  rewrite (map_ext _ (fun p => p)) in H
    by (intros p; apply reverse_string_involutive).
  rewrite map_id in H. exact H.
Qed.

Lemma white_space_checked :
  without_empty white_space = true /\ prefix_free white_space = true.
Proof. split; vm_compute; reflexivity. Qed.

(** [trim] leaves nothing exactly of a blank string. *)
Lemma trim_empty (s : string) : trim s = "" <-> blank s.
Proof.
  destruct white_space_checked as [Hne Hfree].
  unfold trim, trim_end, trim_start, blank. split.
  - intros H. apply (proj1 (reverse_string_empty _)) in H.
    set (t := strip_all white_space (String.length s) s) in *.
    destruct (strip_all_prefix (map reverse_string white_space)
                (String.length t) (reverse_string t)) as (pre & Hpre & Ht).
    rewrite H, append_nil_r in Ht. rewrite <- Ht in Hpre.
    apply made_of_reversed in Hpre.
    assert (t = "") as Hempty.
    { apply (made_of_stripped white_space); [exact Hpre|].
      apply strip_all_done; [exact Hne | apply Nat.le_refl]. }
    destruct (strip_all_prefix white_space (String.length s) s)
      as (pre' & Hpre' & Hs).
    fold t in Hs. rewrite Hempty, append_nil_r in Hs. rewrite Hs.
    exact Hpre'.
  - intros H.
    rewrite (strip_all_made_of white_space _ s Hne Hfree H (Nat.le_refl _)).
    reflexivity.
Qed.
(** X8: the query filters on the name exactly when the search string
    holds something that is no white space; a search that is null,
    empty or blank adds no name condition, and otherwise the condition
    is the trimmed search string.  White space is what [trim] strips:
    the white space and the line terminators of ECMAScript. *)
Theorem getBookings_search (a : GetBookingsArgs) :
  (w_name (getBookings_where a) = None
   <-> g_search a = None
       \/ exists s, g_search a = Some s /\ blank s)
  /\ (forall pattern,
        w_name (getBookings_where a) = Some pattern ->
        exists s, g_search a = Some s /\ pattern = trim s /\ pattern <> "").
Proof.
  unfold getBookings_where. simpl.
  destruct (g_search a) as [s|]; simpl.
  - destruct (truthy (trim s)) eqn:Htrim.
    + apply truthy_true_iff in Htrim. split.
      * split; [discriminate|].
        intros [[=]|(s' & [= <-] & Hs)].
        exfalso. apply Htrim, trim_empty. exact Hs.
      * intros pattern [= <-]. exists s. repeat split; assumption.
    + apply truthy_false_iff in Htrim. split.
      * split; [|reflexivity]. intros _. right. exists s.
        split; [reflexivity|]. apply trim_empty. exact Htrim.
      * intros pattern [=].
  - split.
    + split; [intros _; left; reflexivity | reflexivity].
    + intros pattern [=].
Qed.

(** A search of a no-break space, a space and a line separator adds no
    name condition; around a word, an ideographic space, a tab and a
    byte order mark are stripped. *)
Example getBookings_search_unicode :
  w_name (getBookings_where
            (mkArgs "o1" None None
               (Some (utf8 0xA0 +:+ " " +:+ utf8 0x2028))
               None None None None None None None)) = None
  /\ w_name (getBookings_where
               (mkArgs "o1" None None
                  (Some (utf8 0x3000 +:+ "tent" +:+ utf8 0x9 +:+ utf8 0xFEFF))
                  None None None None None None None)) = Some "tent".
Proof. split; vm_compute; reflexivity. Qed.

End GetBookingsFacts.

(** ** The booking service *)

Module BookingFacts.

Import Booking.

Section Service.

Context {ClientHint : Type}.
Variable calcTimeDifference : Date -> Date -> TimeDifference.
Variable checkoutReminder : string.
Variable LocalTZA : Z -> bool -> Z.

Abbreviation World := (@World ClientHint).
Abbreviation M := (@M ClientHint).
Abbreviation upsertBooking :=
  (upsertBooking calcTimeDifference checkoutReminder LocalTZA).
Abbreviation upsert_existing :=
  (upsert_existing calcTimeDifference checkoutReminder LocalTZA).
Abbreviation upsert_new := (upsert_new checkoutReminder LocalTZA).
Abbreviation notify_status_change := (notify_status_change calcTimeDifference).

(** *** Running a computation *)

Lemma bind_returned {A B} (m : M A) (k : A -> M B) (w w' : World) (b : B) :
  bind m k w = (w', Returned b) ->
  exists w1 a, m w = (w1, Returned a) /\ k a w1 = (w', Returned b).
Proof.
  unfold bind. destruct (m w) as [w1 [a|e]]; intros H.
  - exists w1, a. split; [reflexivity | exact H].
  - discriminate H.
Qed.

Lemma bind_outcome {A B} (m : M A) (k : A -> M B) (w w' : World)
  (o : Outcome B) :
  bind m k w = (w', o) ->
  (exists w1 a, m w = (w1, Returned a) /\ k a w1 = (w', o))
  \/ (exists e, m w = (w', Thrown e) /\ o = Thrown e).
Proof.
  unfold bind. destruct (m w) as [w1 [a|e]]; intros H.
  - left. exists w1, a. split; [reflexivity | exact H].
  - right. exists e. inversion H; subst. split; reflexivity.
Qed.

Lemma ret_returned {A} (a b : A) (w w' : World) :
  ret a w = (w', Returned b) -> w' = w /\ b = a.
Proof. unfold ret. intros [= -> ->]. split; reflexivity. Qed.

(** *** Dates *)

(** [setHours(getHours() - 1)] takes one hour off the local time and
    reads the result back as an instant. *)
Lemma one_hour_before_local (from : Date) :
  one_hour_before LocalTZA from
  = UTC LocalTZA (LocalTime LocalTZA from - msPerHour)%Z.
Proof.
  unfold one_hour_before, setHours, getHours. cbv zeta.
  f_equal.
  unfold MakeDate, MakeTime, Day, HourFromTime, MinFromTime, SecFromTime,
    msFromTime, msPerDay, msPerHour.
  generalize (LocalTime LocalTZA from). intros t.
  Z.div_mod_to_equations. lia.
Qed.

(** It is one hour before [from] when that local time is read under
    the offset in force at [from]. *)
Lemma one_hour_before_exact (from : Date) :
  LocalTZA (LocalTime LocalTZA from - msPerHour)%Z false = LocalTZA from true ->
  one_hour_before LocalTZA from = (from - msPerHour)%Z.
Proof.
  intros Hsame. rewrite one_hour_before_local. unfold UTC.
  rewrite Hsame. unfold LocalTime. lia.
Qed.


(** *** Updates of the world *)

Lemma set_jobs_same (w : World) : set_jobs (fun _ => jobs w) w = w.
Proof. destruct w; reflexivity. Qed.

Lemma set_assets_same (w : World) : set_assets (fun _ => assets w) w = w.
Proof. destruct w; reflexivity. Qed.

Lemma set_outbox_same (w : World) : set_outbox (fun _ => outbox w) w = w.
Proof. destruct w; reflexivity. Qed.

(** *** The steps of the service, one by one *)

(** [cancelSheduler] always returns and touches the queue only: the
    referenced job, if any, is cancelled and the others stay. *)
Lemma cancelSheduler_run (b : option Booking) (w : World) :
  exists js,
    cancelSheduler b w = (set_jobs (fun _ => js) w, Returned tt)
    /\ (forall k, js !! k = None <-> jobs w !! k = None)
    /\ (forall ref j,
          b ≫= b_activeSchedulerReference = Some ref -> ref <> "" ->
          jobs w !! ref = Some j -> js !! ref = Some (cancelled j))
    /\ (forall k,
          b ≫= b_activeSchedulerReference <> Some k ->
          js !! k = jobs w !! k).
Proof.
  unfold cancelSheduler.
  destruct (b ≫= b_activeSchedulerReference) as [ref|] eqn:Href.
  - destruct (truthy ref) eqn:Htruthy.
    + exists (alter cancelled ref (jobs w)).
      split; [reflexivity|]. split; [|split].
      * intros k. rewrite lookup_alter. case_decide.
        -- subst k. destruct (jobs w !! ref); simpl; split; congruence.
        -- reflexivity.
      * intros ref' j [= <-] _ Hj. rewrite lookup_alter_eq, Hj. reflexivity.
      * intros k Hk. rewrite lookup_alter_ne; [reflexivity | congruence].
    + exists (jobs w). rewrite set_jobs_same.
      split; [reflexivity|]. split; [reflexivity|]. split; [|reflexivity].
      intros ref' j [= <-] Hne. apply truthy_false_iff in Htruthy.
      contradiction.
  - exists (jobs w). rewrite set_jobs_same.
    split; [reflexivity|]. split; [reflexivity|]. split; [|reflexivity].
    intros ref' j [=].
Qed.

(** The start of the update branch always returns and touches the
    queue only; it asks for [AVAILABLE] exactly when the requested
    status is terminal and the stored booking is ongoing or overdue. *)
Lemma end_of_booking_run (id : string) (booking : BookingInput) (w : World) :
  exists js,
    end_of_booking id booking w
    = (set_jobs (fun _ => js) w,
       Returned
         (if isTerminalState booking
          then
            match bookings w !! id with
            | Some old =>
                if includes [ONGOING; OVERDUE] (b_status old)
                then Some AVAILABLE else None
            | None => None
            end
          else None))
    /\ (forall k, js !! k = None <-> jobs w !! k = None)
    /\ (isTerminalState booking = false -> js = jobs w).
Proof.
  unfold end_of_booking. destruct (isTerminalState booking).
  - unfold bind at 1. unfold db_booking_findFirst at 1.
    destruct (cancelSheduler_run (bookings w !! id) w)
      as (js & Hrun & Hnone & _).
    exists js. split; [|split; [exact Hnone | discriminate]].
    unfold bind.
    replace (match bookings w !! id with
             | Some b => Some b
             | None => None
             end) with (bookings w !! id) by (destruct (bookings w !! id); reflexivity).
    rewrite Hrun. reflexivity.
  - exists (jobs w). rewrite set_jobs_same.
    split; [reflexivity|]. split; reflexivity.
Qed.

Lemma db_booking_update_outcome (id : string) (data : BookingUpdateInput)
  (w w' : World) (o : Outcome BookingPayload) :
  db_booking_update id data w = (w', o) ->
  (w' = w /\ exists e, o = Thrown e)
  \/ (exists old,
        bookings w !! id = Some old
        /\ references_exist w data = true
        /\ w' = set_bookings (insert id (updated data old)) w
        /\ o = Returned (payload w id (updated data old))).
Proof.
  unfold db_booking_update. destruct (bookings w !! id) as [old|].
  - destruct (references_exist w data); intros [= <- <-].
    + right. exists old. repeat split; reflexivity.
    + left. split; [reflexivity | eexists; reflexivity].
  - intros [= <- <-]. left. split; [reflexivity | eexists; reflexivity].
Qed.

Lemma db_booking_update_returned (id : string) (data : BookingUpdateInput)
  (w w' : World) (res : BookingPayload) :
  db_booking_update id data w = (w', Returned res) ->
  exists old,
    bookings w !! id = Some old
    /\ references_exist w data = true
    /\ w' = set_bookings (insert id (updated data old)) w
    /\ res = payload w id (updated data old).
Proof.
  intros H. apply db_booking_update_outcome in H as [[_ [e [=]]]|H].
  destruct H as (old & Hold & Href & Hw & [= ->]).
  exists old. repeat split; assumption.
Qed.

(** The related assets that exist are what the payload includes. *)
Lemma included_assets_ids (w : World) (b : Booking) (i : string) :
  In i (map a_id (included_assets w b))
  <-> In i (b_assets b) /\ is_Some (assets w !! i).
Proof.
  unfold included_assets. rewrite <- list_elem_of_In, list_elem_of_fmap.
  split.
  - intros (a & -> & Ha). apply list_elem_of_omap in Ha as (j & Hj & Hlook).
    destruct (assets w !! j) as [s|] eqn:Hs; [|discriminate].
    injection Hlook as <-. simpl. split.
    + apply list_elem_of_In. exact Hj.
    + rewrite Hs. eexists; reflexivity.
  - intros [Hin [s Hs]]. exists (mkAsset i s). split; [reflexivity|].
    apply list_elem_of_omap. exists i. split.
    + apply list_elem_of_In. exact Hin.
    + rewrite Hs. reflexivity.
Qed.

(** [updateMany] sets the status of the listed assets and leaves the
    others as they are. *)
Lemma db_asset_updateMany_run (status : AssetStatus) (ids : list string)
  (w : World) :
  exists table,
    db_asset_updateMany status ids status w
    = (set_assets (fun _ => table) w, Returned tt)
    /\ (forall i s, In i ids -> assets w !! i = Some s ->
                    table !! i = Some status)
    /\ (forall i, ~ In i ids -> table !! i = assets w !! i)
    /\ (forall i, table !! i = None <-> assets w !! i = None).
Proof.
  eexists. split; [reflexivity|]. split; [|split].
  - intros i s Hin Hs. rewrite map_lookup_imap, Hs. simpl.
    apply list_elem_of_In in Hin.
    rewrite (bool_decide_eq_true_2 _ Hin), andb_true_r.
    destruct (decide (s = status)) as [->|Hne].
    + rewrite bool_decide_eq_false_2 by (intros H; apply H; reflexivity).
      reflexivity.
    + rewrite bool_decide_eq_true_2 by exact Hne. reflexivity.
  - intros i Hnin. rewrite map_lookup_imap.
    destruct (assets w !! i) as [s|]; [|reflexivity]. simpl.
    rewrite (bool_decide_eq_false_2 (i ∈ ids)), andb_false_r; [reflexivity|].
    intros H. apply Hnin, list_elem_of_In. exact H.
  - intros i. rewrite map_lookup_imap.
    destruct (assets w !! i); simpl; split; congruence.
Qed.

Lemma push_asset_states_run (res : BookingPayload)
  (newAssetStatus : option AssetStatus) (w : World) :
  exists table,
    push_asset_states res newAssetStatus w
    = (set_assets (fun _ => table) w, Returned tt)
    /\ (newAssetStatus = None -> table = assets w)
    /\ (forall status i s,
          newAssetStatus = Some status ->
          In i (map a_id (r_assets res)) -> assets w !! i = Some s ->
          table !! i = Some status)
    /\ (forall i, ~ In i (map a_id (r_assets res)) ->
                  table !! i = assets w !! i).
Proof.
  destruct newAssetStatus as [status|]; simpl.
  - destruct (db_asset_updateMany_run status (map a_id (r_assets res)) w)
      as (table & Hrun & Hin & Hout & _).
    exists table. split; [exact Hrun|]. split; [discriminate|]. split.
    + intros status' i s [= <-]. apply Hin.
    + exact Hout.
  - exists (assets w). rewrite set_assets_same.
    split; [reflexivity|]. split; [reflexivity|]. split.
    + intros status i s [=].
    + reflexivity.
Qed.


(** The update data never carries the creator, the organization or a
    scheduler reference, and building it leaves the world as it is. *)
Lemma upsert_data_run (booking : BookingInput) (w w1 : World)
  (o : Outcome BookingUpdateInput) :
  upsert_data booking w = (w1, o) ->
  w1 = w /\ forall data, o = Returned data -> built_from booking data.
Proof.
  unfold upsert_data, built_from.
  destruct (otruthy (i_custodianUserId booking)).
  - intros [= <- <-]. split; [reflexivity|].
    intros data [= <-].
    destruct (has_length (i_assetIds booking)); repeat split; reflexivity.
  - destruct (otruthy (i_custodianTeamMemberId booking)).
    + unfold bind, db_teamMember_findUnique.
      destruct (teamMembers w !! default "" (i_custodianTeamMemberId booking))
        as [tm|]; simpl.
      * intros [= <- <-]. split; [reflexivity|].
        intros data [= <-].
        destruct (has_length (i_assetIds booking)); repeat split; reflexivity.
      * intros [= <- <-]. split; [reflexivity|]. intros data [=].
    + intros [= <- <-]. split; [reflexivity|].
      intros data [= <-].
      destruct (has_length (i_assetIds booking)); repeat split; reflexivity.
Qed.

(** Rescheduling the reminder: nothing happens unless the booking has
    a [from] date and the requested status is [RESERVED]; then the
    referenced job is cancelled, a job is queued under an unused id,
    and the booking is pointed at it. *)
Lemma reschedule_reminder_run (booking : BookingInput) (res : BookingPayload)
  (hints : ClientHint) (w w' : World) (o : Outcome unit) :
  reschedule_reminder checkoutReminder LocalTZA booking res hints w = (w', o) ->
  ((b_from (r_row res) = None \/ i_status booking <> Some RESERVED)
   /\ w' = w /\ o = Returned tt)
  \/ (exists from js jid,
        b_from (r_row res) = Some from
        /\ i_status booking = Some RESERVED
        /\ (forall k, js !! k = None <-> jobs w !! k = None)
        /\ (forall ref j,
              b_activeSchedulerReference (r_row res) = Some ref ->
              ref <> "" -> jobs w !! ref = Some j ->
              js !! ref = Some (cancelled j))
        /\ js !! jid = None
        /\ let job :=
             mkJob checkoutReminder {| sd_id := r_id res; sd_hints := hints |}
               (one_hour_before LocalTZA from) false in
           (bookings w !! r_id res = None
            /\ w' = set_jobs (fun _ => <[jid := job]> js) w
            /\ o = Thrown RecordNotFound)
           \/ (exists b,
                 bookings w !! r_id res = Some b
                 /\ w' = set_bookings
                           (insert (r_id res) (updated (reference_data jid) b))
                           (set_jobs (fun _ => <[jid := job]> js) w)
                 /\ o = Returned tt)).
Proof.
  unfold reschedule_reminder.
  destruct (b_from (r_row res)) as [from|] eqn:Hfrom.
  - destruct (bool_decide (i_status booking = Some RESERVED)) eqn:Hstatus.
    + apply bool_decide_eq_true in Hstatus.
      destruct (cancelSheduler_run (Some (r_row res)) w)
        as (js & Hcancel & Hnone & Href & _).
      unfold bind at 1. rewrite Hcancel.
      unfold scheduleNextBookingJob, bind, scheduler_sendAfter,
        db_booking_update.
      simpl.
      intros Hrun. right.
      exists from, js, (fresh_string "job" js).
      split; [reflexivity|]. split; [exact Hstatus|].
      split; [exact Hnone|]. split; [exact Href|].
      split; [apply fresh_string_fresh|].
      destruct (bookings w !! r_id res) as [b|] eqn:Hb.
      * right. exists b. injection Hrun as <- <-.
        split; [reflexivity|]. split; reflexivity.
      * left. injection Hrun as <- <-.
        split; [reflexivity|]. split; reflexivity.
    + apply bool_decide_eq_false in Hstatus.
      intros [= <- <-]. left. split; [right; exact Hstatus|].
      split; reflexivity.
  - intros [= <- <-]. left. split; [left; reflexivity|]. split; reflexivity.
Qed.


(** The mail for a status change: at most one email, to the custodian
    user, and exactly when [mail_due] holds. *)
Lemma notify_status_change_run (booking : BookingInput)
  (data : BookingUpdateInput) (res : BookingPayload) (hints : ClientHint)
  (w : World) :
  exists sent,
    notify_status_change booking data res hints w
    = (set_outbox (fun _ => outbox w ++ sent) w, Returned tt)
    /\ (forall status email,
          d_status data = Some status ->
          u_email <$> r_custodianUser res = Some email -> email <> "" ->
          mail_due calcTimeDifference status res (now w) ->
          exists e, sent = [e] /\ e_to e = email
                    /\ template_for status (e_text e))
    /\ (forall status,
          d_status data = Some status ->
          ~ mail_due calcTimeDifference status res (now w) -> sent = [])
    /\ (d_status data = None -> sent = [])
    /\ (u_email <$> r_custodianUser res = None -> sent = [])
    /\ (u_email <$> r_custodianUser res = Some "" -> sent = []).
Proof.
  assert (Hnone : forall A (x : A),
            (set_outbox (fun _ => outbox w ++ []) w, Returned x)
            = (w, Returned x)).
  { intros A x. rewrite app_nil_r, set_outbox_same. reflexivity. }
  unfold notify_status_change.
  destruct (d_status data) as [status|] eqn:Hstatus.
  2:{ exists []. rewrite Hnone. split; [reflexivity|].
      split; [intros ? ? [=]|]. split; [intros ? [=]|].
      repeat split; reflexivity. }
  destruct (u_email <$> r_custodianUser res) as [email|] eqn:Hemail.
  2:{ exists []. rewrite Hnone. split; [reflexivity|].
      split; [intros ? ? _ [=]|]. repeat split; reflexivity. }
  destruct (truthy email) eqn:Htruthy.
  2:{ apply truthy_false_iff in Htruthy. subst email.
      exists []. rewrite Hnone. split; [reflexivity|].
      split; [intros ? ? _ [= <-] Hne; contradiction|].
      repeat split; reflexivity. }
  apply truthy_true_iff in Htruthy.
  destruct status; simpl.
  (* DRAFT *)
  - exists []. rewrite Hnone. split; [reflexivity|]. split.
    + intros ? ? [= <-] _ _ [H|[H|[H _]]]; discriminate H.
    + repeat split; try reflexivity; discriminate.
  (* RESERVED *)
  - eexists [_]. split; [reflexivity|]. split.
    + intros ? ? [= <-] [= <-] _ _. eexists. split; [reflexivity|].
      split; [reflexivity | exact I].
    + split; [|split; [discriminate|split; [discriminate|]]].
      * intros ? [= <-] Hnot. exfalso. apply Hnot. left. reflexivity.
      * intros [= Heq]. congruence.
  (* ONGOING *)
  - destruct (b_to (r_row res)) as [to|] eqn:Hto.
    + unfold bind, new_Date.
      destruct (hours (calcTimeDifference to (now w)) <? 1)%Z eqn:Hlt.
      * apply Z.ltb_lt in Hlt. unfold sendCheckinReminder.
        destruct (r_custodianUser res) as [u|] eqn:Hu; [|discriminate].
        injection Hemail as Hemail.
        eexists [_]. split; [reflexivity|]. split.
        -- intros ? ? [= <-] [= <-] _ _. eexists. split; [reflexivity|].
           split; [exact Hemail | exact I].
        -- split; [|split; [discriminate|split; [discriminate|]]].
           ++ intros ? [= <-] Hnot. exfalso. apply Hnot. right. right.
              split; [reflexivity|]. exists to. split; [exact Hto|exact Hlt].
           ++ intros [= Heq]. congruence.
      * apply Z.ltb_ge in Hlt.
        exists []. rewrite Hnone. split; [reflexivity|]. split.
        -- intros ? ? [= <-] _ _ [H|[H|(_ & to' & Hto' & H)]];
             try discriminate H.
           rewrite Hto in Hto'. injection Hto' as <-. lia.
        -- repeat split; try reflexivity; discriminate.
    + exists []. rewrite Hnone. split; [reflexivity|]. split.
      * intros ? ? [= <-] _ _ [H|[H|(_ & to' & Hto' & _)]];
          try discriminate H.
        rewrite Hto in Hto'. discriminate Hto'.
      * repeat split; try reflexivity; discriminate.
  (* OVERDUE *)
  - exists []. rewrite Hnone. split; [reflexivity|]. split.
    + intros ? ? [= <-] _ _ [H|[H|[H _]]]; discriminate H.
    + repeat split; try reflexivity; discriminate.
  (* COMPLETE *)
  - eexists [_]. split; [reflexivity|]. split.
    + intros ? ? [= <-] [= <-] _ _. eexists. split; [reflexivity|].
      split; [reflexivity | exact I].
    + split; [|split; [discriminate|split; [discriminate|]]].
      * intros ? [= <-] Hnot. exfalso. apply Hnot. right. left. reflexivity.
      * intros [= Heq]. congruence.
  (* ARCHIVED *)
  - exists []. rewrite Hnone. split; [reflexivity|]. split.
    + intros ? ? [= <-] _ _ [H|[H|[H _]]]; discriminate H.
    + repeat split; try reflexivity; discriminate.
  (* CANCELLED *)
  - exists []. rewrite Hnone. split; [reflexivity|]. split.
    + intros ? ? [= <-] _ _ [H|[H|[H _]]]; discriminate H.
    + repeat split; try reflexivity; discriminate.
Qed.


(** *** The two branches of [upsertBooking] *)

(** A call first builds the update data, which leaves the world as it
    is, and then takes the update branch when the id is truthy and the
    create branch otherwise. *)
Lemma upsertBooking_branches (booking : BookingInput) (hints : ClientHint)
  (w w' : World) (o : Outcome BookingPayload) :
  upsertBooking booking hints w = (w', o) ->
  (w' = w /\ exists e, o = Thrown e)
  \/ (exists data,
        built_from booking data
        /\ upsert_data booking w = (w, Returned data)
        /\ (if otruthy (i_id booking)
            then upsert_existing (default "" (i_id booking)) booking data
                   hints w
            else upsert_new booking data hints w) = (w', o)).
Proof.
  unfold Booking.upsertBooking. intros Hrun.
  apply bind_outcome in Hrun as [(w1 & data & Hdata & Hrun)|(e & Hdata & ->)].
  - pose proof (upsert_data_run _ _ _ _ Hdata) as [-> Hbuilt].
    right. exists data. split; [apply Hbuilt; reflexivity|].
    split; [exact Hdata|].
    destruct (otruthy (i_id booking)); exact Hrun.
  - apply upsert_data_run in Hdata as [-> _].
    left. split; [reflexivity | eexists; reflexivity].
Qed.

(** The update branch, when it returns: the stored booking is
    rewritten with the data, the assets of the returned booking get
    the new asset status if there is one, the reminder is rescheduled
    and the mail is sent. *)
Lemma upsert_existing_returned (id : string) (booking : BookingInput)
  (data : BookingUpdateInput) (hints : ClientHint) (w w' : World)
  (res : BookingPayload) :
  upsert_existing id booking data hints w = (w', Returned res) ->
  exists old js table w4 sent,
    bookings w !! id = Some old
    /\ res = payload w id (updated data old)
    /\ (forall k, js !! k = None <-> jobs w !! k = None)
    /\ (isTerminalState booking = false -> js = jobs w)
    /\ (let newAssetStatus :=
          asset_status_after booking res
            (if isTerminalState booking
             then if includes [ONGOING; OVERDUE] (b_status old)
                  then Some AVAILABLE else None
             else None) in
        (newAssetStatus = None -> table = assets w)
        /\ (forall status i s,
              newAssetStatus = Some status ->
              In i (map a_id (r_assets res)) -> assets w !! i = Some s ->
              table !! i = Some status)
        /\ (forall i, ~ In i (map a_id (r_assets res)) ->
                      table !! i = assets w !! i))
    /\ reschedule_reminder checkoutReminder LocalTZA booking res hints
         (mkWorld (<[id := updated data old]> (bookings w)) table (users w)
            (teamMembers w) (organizations w) js (outbox w) (now w))
       = (w4, Returned tt)
    /\ w' = set_outbox (fun _ => outbox w4 ++ sent) w4
    /\ (forall status email,
          d_status data = Some status ->
          u_email <$> r_custodianUser res = Some email -> email <> "" ->
          mail_due calcTimeDifference status res (now w4) ->
          exists e, sent = [e] /\ e_to e = email
                    /\ template_for status (e_text e))
    /\ (forall status,
          d_status data = Some status ->
          ~ mail_due calcTimeDifference status res (now w4) -> sent = [])
    /\ (d_status data = None -> sent = [])
    /\ (u_email <$> r_custodianUser res = None -> sent = [])
    /\ (u_email <$> r_custodianUser res = Some "" -> sent = []).
Proof.
  unfold Booking.upsert_existing. intros Hrun.
  destruct (end_of_booking_run id booking w) as (js & Hend & Hjs & Hsame).
  unfold bind at 1 in Hrun. rewrite Hend in Hrun.
  apply bind_returned in Hrun as (w2 & res' & Hupdate & Hrun).
  apply db_booking_update_returned in Hupdate
    as (old & Hold & _ & -> & ->).
  simpl in Hold.
  rewrite Hold in Hrun.
  match type of Hrun with
  | bind (push_asset_states ?r ?n) _ ?w0 = _ =>
      destruct (push_asset_states_run r n w0)
        as (table & Hpush & Htable1 & Htable2 & Htable3)
  end.
  unfold bind at 1 in Hrun. rewrite Hpush in Hrun.
  apply bind_returned in Hrun as (w4 & [] & Hsched & Hrun).
  destruct (notify_status_change_run booking data
              (payload w id (updated data old)) hints w4)
    as (sent & Hnotify & Hsent).
  unfold bind at 1 in Hrun.
  change (payload _ id (updated data old))
    with (payload w id (updated data old)) in Hrun.
  rewrite Hnotify in Hrun. apply ret_returned in Hrun as [-> ->].
  exists old, js, table, w4, sent.
  split; [exact Hold|]. split; [reflexivity|].
  split; [exact Hjs|]. split; [exact Hsame|].
  split; [split; [exact Htable1 | split; [exact Htable2 | exact Htable3]]|].
  split; [exact Hsched|]. split; [reflexivity|]. exact Hsent.
Qed.


(** A truthy id selects the update branch. *)
Lemma upsertBooking_existing (booking : BookingInput) (hints : ClientHint)
  (w w' : World) (res : BookingPayload) (id : string) :
  i_id booking = Some id -> id <> "" ->
  upsertBooking booking hints w = (w', Returned res) ->
  exists data,
    built_from booking data
    /\ upsert_existing id booking data hints w = (w', Returned res).
Proof.
  intros Hid Hne Hrun.
  apply upsertBooking_branches in Hrun as [[_ [e [=]]]|Hrun].
  destruct Hrun as (data & Hbuilt & _ & Hrun).
  rewrite Hid in Hrun. simpl in Hrun.
  rewrite (proj2 (truthy_true_iff id) Hne) in Hrun.
  exists data. split; assumption.
Qed.

(** The update branch returns whenever the booking is stored, the
    input names no custodian and the assets to attach exist. *)
Lemma upsertBooking_existing_returns (booking : BookingInput)
  (hints : ClientHint) (w : World) (id : string) (old : Booking) :
  i_id booking = Some id -> id <> "" ->
  bookings w !! id = Some old ->
  otruthy (i_custodianUserId booking) = false ->
  otruthy (i_custodianTeamMemberId booking) = false ->
  forallb (has_row (assets w)) (default [] (i_assetIds booking)) = true ->
  exists w' res, upsertBooking booking hints w = (w', Returned res).
Proof.
  intros Hid Hne Hold Huser Hmember Hassets.
  unfold Booking.upsertBooking, upsert_data.
  rewrite Huser, Hmember. unfold bind at 1, ret at 1.
  assert (otruthy (i_id booking) = true) as ->
    by (rewrite Hid; apply truthy_true_iff, Hne).
  rewrite Hid. simpl default.
  set (data := if has_length (i_assetIds booking) then _ else _).
  assert (Hrefs : forall js,
             references_exist (set_jobs (fun _ => js) w) data = true).
  { intros js. unfold references_exist, data. simpl.
    destruct (has_length (i_assetIds booking)); simpl.
    - rewrite Hassets. reflexivity.
    - reflexivity. }
  unfold Booking.upsert_existing.
  destruct (end_of_booking_run id booking w) as (js & Hend & _).
  unfold bind at 1. rewrite Hend.
  unfold bind at 1, db_booking_update at 1.
  simpl bookings. rewrite Hold, Hrefs.
  match goal with
  | |- context [bind (push_asset_states ?r ?n) _ ?w0] =>
      destruct (push_asset_states_run r n w0) as (table & Hpush & _)
  end.
  unfold bind at 1. rewrite Hpush.
  match goal with
  | |- context [bind (reschedule_reminder ?k ?z ?b ?r ?h) _ ?w0] =>
      destruct (reschedule_reminder k z b r h w0) as [w4 o4] eqn:Hsched
  end.
  assert (o4 = Returned tt) as ->.
  { apply reschedule_reminder_run in Hsched as [(_ & _ & ->)|Hsched];
      [reflexivity|].
    destruct Hsched as (from & js' & jid & _ & _ & _ & _ & _ & Hsched).
    cbv zeta in Hsched.
    destruct Hsched as [(Hgone & _)|(b & _ & _ & ->)]; [|reflexivity].
    simpl in Hgone. rewrite lookup_insert_eq in Hgone. discriminate Hgone. }
  unfold bind at 1. rewrite Hsched.
  match goal with
  | |- context [bind (notify_status_change ?b ?d ?r ?h) _ ?w0] =>
      destruct (notify_status_change_run b d r h w0) as (sent & Hnotify & _)
  end.
  unfold bind at 1. rewrite Hnotify.
  eexists _, _. reflexivity.
Qed.

(** The status of the updated booking is the requested one. *)
Lemma updated_status (data : BookingUpdateInput) (old : Booking)
  (s : BookingStatus) :
  d_status data = Some s -> b_status (updated data old) = s.
Proof. intros H. unfold updated. simpl. rewrite H. reflexivity. Qed.

(** With a status other than [RESERVED] nothing is rescheduled. *)
Lemma reschedule_reminder_skipped (booking : BookingInput)
  (res : BookingPayload) (hints : ClientHint) (w w' : World)
  (o : Outcome unit) :
  i_status booking <> Some RESERVED ->
  reschedule_reminder checkoutReminder LocalTZA booking res hints w = (w', o) ->
  w' = w.
Proof.
  intros Hne Hrun.
  apply reschedule_reminder_run in Hrun as [(_ & -> & _)|Hrun];
    [reflexivity|].
  destruct Hrun as (from & js & jid & _ & Hres & _). contradiction.
Qed.

(** C1: a call that carries a booking id and requests [COMPLETE],
    [CANCELLED] or [ARCHIVED]: if the stored booking was [ONGOING] or
    [OVERDUE], every asset attached to the updated booking is
    [AVAILABLE] afterwards (the other assets keep their status);
    otherwise no asset status changes. *)
Theorem upsertBooking_terminal_assets (booking : BookingInput)
  (hints : ClientHint) (w w' : World) (res : BookingPayload)
  (id : string) (s : BookingStatus) (old : Booking) :
  i_id booking = Some id -> id <> "" ->
  i_status booking = Some s ->
  s = COMPLETE \/ s = CANCELLED \/ s = ARCHIVED ->
  bookings w !! id = Some old ->
  upsertBooking booking hints w = (w', Returned res) ->
  bookings w' !! id = Some (r_row res)
  /\ (b_status old = ONGOING \/ b_status old = OVERDUE ->
        (forall a st,
           In a (b_assets (r_row res)) -> assets w !! a = Some st ->
           assets w' !! a = Some AVAILABLE)
        /\ (forall a, ~ In a (b_assets (r_row res)) ->
                      assets w' !! a = assets w !! a))
  /\ (b_status old <> ONGOING /\ b_status old <> OVERDUE ->
        assets w' = assets w).
Proof.
  intros Hid Hne Hstatus Hterminal Hold Hrun.
  apply (upsertBooking_existing _ _ _ _ _ id Hid Hne) in Hrun
    as (data & (Hds & _) & Hrun).
  apply upsert_existing_returned in Hrun
    as (old' & js & table & w4 & sent & Hold' & -> & _ & _ & Htable
        & Hsched & -> & _).
  rewrite Hold in Hold'. injection Hold' as <-.
  apply reschedule_reminder_skipped in Hsched.
  2:{ rewrite Hstatus. intros [= ->].
      destruct Hterminal as [H|[H|H]]; discriminate H. }
  subst w4. simpl.
  assert (isTerminalState booking = true) as Hterm.
  { unfold isTerminalState. rewrite Hstatus.
    destruct Hterminal as [-> | [-> | ->]]; reflexivity. }
  assert (d_status data = Some s) as Hdstatus by congruence.
  assert (asset_status_after booking (payload w id (updated data old))
            (if includes [ONGOING; OVERDUE] (b_status old)
             then Some AVAILABLE else None)
          = if includes [ONGOING; OVERDUE] (b_status old)
            then Some AVAILABLE else None) as Hafter.
  { unfold asset_status_after. simpl r_row.
    rewrite (updated_status _ _ _ Hdstatus), Hstatus.
    destruct Hterminal as [-> | [-> | ->]]; reflexivity. }
  rewrite Hterm, Hafter in Htable. cbv zeta in Htable.
  destruct Htable as (Hnone & Hsome & Hother).
  split; [apply lookup_insert_eq|]. split.
  - intros Hactive.
    assert (includes [ONGOING; OVERDUE] (b_status old) = true) as Hinc.
    { destruct Hactive as [-> | ->]; reflexivity. }
    rewrite Hinc in Hsome. split.
    + intros a st Hin Ha. apply (Hsome AVAILABLE a st eq_refl); [|exact Ha].
      apply included_assets_ids. split; [exact Hin|].
      rewrite Ha. eexists; reflexivity.
    + intros a Hnin. destruct (assets w !! a) as [st|] eqn:Ha.
      * rewrite Hother; [exact Ha|]. intros Hin.
        apply included_assets_ids in Hin as [Hin _]. contradiction.
      * rewrite Hother; [exact Ha|]. intros Hin.
        apply included_assets_ids in Hin as [_ [st Hst]]. congruence.
  - intros [Hn1 Hn2]. apply Hnone.
    destruct (b_status old); try reflexivity; contradiction.
Qed.

(** C2: a call that carries a booking id: if the requested status is
    [ONGOING], or the updated booking is [ONGOING] and the request
    attaches at least one asset id, then every asset attached to the
    updated booking is [CHECKED_OUT] afterwards. *)
Theorem upsertBooking_ongoing_assets (booking : BookingInput)
  (hints : ClientHint) (w w' : World) (res : BookingPayload) (id : string) :
  i_id booking = Some id -> id <> "" ->
  upsertBooking booking hints w = (w', Returned res) ->
  i_status booking = Some ONGOING
  \/ (b_status (r_row res) = ONGOING
      /\ exists a ids, i_assetIds booking = Some (a :: ids)) ->
  bookings w' !! id = Some (r_row res)
  /\ forall a st,
       In a (b_assets (r_row res)) -> assets w !! a = Some st ->
       assets w' !! a = Some CHECKED_OUT.
Proof.
  intros Hid Hne Hrun Hcond.
  apply (upsertBooking_existing _ _ _ _ _ id Hid Hne) in Hrun
    as (data & (Hds & _) & Hrun).
  apply upsert_existing_returned in Hrun
    as (old & js & table & w4 & sent & Hold & -> & _ & _ & Htable
        & Hsched & -> & _).
  apply reschedule_reminder_skipped in Hsched.
  2:{ intros Hres. destruct Hcond as [H|[H _]]; [congruence|].
      change (b_status (updated data old) = ONGOING) in H.
      rewrite <- Hds in Hres.
      rewrite (updated_status _ _ _ Hres) in H. discriminate H. }
  subst w4. simpl.
  match type of Htable with
  | let _ := asset_status_after ?b ?r ?n in _ =>
      assert (asset_status_after b r n = Some CHECKED_OUT) as Hafter
  end.
  { unfold asset_status_after. destruct Hcond as [-> | [-> (a & ids & ->)]];
      [reflexivity|]. simpl. rewrite orb_true_r. reflexivity. }
  cbv zeta in Htable. rewrite Hafter in Htable.
  destruct Htable as (_ & Hsome & _).
  split; [apply lookup_insert_eq|].
  intros a st Hin Ha. apply (Hsome CHECKED_OUT a st eq_refl); [|exact Ha].
  apply included_assets_ids. split; [exact Hin|].
  rewrite Ha. eexists; reflexivity.
Qed.


(** Rescheduling touches the bookings and the queue only. *)
Lemma reschedule_reminder_frame (booking : BookingInput)
  (res : BookingPayload) (hints : ClientHint) (w w' : World)
  (o : Outcome unit) :
  reschedule_reminder checkoutReminder LocalTZA booking res hints w = (w', o) ->
  assets w' = assets w /\ users w' = users w /\ outbox w' = outbox w
  /\ now w' = now w.
Proof.
  intros Hrun.
  apply reschedule_reminder_run in Hrun as [(_ & -> & _)|Hrun].
  - repeat split; reflexivity.
  - destruct Hrun as (from & js & jid & _ & _ & _ & _ & _ & Hrun).
    cbv zeta in Hrun.
    destruct Hrun as [(_ & -> & _)|(b & _ & -> & _)];
      repeat split; reflexivity.
Qed.

(** [create] stores the new booking under an id that was not in use. *)
Lemma db_booking_create_returned (data : BookingUpdateInput) (w w' : World)
  (res : BookingPayload) :
  db_booking_create data w = (w', Returned res) ->
  bookings w !! r_id res = None
  /\ w' = set_bookings (insert (r_id res) (r_row res)) w
  /\ d_name data = Some (b_name (r_row res))
  /\ d_creator data = Some (b_creatorId (r_row res))
  /\ d_organization data = Some (b_organizationId (r_row res))
  /\ b_status (r_row res) = default DRAFT (d_status data).
Proof.
  unfold db_booking_create.
  destruct (d_name data) as [n|]; [|discriminate].
  destruct (d_creator data) as [c|]; [|discriminate].
  destruct (d_organization data) as [org|]; [|discriminate].
  destruct (is_disconnect (d_custodianUser data)
            || is_disconnect (d_custodianTeamMember data)); [discriminate|].
  destruct (references_exist w data); [|discriminate].
  intros [= <- <-]. simpl.
  split; [apply fresh_string_fresh|]. repeat split; reflexivity.
Qed.

(** X23: on the create path and on the update path, when the
    resulting booking has a [from] date and the requested status is
    [RESERVED], the job the booking references is cancelled, a
    checkout-reminder job is queued under a new id for the instant
    that [setHours(getHours() - 1)] makes of [from], and the stored
    booking references that job.  That instant is one hour before
    [from] when the local time one hour before that of [from] is read
    under the offset in force at [from], as it is where the offset
    never changes. *)
Theorem upsertBooking_reserved_reminder (booking : BookingInput)
  (hints : ClientHint) (w w' : World) (res : BookingPayload) (from : Date) :
  upsertBooking booking hints w = (w', Returned res) ->
  i_status booking = Some RESERVED ->
  b_from (r_row res) = Some from ->
  (exists jid new,
     jobs w !! jid = None
     /\ jobs w' !! jid
        = Some (mkJob checkoutReminder
                  {| sd_id := r_id res; sd_hints := hints |}
                  (one_hour_before LocalTZA from) false)
     /\ bookings w' !! r_id res = Some new
     /\ b_activeSchedulerReference new = Some jid
     /\ forall ref j,
          b_activeSchedulerReference (r_row res) = Some ref -> ref <> "" ->
          jobs w !! ref = Some j ->
          jobs w' !! ref = Some (cancelled j))
  /\ (LocalTZA (LocalTime LocalTZA from - msPerHour)%Z false
      = LocalTZA from true ->
      one_hour_before LocalTZA from = (from - msPerHour)%Z).
Proof.
  intros Hrun Hstatus Hfrom.
  split; [|apply one_hour_before_exact].
  assert (Hsched : exists w3 w4 sent,
             reschedule_reminder checkoutReminder LocalTZA booking res hints
               w3 = (w4, Returned tt)
             /\ jobs w3 = jobs w
             /\ bookings w3 !! r_id res = Some (r_row res)
             /\ w' = set_outbox (fun _ => outbox w4 ++ sent) w4).
  { apply upsertBooking_branches in Hrun as [[_ [e [=]]]|Hrun].
    destruct Hrun as (data & Hbuilt & _ & Hrun).
    destruct (otruthy (i_id booking)).
    - apply upsert_existing_returned in Hrun
        as (old & js & table & w4 & sent & Hold & -> & _ & Hjs & _
            & Hsched & -> & _).
      eexists _, w4, sent. split; [exact Hsched|].
      split; [|split; [|reflexivity]].
      + simpl. apply Hjs. unfold isTerminalState. rewrite Hstatus.
        reflexivity.
      + simpl. apply lookup_insert_eq.
    - unfold Booking.upsert_new in Hrun.
      apply bind_returned in Hrun as (w1 & res' & Hcreate & Hrun).
      apply bind_returned in Hrun as (w4 & [] & Hsched & Hrun).
      apply ret_returned in Hrun as [-> ->].
      exists w1, w4, []. split; [exact Hsched|].
      apply db_booking_create_returned in Hcreate as (_ & -> & _).
      split; [reflexivity|]. split; [apply lookup_insert_eq|].
      rewrite app_nil_r, set_outbox_same. reflexivity. }
  destruct Hsched as (w3 & w4 & sent & Hsched & Hjobs & Hrow & ->).
  apply reschedule_reminder_run in Hsched as [([H|H] & _)|Hsched];
    [congruence | contradiction |].
  destruct Hsched as (from' & js & jid & Hfrom' & _ & Hnone & Hcancel
                      & Hfresh & Hsched).
  cbv zeta in Hsched.
  destruct Hsched as [(_ & _ & [=])|(b & Hb & -> & _)].
  rewrite Hfrom in Hfrom'. injection Hfrom' as <-.
  rewrite Hrow in Hb. injection Hb as <-.
  exists jid, (updated (reference_data jid) (r_row res)).
  split; [rewrite <- Hjobs; apply Hnone; exact Hfresh|].
  simpl. split; [apply lookup_insert_eq|].
  split; [apply lookup_insert_eq|]. split; [reflexivity|].
  intros ref j Href Hne Hj. rewrite <- Hjobs in Hj.
  rewrite lookup_insert_ne.
  - apply (Hcancel ref j Href Hne Hj).
  - intros ->. apply Hnone in Hfresh. congruence.
Qed.

Section HoursOfDifference.

(** [calcTimeDifference] counts the whole hours between two dates. *)
Hypothesis calcTimeDifference_hours :
  forall d1 d2 : Date,
    hours (calcTimeDifference d1 d2) = (Z.abs (d1 - d2) / msPerHour)%Z.

Lemma less_than_one_hour (d1 d2 : Date) :
  (hours (calcTimeDifference d1 d2) < 1)%Z
  <-> (Z.abs (d1 - d2) < msPerHour)%Z.
Proof.
  rewrite calcTimeDifference_hours. unfold msPerHour.
  pose proof (Z.abs_nonneg (d1 - d2)) as Habs. split.
  - intros Hlt. destruct (Z.lt_ge_cases (Z.abs (d1 - d2)) 3600000)
      as [H|H]; [exact H|].
    apply (Z.div_le_mono _ _ 3600000) in H; [|lia].
    change (3600000 / 3600000)%Z with 1%Z in H. lia.
  - intros Hlt. rewrite Z.div_small; lia.
Qed.

(** C3: an update that carries a status sends an email to the
    custodian user exactly when that user has an address and the new
    status is [RESERVED] (reserved-booking template), [COMPLETE]
    (completed-booking template), or [ONGOING] with a [to] date less
    than one hour from the current time (check-in reminder).  A change
    to [CANCELLED] or [ARCHIVED], and any change without a custodian
    address, sends nothing. *)
Theorem upsertBooking_status_mail (booking : BookingInput)
  (hints : ClientHint) (w w' : World) (res : BookingPayload) (id : string)
  (s : BookingStatus) :
  i_id booking = Some id -> id <> "" ->
  i_status booking = Some s ->
  upsertBooking booking hints w = (w', Returned res) ->
  let address := u_email <$> r_custodianUser res in
  let due :=
    (exists email, address = Some email /\ email <> "")
    /\ (s = RESERVED \/ s = COMPLETE
        \/ (s = ONGOING
            /\ exists to, b_to (r_row res) = Some to
                          /\ (Z.abs (to - now w) < msPerHour)%Z)) in
  (due ->
     exists e, outbox w' = outbox w ++ [e]
               /\ address = Some (e_to e)
               /\ template_for s (e_text e))
  /\ (~ due -> outbox w' = outbox w)
  /\ (s = CANCELLED \/ s = ARCHIVED -> outbox w' = outbox w)
  /\ (address = None \/ address = Some "" -> outbox w' = outbox w).
Proof.
  intros Hid Hne Hstatus Hrun address due. subst address due.
  apply (upsertBooking_existing _ _ _ _ _ id Hid Hne) in Hrun
    as (data & (Hds & _) & Hrun).
  apply upsert_existing_returned in Hrun
    as (old & js & table & w4 & sent & Hold & Hres & _ & _ & _
        & Hsched & -> & Hdue & Hnot & _ & Hnone & Hempty).
  apply reschedule_reminder_frame in Hsched as (_ & _ & Hout & Hnow).
  simpl in Hout, Hnow. simpl. rewrite Hout.
  rewrite Hnow in Hdue, Hnot.
  assert (d_status data = Some s) as Hdstatus by congruence.
  assert (Hiff : mail_due calcTimeDifference s res (now w)
                 <-> (s = RESERVED \/ s = COMPLETE
                      \/ (s = ONGOING
                          /\ exists to, b_to (r_row res) = Some to
                                        /\ (Z.abs (to - now w)
                                            < msPerHour)%Z))).
  { unfold mail_due. split.
    - intros [H|[H|(H & to & Hto & Hlt)]]; auto.
      right. right. split; [exact H|]. exists to. split; [exact Hto|].
      apply less_than_one_hour. exact Hlt.
    - intros [H|[H|(H & to & Hto & Hlt)]]; auto.
      right. right. split; [exact H|]. exists to. split; [exact Hto|].
      apply less_than_one_hour. exact Hlt. }
  assert (Hquiet : sent = [] -> outbox w ++ sent = outbox w).
  { intros ->. apply app_nil_r. }
  split; [|split; [|split]].
  - intros [(email & Hemail & Hemailne) Hs].
    destruct (Hdue s email Hdstatus Hemail Hemailne (proj2 Hiff Hs))
      as (e & -> & Hto & Htemplate).
    exists e. split; [reflexivity|]. split; [|exact Htemplate].
    rewrite Hemail, Hto. reflexivity.
  - intros Hndue. apply Hquiet.
    destruct (u_email <$> r_custodianUser res) as [email|] eqn:Hemail.
    + destruct (string_dec email "") as [->|Hemailne].
      * apply Hempty. reflexivity.
      * apply (Hnot s Hdstatus). intros Hs. apply Hndue. split.
        -- exists email. split; [reflexivity | exact Hemailne].
        -- apply Hiff. exact Hs.
    + apply Hnone. reflexivity.
  - intros Hs. apply Hquiet. apply (Hnot s Hdstatus).
    intros [H|[H|[H _]]]; destruct Hs as [-> | ->]; discriminate H.
  - intros [Hn|He]; apply Hquiet; [apply Hnone | apply Hempty]; assumption.
Qed.

End HoursOfDifference.


(** *** Creator and organization *)

Lemma owners_kept_refl (bs : gmap string Booking) : owners_kept bs bs.
Proof.
  intros k. destruct (bs !! k); [split; reflexivity | exact I].
Qed.

Lemma owners_kept_insert (bs : gmap string Booking) (k : string)
  (old new : Booking) :
  bs !! k = Some old ->
  b_creatorId new = b_creatorId old ->
  b_organizationId new = b_organizationId old ->
  owners_kept bs (<[k := new]> bs).
Proof.
  intros Hold Hc Ho k'. destruct (decide (k = k')) as [<-|Hne].
  - rewrite lookup_insert_eq, Hold. split; assumption.
  - rewrite lookup_insert_ne by exact Hne.
    destruct (bs !! k'); [split; reflexivity | exact I].
Qed.

Lemma owners_kept_trans (bs1 bs2 bs3 : gmap string Booking) :
  owners_kept bs1 bs2 -> owners_kept bs2 bs3 -> owners_kept bs1 bs3.
Proof.
  intros H12 H23 k. specialize (H12 k). specialize (H23 k).
  destruct (bs1 !! k), (bs2 !! k), (bs3 !! k); try contradiction;
    try exact I.
  destruct H12 as [Hc12 Ho12], H23 as [Hc23 Ho23]. split; congruence.
Qed.

(** Rescheduling rewrites at most the booking it is called for. *)
Lemma reschedule_reminder_bookings (booking : BookingInput)
  (res : BookingPayload) (hints : ClientHint) (w w' : World)
  (o : Outcome unit) :
  reschedule_reminder checkoutReminder LocalTZA booking res hints w = (w', o) ->
  bookings w' = bookings w
  \/ exists jid b,
       bookings w !! r_id res = Some b
       /\ bookings w' = <[r_id res := updated (reference_data jid) b]> (bookings w).
Proof.
  intros Hrun.
  apply reschedule_reminder_run in Hrun as [(_ & -> & _)|Hrun];
    [left; reflexivity|].
  destruct Hrun as (from & js & jid & _ & _ & _ & _ & _ & Hrun).
  cbv zeta in Hrun. destruct Hrun as [(_ & -> & _)|(b & Hb & -> & _)].
  - left. reflexivity.
  - right. exists jid, b. split; [exact Hb | reflexivity].
Qed.

(** Whatever its outcome, the update branch creates and deletes no
    booking, connects no creator and no organization, and rewrites the
    booking with the given id only. *)
Lemma upsert_existing_owners (id : string) (booking : BookingInput)
  (data : BookingUpdateInput) (hints : ClientHint) (w w' : World)
  (o : Outcome BookingPayload) :
  d_creator data = None -> d_organization data = None ->
  upsert_existing id booking data hints w = (w', o) ->
  owners_kept (bookings w) (bookings w')
  /\ forall k, k <> id -> bookings w' !! k = bookings w !! k.
Proof.
  intros Hc Ho. unfold Booking.upsert_existing. intros Hrun.
  destruct (end_of_booking_run id booking w) as (js & Hend & _).
  unfold bind at 1 in Hrun. rewrite Hend in Hrun.
  apply bind_outcome in Hrun as [(w2 & res & Hupdate & Hrun)|(e & Hupdate & _)].
  2:{ apply db_booking_update_outcome in Hupdate as [[-> _]|Hupdate].
      - split; [apply owners_kept_refl | reflexivity].
      - destruct Hupdate as (old & _ & _ & _ & [=]). }
  apply db_booking_update_outcome in Hupdate as [[_ [e [=]]]|Hupdate].
  destruct Hupdate as (old & Hold & _ & -> & [= ->]). simpl in Hold.
  assert (Hstep : owners_kept (bookings w)
                    (<[id := updated data old]> (bookings w))).
  { apply (owners_kept_insert _ _ old); [exact Hold | |];
      unfold updated; simpl; [rewrite Hc | rewrite Ho]; reflexivity. }
  match type of Hrun with
  | bind (push_asset_states ?r ?n) _ ?w0 = _ =>
      destruct (push_asset_states_run r n w0) as (table & Hpush & _)
  end.
  unfold bind at 1 in Hrun. rewrite Hpush in Hrun.
  assert (Hsched : forall res w3 w4 o4,
             r_id res = id ->
             bookings w3 = <[id := updated data old]> (bookings w) ->
             reschedule_reminder checkoutReminder LocalTZA booking res hints w3
             = (w4, o4) ->
             owners_kept (bookings w) (bookings w4)
             /\ forall k, k <> id -> bookings w4 !! k = bookings w !! k).
  { intros res w3 w4 o4 Hres Hw3 Hs.
    apply reschedule_reminder_bookings in Hs as [->|(jid & b & Hb & ->)];
      rewrite Hw3.
    - split; [exact Hstep|]. intros k Hk. apply lookup_insert_ne. congruence.
    - rewrite Hres in *. rewrite Hw3, lookup_insert_eq in Hb.
      injection Hb as <-. split.
      + eapply owners_kept_trans; [exact Hstep|].
        apply (owners_kept_insert _ _ (updated data old));
          [apply lookup_insert_eq | reflexivity | reflexivity].
      + intros k Hk. rewrite !lookup_insert_ne by congruence. reflexivity. }
  apply bind_outcome in Hrun as [(w4 & [] & Hs & Hrun)|(e & Hs & _)].
  - apply Hsched in Hs; [|reflexivity|reflexivity].
    match type of Hrun with
    | bind (notify_status_change ?b ?d ?r ?h) _ ?w0 = _ =>
        destruct (notify_status_change_run b d r h w0) as (sent & Hn & _)
    end.
    unfold bind at 1 in Hrun. rewrite Hn in Hrun.
    injection Hrun as <- _. exact Hs.
  - apply Hsched in Hs; [exact Hs|reflexivity|reflexivity].
Qed.

(** The update data takes the dates of the input. *)
Lemma upsert_data_dates (booking : BookingInput) (w w1 : World)
  (data : BookingUpdateInput) :
  upsert_data booking w = (w1, Returned data) ->
  d_from data = i_from booking /\ d_to data = i_to booking.
Proof.
  unfold upsert_data.
  destruct (otruthy (i_custodianUserId booking)).
  - intros [= <- <-].
    destruct (has_length (i_assetIds booking)); split; reflexivity.
  - destruct (otruthy (i_custodianTeamMemberId booking)).
    + unfold bind, db_teamMember_findUnique.
      destruct (teamMembers w !! default "" (i_custodianTeamMemberId booking))
        as [tm|]; simpl.
      * intros [= <- <-].
        destruct (has_length (i_assetIds booking)); split; reflexivity.
      * intros [=].
    + intros [= <- <-].
      destruct (has_length (i_assetIds booking)); split; reflexivity.
Qed.

(** [create] stores the dates of the data; an absent date is null. *)
Lemma db_booking_create_dates (data : BookingUpdateInput) (w w' : World)
  (res : BookingPayload) :
  db_booking_create data w = (w', Returned res) ->
  b_from (r_row res) = mjoin (d_from data)
  /\ b_to (r_row res) = mjoin (d_to data).
Proof.
  unfold db_booking_create.
  destruct (d_name data) as [n|]; [|discriminate].
  destruct (d_creator data) as [c|]; [|discriminate].
  destruct (d_organization data) as [org|]; [|discriminate].
  destruct (is_disconnect (d_custodianUser data)
            || is_disconnect (d_custodianTeamMember data)); [discriminate|].
  destruct (references_exist w data); [|discriminate].
  intros [= <- <-]. split; reflexivity.
Qed.

(** Rescheduling returns when the booking it is called for is
    stored. *)
Lemma reschedule_reminder_returns (booking : BookingInput)
  (res : BookingPayload) (hints : ClientHint) (w w' : World)
  (o : Outcome unit) :
  is_Some (bookings w !! r_id res) ->
  reschedule_reminder checkoutReminder LocalTZA booking res hints w = (w', o) ->
  o = Returned tt.
Proof.
  intros [b Hb] Hsched.
  apply reschedule_reminder_run in Hsched as [(_ & _ & ->)|Hsched];
    [reflexivity|].
  destruct Hsched as (from & js' & jid & _ & _ & _ & _ & _ & Hsched).
  cbv zeta in Hsched.
  destruct Hsched as [(Hgone & _)|(b' & _ & _ & ->)]; [|reflexivity].
  congruence.
Qed.

(** The update branch returns whenever the booking is stored and the
    rows the update data connects exist. *)
Lemma upsert_existing_returns (id : string) (booking : BookingInput)
  (data : BookingUpdateInput) (hints : ClientHint) (w : World)
  (old : Booking) :
  bookings w !! id = Some old ->
  references_exist w data = true ->
  exists w' res, upsert_existing id booking data hints w = (w', Returned res).
Proof.
  intros Hold Hrefs.
  unfold Booking.upsert_existing.
  destruct (end_of_booking_run id booking w) as (js & Hend & _).
  unfold bind at 1. rewrite Hend.
  unfold bind at 1, db_booking_update at 1.
  simpl bookings. rewrite Hold.
  change (references_exist (set_jobs (fun _ => js) w) data)
    with (references_exist w data).
  rewrite Hrefs.
  match goal with
  | |- context [bind (push_asset_states ?r ?n) _ ?w0] =>
      destruct (push_asset_states_run r n w0) as (table & Hpush & _)
  end.
  unfold bind at 1. rewrite Hpush.
  match goal with
  | |- context [bind (reschedule_reminder ?k ?z ?b ?r ?h) _ ?w0] =>
      destruct (reschedule_reminder k z b r h w0) as [w4 o4] eqn:Hsched
  end.
  assert (o4 = Returned tt) as ->.
  { apply reschedule_reminder_returns in Hsched; [exact Hsched|].
    simpl. rewrite lookup_insert_eq. eexists; reflexivity. }
  unfold bind at 1. rewrite Hsched.
  match goal with
  | |- context [bind (notify_status_change ?b ?d ?r ?h) _ ?w0] =>
      destruct (notify_status_change_run b d r h w0) as (sent & Hnotify & _)
  end.
  unfold bind at 1. rewrite Hnotify.
  eexists _, _. reflexivity.
Qed.

(** The create branch, when it returns: the new booking is stored
    under an id that was not in use, with the name, the status, the
    dates, the creator and the organization of the input; no other
    booking changes. *)
Lemma upsert_new_returned (booking : BookingInput)
  (data : BookingUpdateInput) (hints : ClientHint) (w w' : World)
  (res : BookingPayload) :
  built_from booking data ->
  d_from data = i_from booking -> d_to data = i_to booking ->
  upsert_new booking data hints w = (w', Returned res) ->
  bookings w !! r_id res = None
  /\ (exists new,
        bookings w' !! r_id res = Some new
        /\ i_name booking = Some (b_name new)
        /\ b_status new = default DRAFT (i_status booking)
        /\ b_from new = mjoin (i_from booking)
        /\ b_to new = mjoin (i_to booking)
        /\ i_creatorId booking = Some (b_creatorId new)
        /\ i_organizationId booking = Some (b_organizationId new))
  /\ forall k, k <> r_id res -> bookings w' !! k = bookings w !! k.
Proof.
  intros (Hds & Hdn & Hdc & Hdo & _) Hdf Hdt Hrun.
  unfold Booking.upsert_new in Hrun.
  apply bind_returned in Hrun as (w1 & res' & Hcreate & Hrun).
  apply bind_returned in Hrun as (w4 & [] & Hsched & Hrun).
  apply ret_returned in Hrun as [-> Hres]. subst res'.
  pose proof (db_booking_create_dates _ _ _ _ Hcreate) as [Hfrom Hto].
  apply db_booking_create_returned in Hcreate
    as (Hfresh & -> & Hn & Hc & Ho & Hs).
  assert (Hrow : i_name booking = Some (b_name (r_row res))
                 /\ b_status (r_row res) = default DRAFT (i_status booking)
                 /\ b_from (r_row res) = mjoin (i_from booking)
                 /\ b_to (r_row res) = mjoin (i_to booking)
                 /\ i_creatorId booking = Some (b_creatorId (r_row res))
                 /\ i_organizationId booking
                    = Some (b_organizationId (r_row res))).
  { rewrite Hs, Hfrom, Hto, <- Hds, <- Hdn, <- Hdf, <- Hdt, <- Hn.
    revert Hc Ho.
    destruct (i_creatorId booking) as [c|],
      (i_organizationId booking) as [org|]; simpl;
      try destruct (truthy c); try destruct (truthy org); simpl;
      rewrite ?Hdc, ?Hdo; intros Hc Ho; try discriminate;
      repeat split; congruence. }
  split; [exact Hfresh|].
  apply reschedule_reminder_bookings in Hsched as [->|(jid & b & Hb & ->)];
    simpl in *.
  - split.
    + exists (r_row res). split; [apply lookup_insert_eq | exact Hrow].
    + intros k Hk. apply lookup_insert_ne. congruence.
  - rewrite lookup_insert_eq in Hb. injection Hb as <-. split.
    + eexists. split; [apply lookup_insert_eq | exact Hrow].
    + intros k Hk. rewrite !lookup_insert_ne by congruence. reflexivity.
Qed.

(** The create branch returns when the input has a name, a creator
    and an organization that are stored, names no custodian, and the
    assets to attach exist. *)
Lemma upsertBooking_new_returns (booking : BookingInput)
  (hints : ClientHint) (w : World) (name creator organization : string) :
  otruthy (i_id booking) = false ->
  i_name booking = Some name ->
  i_creatorId booking = Some creator -> creator <> "" ->
  is_Some (users w !! creator) ->
  i_organizationId booking = Some organization -> organization <> "" ->
  organization ∈ organizations w ->
  otruthy (i_custodianUserId booking) = false ->
  otruthy (i_custodianTeamMemberId booking) = false ->
  forallb (has_row (assets w)) (default [] (i_assetIds booking)) = true ->
  exists w' res, upsertBooking booking hints w = (w', Returned res).
Proof.
  intros Hnoid Hname Hc Hcne Hcu Ho Hone Hoin Huser Hmember Hassets.
  unfold Booking.upsertBooking, upsert_data.
  rewrite Huser, Hmember. unfold bind at 1, ret at 1.
  rewrite Hnoid. unfold Booking.upsert_new.
  rewrite Hc, Ho. simpl otruthy. simpl default.
  rewrite (proj2 (truthy_true_iff creator) Hcne),
    (proj2 (truthy_true_iff organization) Hone).
  set (data := with_organization _ _).
  assert (Hcreate : exists w1 res,
             db_booking_create data w = (w1, Returned res)
             /\ is_Some (bookings w1 !! r_id res)).
  { assert (has_row (users w) creator = true) as Hrow
      by (apply bool_decide_eq_true_2; exact Hcu).
    unfold db_booking_create, data, references_exist.
    destruct (has_length (i_assetIds booking)); simpl; rewrite Hname;
      simpl; rewrite ?Hassets, Hrow, (bool_decide_eq_true_2 _ Hoin);
      simpl; (eexists _, _; split; [reflexivity|]); simpl;
      rewrite lookup_insert_eq; eexists; reflexivity. }
  destruct Hcreate as (w1 & res & Hcreate & Hstored).
  unfold bind at 1. rewrite Hcreate.
  destruct (reschedule_reminder checkoutReminder LocalTZA booking res hints w1)
    as [w4 o4] eqn:Hsched.
  apply reschedule_reminder_returns in Hsched as Ho4; [|exact Hstored].
  subst o4. unfold bind. rewrite Hsched.
  eexists _, _. reflexivity.
Qed.

(** C8: [upsertBooking] creates a booking when the input carries no id
    and updates the stored booking when it carries one.

    Without an id, a call whose input has a name, a creator and an
    organization that are stored, names no custodian and attaches
    assets that exist returns; a call that returns has stored, under
    an id that was not in use, a booking with the name, the status
    ([DRAFT] when none is given), the dates, the creator and the
    organization of the input, and has changed no other booking.

    With an id, a call returns whenever the booking is stored and the
    rows its update data connects exist; a call that returns has
    rewritten that booking: the name, the status and the dates are
    those of the input where it gives them and the stored ones where
    it does not.  The update data holds neither the creator nor the
    organization, and whatever the outcome of the call, no booking
    appears or disappears, every stored booking keeps its creator and
    its organization, and no booking but the one with the id
    changes. *)
Theorem upsertBooking_create_or_update (booking : BookingInput)
  (hints : ClientHint) (w w' : World) (o : Outcome BookingPayload) :
  upsertBooking booking hints w = (w', o) ->
  (otruthy (i_id booking) = false ->
     (forall res, o = Returned res ->
        bookings w !! r_id res = None
        /\ (exists new,
              bookings w' !! r_id res = Some new
              /\ i_name booking = Some (b_name new)
              /\ b_status new = default DRAFT (i_status booking)
              /\ b_from new = mjoin (i_from booking)
              /\ b_to new = mjoin (i_to booking)
              /\ i_creatorId booking = Some (b_creatorId new)
              /\ i_organizationId booking = Some (b_organizationId new))
        /\ forall k, k <> r_id res -> bookings w' !! k = bookings w !! k)
     /\ (forall name creator organization,
           i_name booking = Some name ->
           i_creatorId booking = Some creator -> creator <> "" ->
           is_Some (users w !! creator) ->
           i_organizationId booking = Some organization ->
           organization <> "" -> organization ∈ organizations w ->
           otruthy (i_custodianUserId booking) = false ->
           otruthy (i_custodianTeamMemberId booking) = false ->
           forallb (has_row (assets w)) (default [] (i_assetIds booking))
           = true ->
           exists res, o = Returned res))
  /\ (forall id, i_id booking = Some id -> id <> "" ->
        (forall w1 data,
           upsert_data booking w = (w1, Returned data) ->
           d_creator data = None /\ d_organization data = None)
        /\ owners_kept (bookings w) (bookings w')
        /\ (forall k, k <> id -> bookings w' !! k = bookings w !! k)
        /\ (forall res, o = Returned res ->
              r_id res = id
              /\ exists old new,
                   bookings w !! id = Some old
                   /\ bookings w' !! id = Some new
                   /\ b_status new = default (b_status old) (i_status booking)
                   /\ b_name new = default (b_name old) (i_name booking)
                   /\ b_from new = default (b_from old) (i_from booking)
                   /\ b_to new = default (b_to old) (i_to booking)
                   /\ b_creatorId new = b_creatorId old
                   /\ b_organizationId new = b_organizationId old)
        /\ (forall old data,
              bookings w !! id = Some old ->
              upsert_data booking w = (w, Returned data) ->
              references_exist w data = true ->
              exists res, o = Returned res)).
Proof.
  intros Hrun. split.
  - intros Hnoid. split.
    + intros res ->.
      apply upsertBooking_branches in Hrun as [[_ [e [=]]]|Hrun].
      destruct Hrun as (data & Hbuilt & Hdata & Hrun).
      apply upsert_data_dates in Hdata as [Hdf Hdt].
      rewrite Hnoid in Hrun.
      exact (upsert_new_returned _ _ _ _ _ _ Hbuilt Hdf Hdt Hrun).
    + intros name creator organization Hname Hc Hcne Hcu Ho Hone Hoin
        Huser Hmember Hassets.
      destruct (upsertBooking_new_returns booking hints w name creator
                  organization Hnoid Hname Hc Hcne Hcu Ho Hone Hoin Huser
                  Hmember Hassets) as (w'' & res & Hreturns).
      rewrite Hreturns in Hrun. injection Hrun as _ <-.
      exists res. reflexivity.
  - intros id Hid Hne. split.
    { intros w1 data Hdata. apply upsert_data_run in Hdata as [_ Hbuilt].
      destruct (Hbuilt data eq_refl) as (_ & _ & Hc & Ho & _).
      split; assumption. }
    assert (Htotal : forall old data,
              bookings w !! id = Some old ->
              upsert_data booking w = (w, Returned data) ->
              references_exist w data = true ->
              exists res, o = Returned res).
    { intros old data Hold Hdata Hrefs.
      destruct (upsert_existing_returns id booking data hints w old Hold Hrefs)
        as (w'' & res & Hreturns).
      unfold Booking.upsertBooking in Hrun.
      unfold bind at 1 in Hrun. rewrite Hdata, Hid in Hrun.
      simpl in Hrun. rewrite (proj2 (truthy_true_iff id) Hne) in Hrun.
      rewrite Hreturns in Hrun. injection Hrun as _ <-.
      exists res. reflexivity. }
    apply upsertBooking_branches in Hrun as [[-> [e ->]]|Hrun].
    { split; [apply owners_kept_refl|]. split; [reflexivity|].
      split; [intros res [=] | exact Htotal]. }
    destruct Hrun as (data & (Hds & Hdn & Hc & Ho & _) & Hdata & Hrun).
    apply upsert_data_dates in Hdata as [Hdf Hdt].
    rewrite Hid in Hrun. simpl in Hrun.
    rewrite (proj2 (truthy_true_iff id) Hne) in Hrun.
    destruct (upsert_existing_owners _ _ _ _ _ _ _ Hc Ho Hrun)
      as [Hkept Hothers].
    split; [exact Hkept|]. split; [exact Hothers|].
    split; [|exact Htotal].
    intros res ->.
    apply upsert_existing_returned in Hrun
      as (old & js & table & w4 & sent & Hold & -> & _ & _ & _
          & Hsched & -> & _).
    split; [reflexivity|]. exists old.
    apply reschedule_reminder_bookings in Hsched as [Hb|(jid & b & Hb & Hb')];
      simpl in *.
    + eexists. split; [exact Hold|].
      split; [rewrite Hb; apply lookup_insert_eq|].
      unfold updated. simpl. rewrite Hds, Hdn, Hdf, Hdt, Hc, Ho.
      repeat split; reflexivity.
    + rewrite lookup_insert_eq in Hb. injection Hb as <-.
      eexists. split; [exact Hold|].
      split; [rewrite Hb'; apply lookup_insert_eq|].
      unfold updated. simpl. rewrite Hds, Hdn, Hdf, Hdt, Hc, Ho.
      repeat split; reflexivity.
Qed.


(** *** [deleteBooking] *)

Lemma notify_deleted_run (b : BookingPayload) (hints : ClientHint)
  (w : World) :
  exists sent,
    notify_deleted b hints w
    = (set_outbox (fun _ => outbox w ++ sent) w, Returned tt)
    /\ (forall email,
          u_email <$> r_custodianUser b = Some email -> email <> "" ->
          exists e args,
            sent = [e] /\ e_to e = email
            /\ e_text e = deletedBookingEmailContent args)
    /\ (u_email <$> r_custodianUser b = None
        \/ u_email <$> r_custodianUser b = Some "" -> sent = []).
Proof.
  unfold notify_deleted.
  destruct (u_email <$> r_custodianUser b) as [email|].
  - destruct (truthy email) eqn:Htruthy.
    + apply truthy_true_iff in Htruthy.
      eexists [_]. split; [reflexivity|]. split.
      * intros ? [= <-] _. eexists _, _. repeat split; reflexivity.
      * intros [[=]|[= ->]]. contradiction.
    + apply truthy_false_iff in Htruthy. subst email.
      exists []. rewrite app_nil_r, set_outbox_same.
      split; [reflexivity|]. split; [|reflexivity].
      intros ? [= <-] Hne. contradiction.
  - exists []. rewrite app_nil_r, set_outbox_same.
    split; [reflexivity|]. split; [|reflexivity]. intros ? [=].
Qed.

(** C5: [deleteBooking] on a stored booking returns, and afterwards
    the booking record is gone; if the booking was [ONGOING] or
    [OVERDUE] its attached assets are [AVAILABLE] (the other assets
    keep their status), otherwise no asset status has changed; the job
    the booking referenced is cancelled; and a deletion email has been
    sent exactly when the custodian user has an email address. *)
Theorem deleteBooking_effects (id : string) (hints : ClientHint) (w : World)
  (old : Booking) :
  bookings w !! id = Some old ->
  let custodian := b_custodianUserId old ≫= (fun i => users w !! i) in
  exists w' b,
    deleteBooking id hints w = (w', Returned b)
    /\ r_id b = id /\ r_row b = old
    /\ bookings w' = delete id (bookings w)
    /\ (b_status old = ONGOING \/ b_status old = OVERDUE ->
          (forall a st,
             In a (b_assets old) -> assets w !! a = Some st ->
             assets w' !! a = Some AVAILABLE)
          /\ (forall a, ~ In a (b_assets old) ->
                        assets w' !! a = assets w !! a))
    /\ (b_status old <> ONGOING /\ b_status old <> OVERDUE ->
          assets w' = assets w)
    /\ (forall ref j,
          b_activeSchedulerReference old = Some ref -> ref <> "" ->
          jobs w !! ref = Some j -> jobs w' !! ref = Some (cancelled j))
    /\ (forall email,
          u_email <$> custodian = Some email -> email <> "" ->
          exists e args,
            outbox w' = outbox w ++ [e] /\ e_to e = email
            /\ e_text e = deletedBookingEmailContent args)
    /\ (u_email <$> custodian = None \/ u_email <$> custodian = Some "" ->
          outbox w' = outbox w).
Proof.
  intros Hold custodian. subst custodian.
  unfold deleteBooking.
  unfold bind at 1, db_booking_findFirst.
  unfold bind at 1, db_booking_delete. rewrite Hold.
  set (b := payload w id old).
  destruct (notify_deleted_run b hints (set_bookings (delete id) w))
    as (sent & Hmail & Hsent & Hquiet).
  unfold bind at 1. rewrite Hmail.
  set (w2 := set_outbox _ (set_bookings (delete id) w)).
  assert (Hpush : exists table,
             (match (if includes [OVERDUE; ONGOING] (b_status old)
                     then Some old else None) with
              | Some _ => updateBookinAssetStates b AVAILABLE
              | None => ret tt
              end) w2 = (set_assets (fun _ => table) w2, Returned tt)
             /\ (b_status old = ONGOING \/ b_status old = OVERDUE ->
                   (forall a st,
                      In a (b_assets old) -> assets w !! a = Some st ->
                      table !! a = Some AVAILABLE)
                   /\ (forall a, ~ In a (b_assets old) ->
                                 table !! a = assets w !! a))
             /\ (b_status old <> ONGOING /\ b_status old <> OVERDUE ->
                   table = assets w)).
  { destruct (includes [OVERDUE; ONGOING] (b_status old)) eqn:Hactive.
    - destruct (db_asset_updateMany_run AVAILABLE (map a_id (r_assets b)) w2)
        as (table & Hrun & Hin & Hout & _).
      exists table. split; [exact Hrun|]. split.
      + intros _. split.
        * intros a st Ha Hst. apply (Hin a st); [|exact Hst].
          apply included_assets_ids. split; [exact Ha|].
          rewrite Hst. eexists; reflexivity.
        * intros a Hnin. rewrite Hout; [reflexivity|]. intros Ha.
          apply included_assets_ids in Ha as [Ha _]. contradiction.
      + intros [Hn1 Hn2]. destruct (b_status old); try discriminate Hactive;
          contradiction.
    - exists (assets w). split.
      + reflexivity.
      + split; [|reflexivity].
        intros [H|H]; rewrite H in Hactive; discriminate Hactive. }
  destruct Hpush as (table & Hpush & Hactive & Hidle).
  unfold bind at 1. rewrite Hpush.
  destruct (cancelSheduler_run (Some (r_row b)) (set_assets (fun _ => table) w2))
    as (js & Hcancel & _ & Href & _).
  unfold bind at 1. rewrite Hcancel.
  eexists _, b. split; [reflexivity|].
  split; [reflexivity|]. split; [reflexivity|]. split; [reflexivity|].
  split; [exact Hactive|]. split; [exact Hidle|]. split.
  { intros ref j Hr Hne Hj. apply (Href ref j); assumption. }
  split.
  - intros email Hemail Hne.
    destruct (Hsent email Hemail Hne) as (e & args & -> & Hto & Htext).
    exists e, args. repeat split; assumption.
  - intros Hno. simpl. rewrite (Hquiet Hno). apply app_nil_r.
Qed.

(** *** Further properties: the helpers *)

Lemma cancelled_twice (ref : string) (js : gmap string (@Job ClientHint)) :
  alter cancelled ref (alter cancelled ref js) = alter cancelled ref js.
Proof.
  apply map_eq. intros k. destruct (decide (ref = k)) as [->|Hne].
  - rewrite !lookup_alter_eq. destruct (js !! k) as [j|]; reflexivity.
  - rewrite !lookup_alter_ne by exact Hne. reflexivity.
Qed.

(** X9: [cancelSheduler] never throws and touches the queue only: no
    job is added or removed and every job but the referenced one stays
    as it is.  Cancelling once more changes nothing. *)
Theorem cancelSheduler_idempotent (b : option Booking) (w : World) :
  exists w1,
    cancelSheduler b w = (w1, Returned tt)
    /\ cancelSheduler b w1 = (w1, Returned tt)
    /\ bookings w1 = bookings w /\ assets w1 = assets w
    /\ outbox w1 = outbox w
    /\ users w1 = users w /\ teamMembers w1 = teamMembers w
    /\ organizations w1 = organizations w /\ now w1 = now w
    /\ (forall k, is_Some (jobs w1 !! k) <-> is_Some (jobs w !! k))
    /\ (forall k, b ≫= b_activeSchedulerReference <> Some k ->
                  jobs w1 !! k = jobs w !! k).
Proof.
  unfold cancelSheduler.
  destruct (b ≫= b_activeSchedulerReference) as [ref|].
  - destruct (truthy ref).
    + eexists. split; [reflexivity|]. split.
      { unfold scheduler_cancel, set_jobs. simpl.
        rewrite cancelled_twice. reflexivity. }
      simpl. repeat (split; [reflexivity|]). split.
      * intros k. rewrite lookup_alter. case_decide; [|reflexivity].
        subst k. destruct (jobs w !! ref); simpl; split; intros [x Hx];
          try discriminate Hx; eexists; reflexivity.
      * intros k Hk. rewrite lookup_alter_ne; [reflexivity | congruence].
    + exists w. repeat (split; [reflexivity|]). split; reflexivity.
  - exists w. repeat (split; [reflexivity|]). split; reflexivity.
Qed.

(** X10: [scheduleNextBookingJob] queues the job under an id that was
    not in use.  For a stored booking it returns, and the booking
    references the new job with its other columns as they were; for a
    missing booking it throws with the job left in the queue. *)
Theorem scheduleNextBookingJob_effects (data : SchedulerData) (when : Date)
  (key : string) (w : World) :
  exists jid w' o,
    scheduleNextBookingJob data when key w = (w', o)
    /\ jobs w !! jid = None
    /\ jobs w' = <[jid := mkJob key data when false]> (jobs w)
    /\ assets w' = assets w /\ outbox w' = outbox w
    /\ (forall b,
          bookings w !! sd_id data = Some b ->
          o = Returned tt
          /\ exists b',
               bookings w' = <[sd_id data := b']> (bookings w)
               /\ b_activeSchedulerReference b' = Some jid
               /\ b_name b' = b_name b /\ b_status b' = b_status b
               /\ b_from b' = b_from b /\ b_to b' = b_to b
               /\ b_assets b' = b_assets b
               /\ b_custodianUserId b' = b_custodianUserId b
               /\ b_custodianTeamMemberId b' = b_custodianTeamMemberId b
               /\ b_creatorId b' = b_creatorId b
               /\ b_organizationId b' = b_organizationId b)
    /\ (bookings w !! sd_id data = None ->
        o = Thrown RecordNotFound /\ bookings w' = bookings w).
Proof.
  unfold scheduleNextBookingJob, bind, scheduler_sendAfter,
    db_booking_update. simpl.
  exists (fresh_string "job" (jobs w)).
  destruct (bookings w !! sd_id data) as [b|] eqn:Hb.
  - eexists _, _. split; [reflexivity|].
    split; [apply fresh_string_fresh|]. simpl.
    repeat (split; [reflexivity|]). split; [|discriminate].
    intros b0 [= <-]. split; [reflexivity|].
    eexists. split; [reflexivity|]. repeat split; reflexivity.
  - eexists _, _. split; [reflexivity|].
    split; [apply fresh_string_fresh|]. simpl.
    repeat (split; [reflexivity|]). split; [discriminate|].
    intros _. split; reflexivity.
Qed.

Lemma updateMany_twice (status : AssetStatus) (ids : list string)
  (table : gmap string AssetStatus) :
  let f := fun (i : string) (s : AssetStatus) =>
             Some (if bool_decide (s <> status) && bool_decide (i ∈ ids)
                   then status else s) in
  map_imap f (map_imap f table) = map_imap f table.
Proof.
  intros f. apply map_eq. intros i. rewrite !map_lookup_imap.
  destruct (table !! i) as [s|]; [|reflexivity]. simpl. unfold f.
  destruct (bool_decide (s <> status) && bool_decide (i ∈ ids)) eqn:Hc.
  - rewrite (bool_decide_eq_false_2 (status <> status)); [reflexivity|].
    intros H. apply H. reflexivity.
  - rewrite Hc. reflexivity.
Qed.

(** X11: [updateBookinAssetStates] never throws, gives the status to
    every asset of the booking, adds and removes no asset, leaves the
    assets outside the booking as they are and touches nothing but the
    asset table.  Doing it once more changes nothing. *)
Theorem updateBookinAssetStates_idempotent (booking : BookingPayload)
  (status : AssetStatus) (w : World) :
  exists w1,
    updateBookinAssetStates booking status w = (w1, Returned tt)
    /\ updateBookinAssetStates booking status w1 = (w1, Returned tt)
    /\ bookings w1 = bookings w /\ jobs w1 = jobs w
    /\ outbox w1 = outbox w
    /\ users w1 = users w /\ teamMembers w1 = teamMembers w
    /\ organizations w1 = organizations w /\ now w1 = now w
    /\ (forall i, is_Some (assets w1 !! i) <-> is_Some (assets w !! i))
    /\ (forall i, In i (map a_id (r_assets booking)) ->
                  is_Some (assets w !! i) -> assets w1 !! i = Some status)
    /\ (forall i, ~ In i (map a_id (r_assets booking)) ->
                  assets w1 !! i = assets w !! i).
Proof.
  unfold updateBookinAssetStates, db_asset_updateMany.
  eexists. split; [reflexivity|]. split.
  { unfold set_assets. simpl. rewrite updateMany_twice. reflexivity. }
  simpl. repeat (split; [reflexivity|]). split; [|split].
  2:{ intros i Hin [s Hs]. rewrite map_lookup_imap, Hs. simpl.
      apply list_elem_of_In in Hin.
      rewrite (bool_decide_eq_true_2 _ Hin), andb_true_r.
      destruct (decide (s = status)) as [->|Hne].
      - rewrite bool_decide_eq_false_2 by (intros H; apply H; reflexivity).
        reflexivity.
      - rewrite bool_decide_eq_true_2 by exact Hne. reflexivity. }
  - intros i. rewrite map_lookup_imap.
    destruct (assets w !! i); simpl; split; intros [x Hx];
      try discriminate Hx; eexists; reflexivity.
  - intros i Hnin. rewrite map_lookup_imap.
    destruct (assets w !! i) as [s|]; [|reflexivity]. simpl.
    rewrite (bool_decide_eq_false_2 (i ∈ map a_id (r_assets booking))),
      andb_false_r; [reflexivity|].
    intros H. apply Hnin, list_elem_of_In. exact H.
Qed.

(** *** Further properties: [upsertBooking] *)

Lemma end_of_booking_missing (id : string) (booking : BookingInput)
  (w : World) :
  bookings w !! id = None ->
  end_of_booking id booking w = (w, Returned None).
Proof.
  intros Hnone. unfold end_of_booking, bind, db_booking_findFirst.
  destruct (isTerminalState booking); [|reflexivity].
  rewrite Hnone. reflexivity.
Qed.

(** X12: a call that names a team member that is not stored, and no
    custodian user, throws "Cannot find team member" before anything
    is written. *)
Theorem upsertBooking_unknown_team_member (booking : BookingInput)
  (hints : ClientHint) (w : World) (member : string) :
  otruthy (i_custodianUserId booking) = false ->
  i_custodianTeamMemberId booking = Some member -> member <> "" ->
  teamMembers w !! member = None ->
  upsertBooking booking hints w
  = (w, Thrown (ShelfStackError "Cannot find team member")).
Proof.
  intros Huser Hmember Hne Hnone.
  unfold Booking.upsertBooking, upsert_data. rewrite Huser, Hmember.
  simpl otruthy. rewrite (proj2 (truthy_true_iff member) Hne).
  unfold bind, db_teamMember_findUnique. simpl. rewrite Hnone. reflexivity.
Qed.

(** X13: a call with the id of a booking that is not stored throws and
    leaves the world as it was: nothing is cancelled, written or
    mailed. *)
Theorem upsertBooking_unknown_id (booking : BookingInput)
  (hints : ClientHint) (w w' : World) (o : Outcome BookingPayload)
  (id : string) :
  i_id booking = Some id -> id <> "" ->
  bookings w !! id = None ->
  upsertBooking booking hints w = (w', o) ->
  w' = w /\ exists e, o = Thrown e.
Proof.
  intros Hid Hne Hnone Hrun.
  apply upsertBooking_branches in Hrun as [Hthrown|Hrun]; [exact Hthrown|].
  destruct Hrun as (data & _ & _ & Hrun).
  rewrite Hid in Hrun. simpl in Hrun.
  rewrite (proj2 (truthy_true_iff id) Hne) in Hrun.
  unfold Booking.upsert_existing in Hrun.
  unfold bind at 1 in Hrun.
  rewrite (end_of_booking_missing id booking w Hnone) in Hrun.
  unfold bind at 1, db_booking_update at 1 in Hrun.
  rewrite Hnone in Hrun. injection Hrun as <- <-.
  split; [reflexivity | eexists; reflexivity].
Qed.

(** The custodian written by [upsert_data]. *)
Lemma upsert_data_custodians (booking : BookingInput) (w w1 : World)
  (data : BookingUpdateInput) :
  upsert_data booking w = (w1, Returned data) ->
  (forall u, i_custodianUserId booking = Some u -> u <> "" ->
     d_custodianUser data = Some (connect u)
     /\ d_custodianTeamMember data = Some disconnect)
  /\ (otruthy (i_custodianUserId booking) = false ->
      forall t, i_custodianTeamMemberId booking = Some t -> t <> "" ->
        exists tm,
          teamMembers w !! t = Some tm
          /\ d_custodianTeamMember data = Some (connect t)
          /\ d_custodianUser data
             = Some (match tm_userId tm with
                     | Some u =>
                         if has_row (users w) u && truthy u
                         then connect u else disconnect
                     | None => disconnect
                     end))
  /\ (otruthy (i_custodianUserId booking) = false ->
      otruthy (i_custodianTeamMemberId booking) = false ->
      d_custodianUser data = None /\ d_custodianTeamMember data = None).
Proof.
  unfold upsert_data. intros Hrun.
  destruct (otruthy (i_custodianUserId booking)) eqn:Huser.
  - injection Hrun as <- <-. split; [|split; discriminate].
    intros u Hu _. rewrite Hu. simpl.
    destruct (has_length (i_assetIds booking)); split; reflexivity.
  - split.
    { intros u Hu Hne. rewrite Hu in Huser. simpl in Huser.
      rewrite (proj2 (truthy_true_iff u) Hne) in Huser. discriminate. }
    destruct (otruthy (i_custodianTeamMemberId booking)) eqn:Hmember.
    + split; [|discriminate]. intros _ t Ht Hne.
      rewrite Ht in Hrun. simpl in Hrun.
      unfold bind, db_teamMember_findUnique in Hrun.
      destruct (teamMembers w !! t) as [tm|]; simpl in Hrun;
        [|discriminate Hrun].
      injection Hrun as <- <-. exists tm. split; [reflexivity|].
      assert (Huserid :
                (if otruthy
                      (tm_userId tm ≫=
                         (fun u => if has_row (users w) u
                                   then Some u else None))
                 then connect
                        (default ""
                           (tm_userId tm ≫=
                              (fun u => if has_row (users w) u
                                        then Some u else None)))
                 else disconnect)
                = match tm_userId tm with
                  | Some u =>
                      if has_row (users w) u && truthy u
                      then connect u else disconnect
                  | None => disconnect
                  end).
      { destruct (tm_userId tm) as [u|]; simpl; [|reflexivity].
        destruct (has_row (users w) u); simpl; [|reflexivity].
        destruct (truthy u); reflexivity. }
      destruct (has_length (i_assetIds booking)); simpl;
        rewrite Huserid; split; reflexivity.
    + injection Hrun as <- <-. split.
      * intros _ t Ht Hne. rewrite Ht in Hmember. simpl in Hmember.
        rewrite (proj2 (truthy_true_iff t) Hne) in Hmember. discriminate.
      * intros _ _.
        destruct (has_length (i_assetIds booking)); split; reflexivity.
Qed.

(** A call that returns has stored the returned booking, rescheduled
    its reminder and sent its mail. *)
Lemma upsertBooking_returned_stored (booking : BookingInput)
  (hints : ClientHint) (w w' : World) (res : BookingPayload) :
  upsertBooking booking hints w = (w', Returned res) ->
  exists w3 w4 sent,
    bookings w3 !! r_id res = Some (r_row res)
    /\ reschedule_reminder checkoutReminder LocalTZA booking res hints w3
       = (w4, Returned tt)
    /\ w' = set_outbox (fun _ => outbox w4 ++ sent) w4.
Proof.
  intros Hrun.
  apply upsertBooking_branches in Hrun as [[_ [e [=]]]|Hrun].
  destruct Hrun as (data & _ & _ & Hrun).
  destruct (otruthy (i_id booking)).
  - apply upsert_existing_returned in Hrun
      as (old & js & table & w4 & sent & _ & -> & _ & _ & _
          & Hsched & -> & _).
    eexists _, w4, sent. split; [|split; [exact Hsched | reflexivity]].
    simpl. apply lookup_insert_eq.
  - unfold Booking.upsert_new in Hrun.
    apply bind_returned in Hrun as (w1 & res' & Hcreate & Hrun).
    apply bind_returned in Hrun as (w4 & [] & Hsched & Hrun).
    apply ret_returned in Hrun as [-> Hres]. subst res'.
    exists w1, w4, []. split; [|split; [exact Hsched|]].
    + apply db_booking_create_returned in Hcreate as (_ & -> & _).
      simpl. apply lookup_insert_eq.
    + rewrite app_nil_r, set_outbox_same. reflexivity.
Qed.

(** The booking stored under the id of the returned one differs from
    it in the scheduler reference at most. *)
Lemma upsertBooking_stored_row (booking : BookingInput)
  (hints : ClientHint) (w w' : World) (res : BookingPayload) :
  upsertBooking booking hints w = (w', Returned res) ->
  bookings w' !! r_id res = Some (r_row res)
  \/ exists jid,
       i_status booking = Some RESERVED
       /\ bookings w' !! r_id res
          = Some (updated (reference_data jid) (r_row res)).
Proof.
  intros Hrun.
  apply upsertBooking_returned_stored in Hrun
    as (w3 & w4 & sent & Hrow & Hsched & ->).
  simpl.
  apply reschedule_reminder_run in Hsched as [(_ & -> & _)|Hsched];
    [left; exact Hrow|].
  destruct Hsched as (from & js & jid & _ & Hres & _ & _ & _ & Hsched).
  cbv zeta in Hsched.
  destruct Hsched as [(_ & _ & [=])|(b & Hb & -> & _)].
  rewrite Hrow in Hb. injection Hb as <-.
  right. exists jid. split; [exact Hres|]. simpl. apply lookup_insert_eq.
Qed.

(** X14: the custodian of an updated booking.  A custodian user in the
    input becomes the custodian and the team member is disconnected,
    whatever team member the input names.  Without a custodian user, a
    team member in the input becomes the custodian team member and its
    linked user, if it has one, the custodian user.  An input that
    names neither leaves both as they were. *)
Theorem upsertBooking_custodian (booking : BookingInput)
  (hints : ClientHint) (w w' : World) (res : BookingPayload) (id : string) :
  i_id booking = Some id -> id <> "" ->
  upsertBooking booking hints w = (w', Returned res) ->
  exists old new,
    bookings w !! id = Some old
    /\ bookings w' !! id = Some new
    /\ (forall u, i_custodianUserId booking = Some u -> u <> "" ->
          b_custodianUserId new = Some u
          /\ b_custodianTeamMemberId new = None)
    /\ (otruthy (i_custodianUserId booking) = false ->
        forall t, i_custodianTeamMemberId booking = Some t -> t <> "" ->
          exists tm,
            teamMembers w !! t = Some tm
            /\ b_custodianTeamMemberId new = Some t
            /\ b_custodianUserId new
               = match tm_userId tm with
                 | Some u =>
                     if has_row (users w) u && truthy u
                     then Some u else None
                 | None => None
                 end)
    /\ (otruthy (i_custodianUserId booking) = false ->
        otruthy (i_custodianTeamMemberId booking) = false ->
        b_custodianUserId new = b_custodianUserId old
        /\ b_custodianTeamMemberId new = b_custodianTeamMemberId old).
Proof.
  intros Hid Hne Hrun.
  pose proof (upsertBooking_stored_row _ _ _ _ _ Hrun) as Hstored.
  apply upsertBooking_branches in Hrun as [[_ [e [=]]]|Hrun].
  destruct Hrun as (data & _ & Hdata & Hrun).
  apply upsert_data_custodians in Hdata as (Huser & Hmember & Hnone).
  rewrite Hid in Hrun. simpl in Hrun.
  rewrite (proj2 (truthy_true_iff id) Hne) in Hrun.
  apply upsert_existing_returned in Hrun
    as (old & js & table & w4 & sent & Hold & Hres & _).
  subst res. simpl in Hstored.
  assert (Hnew : exists new,
             bookings w' !! id = Some new
             /\ b_custodianUserId new
                = relate (d_custodianUser data) (b_custodianUserId old)
             /\ b_custodianTeamMemberId new
                = relate (d_custodianTeamMember data)
                    (b_custodianTeamMemberId old)).
  { destruct Hstored as [Hs|(jid & _ & Hs)]; eexists;
      (split; [exact Hs|]); split; reflexivity. }
  destruct Hnew as (new & Hnew & Hu & Ht).
  exists old, new. split; [exact Hold|]. split; [exact Hnew|].
  rewrite Hu, Ht. split; [|split].
  - intros u Hiu Hune. destruct (Huser u Hiu Hune) as [-> ->].
    split; reflexivity.
  - intros Hno t Hit Htne.
    destruct (Hmember Hno t Hit Htne) as (tm & Htm & -> & ->).
    exists tm. split; [exact Htm|]. split; [reflexivity|].
    destruct (tm_userId tm) as [u|]; simpl; [|reflexivity].
    destruct (has_row (users w) u && truthy u); reflexivity.
  - intros Hno1 Hno2. destruct (Hnone Hno1 Hno2) as [-> ->].
    split; reflexivity.
Qed.

(** For a terminal status and a stored booking, the start of the
    update branch cancels the job the stored booking references. *)
Lemma end_of_booking_cancels (id : string) (booking : BookingInput)
  (w : World) (old : Booking) :
  isTerminalState booking = true ->
  bookings w !! id = Some old ->
  exists js newAssetStatus,
    end_of_booking id booking w
    = (set_jobs (fun _ => js) w, Returned newAssetStatus)
    /\ (forall ref j,
          b_activeSchedulerReference old = Some ref -> ref <> "" ->
          jobs w !! ref = Some j -> js !! ref = Some (cancelled j))
    /\ (forall k, b_activeSchedulerReference old <> Some k ->
                  js !! k = jobs w !! k).
Proof.
  intros Hterm Hold. unfold end_of_booking. rewrite Hterm.
  unfold bind at 1, db_booking_findFirst. rewrite Hold.
  destruct (cancelSheduler_run (Some old) w)
    as (js & Hrun & _ & Href & Hother).
  unfold bind. rewrite Hrun.
  eexists js, _. split; [reflexivity|]. split; assumption.
Qed.

(** When the requested status is not [RESERVED], the queue is after
    the call as the start of the update branch left it. *)
Lemma upsert_existing_jobs (id : string) (booking : BookingInput)
  (data : BookingUpdateInput) (hints : ClientHint) (w w' : World)
  (res : BookingPayload) :
  i_status booking <> Some RESERVED ->
  upsert_existing id booking data hints w = (w', Returned res) ->
  exists w1 newAssetStatus,
    end_of_booking id booking w = (w1, Returned newAssetStatus)
    /\ jobs w' = jobs w1.
Proof.
  intros Hres. unfold Booking.upsert_existing. intros Hrun.
  apply bind_returned in Hrun as (w1 & nas & Hend & Hrun).
  exists w1, nas. split; [exact Hend|].
  apply bind_returned in Hrun as (w2 & res' & Hupdate & Hrun).
  apply db_booking_update_returned in Hupdate as (old & _ & _ & -> & ->).
  match type of Hrun with
  | bind (push_asset_states ?r ?n) _ ?w0 = _ =>
      destruct (push_asset_states_run r n w0) as (table & Hpush & _)
  end.
  unfold bind at 1 in Hrun. rewrite Hpush in Hrun.
  apply bind_returned in Hrun as (w4 & [] & Hsched & Hrun).
  apply (reschedule_reminder_skipped _ _ _ _ _ _ Hres) in Hsched.
  subst w4.
  match type of Hrun with
  | bind (notify_status_change ?b ?d ?r ?h) _ ?w0 = _ =>
      destruct (notify_status_change_run b d r h w0) as (sent & Hn & _)
  end.
  unfold bind at 1 in Hrun. rewrite Hn in Hrun.
  injection Hrun as <- _. reflexivity.
Qed.

(** X15: an update to [COMPLETE], [CANCELLED] or [ARCHIVED] cancels
    the job the stored booking references and leaves every other job
    as it is. *)
Theorem upsertBooking_terminal_cancels (booking : BookingInput)
  (hints : ClientHint) (w w' : World) (res : BookingPayload) (id : string)
  (s : BookingStatus) (old : Booking) :
  i_id booking = Some id -> id <> "" ->
  i_status booking = Some s ->
  s = COMPLETE \/ s = CANCELLED \/ s = ARCHIVED ->
  bookings w !! id = Some old ->
  upsertBooking booking hints w = (w', Returned res) ->
  (forall ref j,
     b_activeSchedulerReference old = Some ref -> ref <> "" ->
     jobs w !! ref = Some j -> jobs w' !! ref = Some (cancelled j))
  /\ (forall k, b_activeSchedulerReference old <> Some k ->
                jobs w' !! k = jobs w !! k).
Proof.
  intros Hid Hne Hstatus Hterminal Hold Hrun.
  apply (upsertBooking_existing _ _ _ _ _ id Hid Hne) in Hrun
    as (data & _ & Hrun).
  apply upsert_existing_jobs in Hrun as (w1 & nas & Hend & Hjobs).
  2:{ rewrite Hstatus. intros [= ->].
      destruct Hterminal as [H|[H|H]]; discriminate H. }
  assert (isTerminalState booking = true) as Hterm.
  { unfold isTerminalState. rewrite Hstatus.
    destruct Hterminal as [-> | [-> | ->]]; reflexivity. }
  destruct (end_of_booking_cancels id booking w old Hterm Hold)
    as (js & nas' & Hend' & Href & Hother).
  rewrite Hend' in Hend. injection Hend as <- _.
  rewrite Hjobs. simpl. split; assumption.
Qed.

(** X16: an update that carries neither a status nor asset ids
    rewrites the booking and nothing else: no asset status changes, no
    job is cancelled or queued, no mail is sent, and the other
    bookings stay as they are. *)
Theorem upsertBooking_plain_update (booking : BookingInput)
  (hints : ClientHint) (w w' : World) (res : BookingPayload) (id : string) :
  i_id booking = Some id -> id <> "" ->
  i_status booking = None ->
  i_assetIds booking = None \/ i_assetIds booking = Some [] ->
  upsertBooking booking hints w = (w', Returned res) ->
  assets w' = assets w /\ jobs w' = jobs w /\ outbox w' = outbox w
  /\ bookings w' !! id = Some (r_row res)
  /\ forall k, k <> id -> bookings w' !! k = bookings w !! k.
Proof.
  intros Hid Hne Hstatus Hassets Hrun.
  apply (upsertBooking_existing _ _ _ _ _ id Hid Hne) in Hrun
    as (data & (Hds & _) & Hrun).
  apply upsert_existing_returned in Hrun
    as (old & js & table & w4 & sent & Hold & -> & _ & Hjs & Htable
        & Hsched & -> & _ & _ & Hquiet & _).
  apply reschedule_reminder_skipped in Hsched; [|congruence].
  subst w4. simpl.
  assert (isTerminalState booking = false) as Hterm.
  { unfold isTerminalState. rewrite Hstatus. reflexivity. }
  assert (has_length (i_assetIds booking) = false) as Hlen.
  { destruct Hassets as [-> | ->]; reflexivity. }
  rewrite Hterm in Htable. unfold asset_status_after in Htable.
  rewrite Hstatus, Hlen, andb_false_r in Htable. simpl in Htable.
  destruct Htable as (Hsame & _).
  rewrite (Hsame eq_refl), (Hjs Hterm), Hquiet by congruence.
  rewrite app_nil_r.
  repeat (split; [reflexivity|]). split.
  - apply lookup_insert_eq.
  - intros k Hk. apply lookup_insert_ne. congruence.
Qed.

Lemma db_booking_create_outcome (data : BookingUpdateInput) (w w' : World)
  (o : Outcome BookingPayload) :
  db_booking_create data w = (w', o) ->
  (w' = w /\ exists e, o = Thrown e)
  \/ exists res, o = Returned res.
Proof.
  unfold db_booking_create.
  destruct (d_name data), (d_creator data), (d_organization data);
    try (intros [= <- <-]; left; split; [reflexivity | eexists; reflexivity]).
  destruct (is_disconnect (d_custodianUser data)
            || is_disconnect (d_custodianTeamMember data));
    [intros [= <- <-]; left; split; [reflexivity | eexists; reflexivity]|].
  destruct (references_exist w data); intros [= <- <-].
  - right. eexists; reflexivity.
  - left. split; [reflexivity | eexists; reflexivity].
Qed.

(** X17: a call without an id, whatever its outcome, changes no asset
    status, sends no mail and leaves every stored booking as it is,
    also when the new booking is [ONGOING] and holds assets. *)
Theorem upsertBooking_create_frame (booking : BookingInput)
  (hints : ClientHint) (w w' : World) (o : Outcome BookingPayload) :
  otruthy (i_id booking) = false ->
  upsertBooking booking hints w = (w', o) ->
  assets w' = assets w /\ outbox w' = outbox w
  /\ forall k b, bookings w !! k = Some b -> bookings w' !! k = Some b.
Proof.
  intros Hnoid Hrun.
  apply upsertBooking_branches in Hrun as [[-> _]|Hrun].
  { split; [reflexivity|]. split; [reflexivity|]. intros k b H. exact H. }
  destruct Hrun as (data & _ & _ & Hrun).
  rewrite Hnoid in Hrun. unfold Booking.upsert_new in Hrun.
  apply bind_outcome in Hrun as [(w1 & res & Hcreate & Hrun)|(e & Hcreate & _)].
  2:{ apply db_booking_create_outcome in Hcreate as [[-> _]|[res [=]]].
      split; [reflexivity|]. split; [reflexivity|]. intros k b H. exact H. }
  apply db_booking_create_returned in Hcreate as (Hfresh & -> & _).
  assert (Hsched : forall w4 o4,
             reschedule_reminder checkoutReminder LocalTZA booking res hints
               (set_bookings (insert (r_id res) (r_row res)) w) = (w4, o4) ->
             assets w4 = assets w /\ outbox w4 = outbox w
             /\ forall k b, bookings w !! k = Some b ->
                            bookings w4 !! k = Some b).
  { intros w4 o4 Hs.
    pose proof (reschedule_reminder_frame _ _ _ _ _ _ Hs)
      as (Ha & _ & Ho & _).
    split; [exact Ha|]. split; [exact Ho|].
    intros k b Hb.
    assert (k <> r_id res) as Hk by congruence.
    apply reschedule_reminder_bookings in Hs as [->|(jid & b' & _ & ->)];
      simpl; rewrite ?lookup_insert_ne by congruence; exact Hb. }
  apply bind_outcome in Hrun as [(w4 & [] & Hs & Hrun)|(e & Hs & _)].
  - injection Hrun as <- _. apply (Hsched _ _ Hs).
  - apply (Hsched _ _ Hs).
Qed.

(** Connecting assets adds the new ones and keeps the list free of
    duplicates. *)
Lemma connect_assets_In (new cur : list string) (a : string) :
  In a (connect_assets new cur) <-> In a cur \/ In a new.
Proof.
  unfold connect_assets. revert cur.
  induction new as [|i new IH]; intros cur; simpl.
  - split; [intros H; left; exact H | intros [H|[]]; exact H].
  - rewrite IH. case_bool_decide as Hi.
    + apply list_elem_of_In in Hi. split.
      * intros [H|H]; [left; exact H | right; right; exact H].
      * intros [H|[<-|H]]; [left; exact H | left; exact Hi | right; exact H].
    + rewrite in_app_iff. simpl. split.
      * intros [[H|[<-|[]]]|H]; auto.
      * intros [H|[<-|H]]; auto.
Qed.

Lemma connect_assets_NoDup (new cur : list string) :
  NoDup cur -> NoDup (connect_assets new cur).
Proof.
  unfold connect_assets. revert cur.
  induction new as [|i new IH]; intros cur Hnd; simpl; [exact Hnd|].
  apply IH. case_bool_decide as Hi; [exact Hnd|].
  apply NoDup_app. split; [exact Hnd|]. split.
  - intros x Hx Hxi. apply list_elem_of_In in Hxi as [<-|[]].
    contradiction.
  - apply NoDup_cons. split; [|apply NoDup_nil_2].
    intros H. apply list_elem_of_In in H. destruct H.
Qed.

Lemma upsert_data_assets (booking : BookingInput) (w w1 : World)
  (data : BookingUpdateInput) :
  upsert_data booking w = (w1, Returned data) ->
  default [] (d_assets data) = default [] (i_assetIds booking).
Proof.
  assert (Hassets : forall d,
            d_assets d = None ->
            default [] (d_assets
                          (if has_length (i_assetIds booking)
                           then with_assets (default [] (i_assetIds booking)) d
                           else d))
            = default [] (i_assetIds booking)).
  { intros d Hd. destruct (i_assetIds booking) as [[|a ids]|]; simpl;
      try rewrite Hd; reflexivity. }
  unfold upsert_data.
  destruct (otruthy (i_custodianUserId booking)).
  - intros [= _ <-]. simpl. apply Hassets. reflexivity.
  - destruct (otruthy (i_custodianTeamMemberId booking)).
    + unfold bind, db_teamMember_findUnique.
      destruct (teamMembers w !! default "" (i_custodianTeamMemberId booking));
        simpl; [|discriminate].
      intros [= _ <-]. simpl. apply Hassets. reflexivity.
    + intros [= _ <-]. apply Hassets. reflexivity.
Qed.

(** X18: after an update, the assets attached to the booking are the
    ones attached before together with the ones the input lists:
    nothing is detached, and no asset is attached twice. *)
Theorem upsertBooking_attaches (booking : BookingInput)
  (hints : ClientHint) (w w' : World) (res : BookingPayload) (id : string)
  (old : Booking) :
  i_id booking = Some id -> id <> "" ->
  bookings w !! id = Some old ->
  upsertBooking booking hints w = (w', Returned res) ->
  (forall a,
     In a (b_assets (r_row res))
     <-> In a (b_assets old) \/ In a (default [] (i_assetIds booking)))
  /\ (NoDup (b_assets old) -> NoDup (b_assets (r_row res)))
  /\ exists new, bookings w' !! id = Some new
                 /\ b_assets new = b_assets (r_row res).
Proof.
  intros Hid Hne Hold Hrun.
  pose proof (upsertBooking_stored_row _ _ _ _ _ Hrun) as Hstored.
  apply upsertBooking_branches in Hrun as [[_ [e [=]]]|Hrun].
  destruct Hrun as (data & _ & Hdata & Hrun).
  apply upsert_data_assets in Hdata.
  rewrite Hid in Hrun. simpl in Hrun.
  rewrite (proj2 (truthy_true_iff id) Hne) in Hrun.
  apply upsert_existing_returned in Hrun
    as (old' & js & table & w4 & sent & Hold' & -> & _).
  rewrite Hold in Hold'. injection Hold' as <-.
  simpl in *. rewrite Hdata. split; [|split].
  - intros a. apply connect_assets_In.
  - apply connect_assets_NoDup.
  - destruct Hstored as [Hs|(jid & _ & Hs)]; eexists;
      (split; [exact Hs | simpl; rewrite Hdata; reflexivity]).
Qed.

(** X19: after a call that returns, [getBooking] finds the booking
    under the returned id, with the name, the status, the dates, the
    custodians and the assets of the returned booking, and leaves the
    world as it is. *)
Theorem getBooking_after_upsert (booking : BookingInput)
  (hints : ClientHint) (w w' : World) (res : BookingPayload) :
  upsertBooking booking hints w = (w', Returned res) ->
  exists found,
    getBooking (r_id res) w' = (w', Returned (Some found))
    /\ r_id found = r_id res
    /\ b_name (r_row found) = b_name (r_row res)
    /\ b_status (r_row found) = b_status (r_row res)
    /\ b_from (r_row found) = b_from (r_row res)
    /\ b_to (r_row found) = b_to (r_row res)
    /\ b_custodianUserId (r_row found) = b_custodianUserId (r_row res)
    /\ b_custodianTeamMemberId (r_row found)
       = b_custodianTeamMemberId (r_row res)
    /\ b_assets (r_row found) = b_assets (r_row res).
Proof.
  intros Hrun. unfold getBooking, db_booking_findFirst_included.
  apply upsertBooking_stored_row in Hrun as [Hs|(jid & _ & Hs)];
    rewrite Hs; simpl; eexists; (split; [reflexivity|]);
    repeat split; reflexivity.
Qed.

(** *** Further properties: [deleteBooking], [removeAssets] *)

(** X20: [deleteBooking] on an id that is not stored throws before
    anything happens: no mail, no asset change, no job cancelled. *)
Theorem deleteBooking_missing (id : string) (hints : ClientHint) (w : World) :
  bookings w !! id = None ->
  deleteBooking id hints w = (w, Thrown RecordNotFound).
Proof.
  intros Hnone. unfold deleteBooking, bind, db_booking_findFirst,
    db_booking_delete.
  rewrite Hnone. reflexivity.
Qed.

(** What [deleteBooking] does to the booking table. *)
Lemma deleteBooking_bookings (id : string) (hints : ClientHint)
  (w w' : World) (o : Outcome BookingPayload) (old : Booking) :
  bookings w !! id = Some old ->
  deleteBooking id hints w = (w', o) ->
  (exists b, o = Returned b) /\ bookings w' = delete id (bookings w).
Proof.
  intros Hold. unfold deleteBooking.
  unfold bind at 1, db_booking_findFirst.
  unfold bind at 1, db_booking_delete. rewrite Hold.
  match goal with
  | |- context [bind (notify_deleted ?b ?h) _ ?w0] =>
      destruct (notify_deleted_run b h w0) as (sent & Hmail & _)
  end.
  unfold bind at 1. rewrite Hmail.
  match goal with
  | |- context [bind ?m _ ?w0] =>
      assert (Hpush : exists table,
                 m w0 = (set_assets (fun _ => table) w0, Returned tt))
  end.
  { destruct (includes [OVERDUE; ONGOING] (b_status old)).
    - match goal with
      | |- context [updateBookinAssetStates ?b ?s ?w0] =>
          destruct (db_asset_updateMany_run s (map a_id (r_assets b)) w0)
            as (table & Hrun & _)
      end.
      exists table. exact Hrun.
    - eexists. unfold ret. rewrite set_assets_same. reflexivity. }
  destruct Hpush as (table & Hpush).
  unfold bind at 1. rewrite Hpush.
  match goal with
  | |- context [bind (cancelSheduler ?b) _ ?w0] =>
      destruct (cancelSheduler_run b w0) as (js & Hcancel & _)
  end.
  unfold bind at 1. rewrite Hcancel.
  intros [= <- <-]. split; [eexists; reflexivity | reflexivity].
Qed.

(** X21: once a booking is deleted, [getBooking] returns null for its
    id and a second [deleteBooking] throws; the other bookings are
    still found. *)
Theorem deleteBooking_then (id : string) (hints : ClientHint) (w w' : World)
  (b : BookingPayload) :
  deleteBooking id hints w = (w', Returned b) ->
  getBooking id w' = (w', Returned None)
  /\ deleteBooking id hints w' = (w', Thrown RecordNotFound)
  /\ forall k, k <> id -> bookings w' !! k = bookings w !! k.
Proof.
  intros Hrun.
  destruct (bookings w !! id) as [old|] eqn:Hold.
  - apply (deleteBooking_bookings _ _ _ _ _ _ Hold) in Hrun as [_ Hgone].
    assert (bookings w' !! id = None) as Hnone.
    { rewrite Hgone. apply lookup_delete_eq. }
    split; [|split].
    + unfold getBooking, db_booking_findFirst_included.
      rewrite Hnone. reflexivity.
    + apply deleteBooking_missing. exact Hnone.
    + intros k Hk. rewrite Hgone. apply lookup_delete_ne. congruence.
  - rewrite (deleteBooking_missing id hints w Hold) in Hrun.
    discriminate Hrun.
Qed.

(** X22: [removeAssets] detaches the listed assets from the stored
    booking and keeps the others attached, in their order.  It changes
    no asset status, whatever the status of the booking, cancels and
    queues no job, sends no mail and leaves the other bookings as they
    are; for an id that is not stored it throws and changes
    nothing. *)
Theorem removeAssets_effects (id : string) (assetIds : list string)
  (w w' : World) (o : Outcome BookingPayload) :
  removeAssets id assetIds w = (w', o) ->
  assets w' = assets w /\ jobs w' = jobs w /\ outbox w' = outbox w
  /\ (forall k, k <> id -> bookings w' !! k = bookings w !! k)
  /\ (bookings w !! id = None -> w' = w /\ o = Thrown RecordNotFound)
  /\ (forall old,
        bookings w !! id = Some old ->
        exists res new,
          o = Returned res /\ r_id res = id
          /\ bookings w' !! id = Some new
          /\ b_assets new
             = List.filter (fun a => negb (bool_decide (a ∈ assetIds)))
                 (b_assets old)
          /\ (forall a, In a (b_assets new)
                        <-> In a (b_assets old) /\ ~ In a assetIds)
          /\ b_status new = b_status old
          /\ b_activeSchedulerReference new = b_activeSchedulerReference old).
Proof.
  unfold removeAssets, db_booking_disconnect_assets.
  destruct (bookings w !! id) as [old|] eqn:Hold; intros [= <- <-].
  - simpl. repeat (split; [reflexivity|]). split; [|split; [discriminate|]].
    + intros k Hk. apply lookup_insert_ne. congruence.
    + intros old' [= <-]. eexists _, _.
      split; [reflexivity|]. split; [reflexivity|].
      split; [apply lookup_insert_eq|]. split; [reflexivity|].
      split; [|split; reflexivity].
      intros a. simpl. rewrite List.filter_In, negb_true_iff,
        bool_decide_eq_false, list_elem_of_In. reflexivity.
  - repeat (split; [reflexivity|]).
    split; [intros _; split; reflexivity | discriminate].
Qed.

End Service.

(** *** The properties at work in the example world *)

Lemma whole_hours_hours (d1 d2 : Date) :
  hours (whole_hours d1 d2) = (Z.abs (d1 - d2) / msPerHour)%Z.
Proof. reflexivity. Qed.

(** Completing the ongoing booking "b1" frees its assets "a1" and
    "a2" and leaves "a4" in custody. *)
Lemma upsertBooking_terminal_assets_witness :
  assets (upsert0 (set_status "b1" COMPLETE)).1 !! "a1" = Some AVAILABLE
  /\ assets (upsert0 (set_status "b1" COMPLETE)).1 !! "a2" = Some AVAILABLE
  /\ assets (upsert0 (set_status "b1" COMPLETE)).1 !! "a4" = Some IN_CUSTODY.
Proof.
  set (run := upsert0 (set_status "b1" COMPLETE)).
  destruct (upsertBooking_terminal_assets whole_hours "checkoutReminder" utc
              (set_status "b1" COMPLETE) tt world0 run.1
              (returned run.2 (payload world0 "" trip)) "b1" COMPLETE trip)
    as (_ & Hactive & _).
  - reflexivity.
  - discriminate.
  - reflexivity.
  - left. reflexivity.
  - vm_compute. reflexivity.
  - vm_compute. reflexivity.
  - destruct Hactive as [Hin Hout]; [left; reflexivity|].
    split; [|split].
    + apply (Hin "a1" CHECKED_OUT); [vm_compute; auto | vm_compute; reflexivity].
    + apply (Hin "a2" CHECKED_OUT); [vm_compute; auto | vm_compute; reflexivity].
    + rewrite (Hout "a4"); [vm_compute; reflexivity|].
      vm_compute. intros [H|[H|[]]]; discriminate H.
Defined.

(** Setting the draft "b2" ongoing checks out its asset "a3"; adding
    "a4" to the ongoing "b1" checks out "a4". *)
Lemma upsertBooking_ongoing_assets_witness :
  assets (upsert0 (set_status "b2" ONGOING)).1 !! "a3" = Some CHECKED_OUT
  /\ assets (upsert0 (add_asset "b1")).1 !! "a4" = Some CHECKED_OUT.
Proof.
  split.
  - set (run := upsert0 (set_status "b2" ONGOING)).
    destruct (upsertBooking_ongoing_assets whole_hours "checkoutReminder" utc
                (set_status "b2" ONGOING) tt world0 run.1
                (returned run.2 (payload world0 "" draft)) "b2")
      as (_ & Hout).
    + reflexivity.
    + discriminate.
    + vm_compute. reflexivity.
    + left. reflexivity.
    + apply (Hout "a3" AVAILABLE); [vm_compute; auto | vm_compute; reflexivity].
  - set (run := upsert0 (add_asset "b1")).
    destruct (upsertBooking_ongoing_assets whole_hours "checkoutReminder" utc
                (add_asset "b1") tt world0 run.1
                (returned run.2 (payload world0 "" trip)) "b1")
      as (_ & Hout).
    + reflexivity.
    + discriminate.
    + vm_compute. reflexivity.
    + right. split; [vm_compute; reflexivity|]. exists "a4", []. reflexivity.
    + apply (Hout "a4" IN_CUSTODY); [vm_compute; auto | vm_compute; reflexivity].
Defined.

(** Reserving "b2" mails its custodian from the reserved-booking
    template. *)
Lemma upsertBooking_status_mail_witness :
  exists e,
    outbox (upsert0 (set_status "b2" RESERVED)).1 = [e]
    /\ e_to e = "ann@example.org"
    /\ template_for RESERVED (e_text e).
Proof.
  set (run := upsert0 (set_status "b2" RESERVED)).
  destruct (upsertBooking_status_mail whole_hours "checkoutReminder" utc
              whole_hours_hours
              (set_status "b2" RESERVED) tt world0 run.1
              (returned run.2 (payload world0 "" draft)) "b2" RESERVED)
    as (Hdue & _).
  - reflexivity.
  - discriminate.
  - reflexivity.
  - vm_compute. reflexivity.
  - destruct Hdue as (e & Hout & Haddress & Htemplate).
    + split; [|left; reflexivity].
      exists "ann@example.org". split; [vm_compute; reflexivity | discriminate].
    + exists e. split; [exact Hout|]. split; [|exact Htemplate].
      assert (u_email <$> r_custodianUser
                            (returned run.2 (payload world0 "" draft))
              = Some "ann@example.org") as Hann
        by (vm_compute; reflexivity).
      congruence.
Defined.

(** On a server that runs on UTC, reserving "b1", which starts at
    7200000 and references "job1": "job1" is cancelled, a checkout
    reminder is queued for 3600000, and "b1" references it.  Creating
    the reserved booking that starts at 72000000 queues its reminder
    for 68400000. *)
Lemma upsertBooking_reserved_reminder_witness :
  (exists jid new,
     jobs world0 !! jid = None
     /\ jobs (upsert0 (set_status "b1" RESERVED)).1 !! jid
        = Some (mkJob "checkoutReminder" {| sd_id := "b1"; sd_hints := tt |}
                  3600000%Z false)
     /\ bookings (upsert0 (set_status "b1" RESERVED)).1 !! "b1" = Some new
     /\ b_activeSchedulerReference new = Some jid
     /\ (cancelled <$> jobs world0 !! "job1")
        = jobs (upsert0 (set_status "b1" RESERVED)).1 !! "job1")
  /\ (exists jid job new,
        jobs (upsert0 new_booking).1 !! jid = Some job
        /\ j_when job = 68400000%Z
        /\ bookings (upsert0 new_booking).1 !! sd_id (j_data job) = Some new
        /\ b_activeSchedulerReference new = Some jid).
Proof.
  split.
  - set (run := upsert0 (set_status "b1" RESERVED)).
    destruct (upsertBooking_reserved_reminder whole_hours "checkoutReminder"
                utc (set_status "b1" RESERVED) tt world0 run.1
                (returned run.2 (payload world0 "" trip)) 7200000%Z)
      as ((jid & new & Hnew & Hjob & Hbooking & Hreference & Hcancel) & _).
    + vm_compute. reflexivity.
    + reflexivity.
    + vm_compute. reflexivity.
    + exists jid, new. split; [exact Hnew|]. split; [exact Hjob|].
      split; [exact Hbooking|]. split; [exact Hreference|].
      symmetry. eapply Hcancel.
      * vm_compute. reflexivity.
      * discriminate.
      * vm_compute. reflexivity.
  - set (run := upsert0 new_booking).
    destruct (upsertBooking_reserved_reminder whole_hours "checkoutReminder"
                utc new_booking tt world0 run.1
                (returned run.2 (payload world0 "" trip)) 72000000%Z)
      as ((jid & new & _ & Hjob & Hbooking & Hreference & _) & _).
    + vm_compute. reflexivity.
    + reflexivity.
    + vm_compute. reflexivity.
    + eexists jid, _, new. split; [exact Hjob|].
      split; [reflexivity|]. split; [exact Hbooking | exact Hreference].
Defined.

(** Deleting the ongoing booking "b1": the record is gone, "a1" is
    available, "job1" is cancelled and one email has been sent. *)
Lemma deleteBooking_effects_witness :
  bookings (delete0 "b1").1 !! "b1" = None
  /\ assets (delete0 "b1").1 !! "a1" = Some AVAILABLE
  /\ (j_cancelled <$> jobs (delete0 "b1").1 !! "job1") = Some true
  /\ length (outbox (delete0 "b1").1) = 1%nat.
Proof.
  destruct (deleteBooking_effects "b1" tt world0 trip)
    as (w' & b & Hrun & _ & _ & Hgone & Hactive & _ & Hcancel & Hmail & _).
  - vm_compute. reflexivity.
  - unfold delete0. rewrite Hrun. simpl.
    split; [rewrite Hgone; apply lookup_delete_eq|]. split; [|split].
    + destruct Hactive as [Hin _]; [left; reflexivity|].
      apply (Hin "a1" CHECKED_OUT); [simpl; auto | vm_compute; reflexivity].
    + erewrite Hcancel; [reflexivity | reflexivity | discriminate
                        | vm_compute; reflexivity].
    + destruct (Hmail "ann@example.org") as (e & args & -> & _);
        [vm_compute; reflexivity | discriminate | reflexivity].
Defined.

(** C4: the checkout reminder is not always queued for one hour
    before [from].  On a server in Central European Time, reserving
    the booking "b2" from 03:30 local time on 31 March 2024, the day
    summer time begins, returns a booking with that [from] date,
    queues the reminder under the new id "job" and points "b2" at it,
    but queues it for 03:30 itself: the local time 02:30 does not
    exist on that day, and [setHours(2)] makes 03:30 of it.  On a
    server that runs on UTC the same call queues the reminder for one
    hour before [from]. *)
Theorem upsertBooking_reminder_skipped_hour :
  let from := 1711848600000%Z in
  let run :=
    upsertBooking whole_hours "checkoutReminder" cet (reserve_at_0330 "b2")
      tt world0 in
  (exists res,
     run.2 = Returned res
     /\ i_status (reserve_at_0330 "b2") = Some RESERVED
     /\ b_from (r_row res) = Some from
     /\ jobs world0 !! "job" = None
     /\ jobs run.1 !! "job"
        = Some (mkJob "checkoutReminder" {| sd_id := "b2"; sd_hints := tt |}
                  from false)
     /\ (b_activeSchedulerReference <$> bookings run.1 !! "b2")
        = Some (Some "job")
     /\ from <> (from - msPerHour)%Z)
  /\ getHours cet from = 3%Z
  /\ one_hour_before cet from = from
  /\ (j_when <$> jobs (upsert0 (reserve_at_0330 "b2")).1 !! "job")
     = Some (from - msPerHour)%Z.
Proof.
  cbv zeta. split; [|split; [|split]].
  - eexists. split; [vm_compute; reflexivity|].
    split; [reflexivity|]. split; [vm_compute; reflexivity|].
    split; [vm_compute; reflexivity|]. split; [vm_compute; reflexivity|].
    split; [vm_compute; reflexivity|]. discriminate.
  - vm_compute. reflexivity.
  - vm_compute. reflexivity.
  - vm_compute. reflexivity.
Qed.

(** Creating the booking "Survey": the call returns, and the booking
    is stored under an id that was not in use, with the name, the
    status, the start, the creator and the organization of the input.
    Renaming "b1": the call returns, and "b1" is stored with the new
    name and with the status, the dates, the creator and the
    organization it had.  Completing "b1" keeps every creator and
    organization. *)
Lemma upsertBooking_create_or_update_witness :
  (exists res new,
     (upsert0 new_booking).2 = Returned res
     /\ bookings world0 !! r_id res = None
     /\ bookings (upsert0 new_booking).1 !! r_id res = Some new
     /\ b_name new = "Survey"
     /\ b_status new = RESERVED
     /\ b_from new = Some 72000000%Z
     /\ b_creatorId new = "u1"
     /\ b_organizationId new = "o1")
  /\ (exists res new,
        (upsert0 (rename "b1")).2 = Returned res
        /\ r_id res = "b1"
        /\ bookings (upsert0 (rename "b1")).1 !! "b1" = Some new
        /\ b_name new = "Excursion"
        /\ b_status new = ONGOING
        /\ b_from new = Some 7200000%Z
        /\ b_to new = Some 10800000%Z
        /\ b_creatorId new = "u1"
        /\ b_organizationId new = "o1")
  /\ owners_kept (bookings world0)
       (bookings (upsert0 (set_status "b1" COMPLETE)).1).
Proof.
  split; [|split].
  - set (run := upsert0 new_booking).
    destruct (upsertBooking_create_or_update whole_hours "checkoutReminder" utc
                new_booking tt world0 run.1 run.2)
      as ((Hcreated & Hreturns) & _);
      [vm_compute; reflexivity | reflexivity |].
    destruct (Hreturns "Survey" "u1" "o1") as (res & Hres);
      [reflexivity | reflexivity | discriminate
      | eexists; reflexivity | reflexivity | discriminate
      | apply elem_of_singleton; reflexivity
      | reflexivity | reflexivity | reflexivity |].
    destruct (Hcreated res Hres)
      as (Hfresh & (new & Hnew & Hn & Hs & Hf & _ & Hc & Ho) & _).
    exists res, new. simpl in Hn, Hs, Hf, Hc, Ho.
    split; [exact Hres|]. split; [exact Hfresh|]. split; [exact Hnew|].
    repeat split; congruence.
  - set (run := upsert0 (rename "b1")).
    destruct (upsertBooking_create_or_update whole_hours "checkoutReminder" utc
                (rename "b1") tt world0 run.1 run.2)
      as (_ & Hupdate); [vm_compute; reflexivity|].
    destruct (Hupdate "b1" eq_refl) as (_ & _ & _ & Hreturned & Hreturns);
      [discriminate|].
    destruct (Hreturns trip (rest (rename "b1"))) as (res & Hres);
      [reflexivity | reflexivity | reflexivity |].
    destruct (Hreturned res Hres)
      as (Hid & old & new & Hold & Hnew & Hs & Hn & Hf & Ht & Hc & Ho).
    assert (old = trip) as ->
      by (vm_compute in Hold; injection Hold as <-; reflexivity).
    exists res, new.
    split; [exact Hres|]. split; [exact Hid|]. split; [exact Hnew|].
    repeat split; assumption.
  - set (run := upsert0 (set_status "b1" COMPLETE)).
    destruct (upsertBooking_create_or_update whole_hours "checkoutReminder" utc
                (set_status "b1" COMPLETE) tt world0 run.1 run.2)
      as (_ & Hupdate); [vm_compute; reflexivity|].
    destruct (Hupdate "b1" eq_refl) as (_ & Hkept & _); [discriminate|].
    exact Hkept.
Defined.

(** *** The further properties at work in the example world *)

(** No team member is stored: naming "tm1" throws and changes
    nothing. *)
Lemma upsertBooking_unknown_team_member_witness :
  upsert0 (set_member "b1")
  = (world0, Thrown (ShelfStackError "Cannot find team member")).
Proof.
  apply (upsertBooking_unknown_team_member whole_hours "checkoutReminder"
           utc (set_member "b1") tt world0 "tm1").
  - reflexivity.
  - reflexivity.
  - discriminate.
  - reflexivity.
Defined.

(** No booking "b9" is stored: completing it throws and changes
    nothing. *)
Lemma upsertBooking_unknown_id_witness :
  (upsert0 (set_status "b9" COMPLETE)).1 = world0
  /\ exists e, (upsert0 (set_status "b9" COMPLETE)).2 = Thrown e.
Proof.
  set (run := upsert0 (set_status "b9" COMPLETE)).
  apply (upsertBooking_unknown_id whole_hours "checkoutReminder" utc
           (set_status "b9" COMPLETE) tt world0 run.1 run.2 "b9").
  - reflexivity.
  - discriminate.
  - vm_compute. reflexivity.
  - vm_compute. reflexivity.
Defined.

(** Naming the custodian user "u1" and the team member "tm1" for "b2":
    "u1" is the custodian and no team member is. *)
Lemma upsertBooking_custodian_witness :
  exists new,
    bookings (upsert0 (set_custodians "b2")).1 !! "b2" = Some new
    /\ b_custodianUserId new = Some "u1"
    /\ b_custodianTeamMemberId new = None.
Proof.
  set (run := upsert0 (set_custodians "b2")).
  destruct (upsertBooking_custodian whole_hours "checkoutReminder" utc
              (set_custodians "b2") tt world0 run.1
              (returned run.2 (payload world0 "" draft)) "b2")
    as (old & new & _ & Hnew & Huser & _).
  - reflexivity.
  - discriminate.
  - vm_compute. reflexivity.
  - exists new. split; [exact Hnew|].
    apply (Huser "u1"); [reflexivity | discriminate].
Defined.

(** Completing "b1" cancels "job1", which it references. *)
Lemma upsertBooking_terminal_cancels_witness :
  (j_cancelled <$> jobs (upsert0 (set_status "b1" COMPLETE)).1 !! "job1")
  = Some true.
Proof.
  set (run := upsert0 (set_status "b1" COMPLETE)).
  destruct (upsertBooking_terminal_cancels whole_hours "checkoutReminder"
              utc (set_status "b1" COMPLETE) tt world0 run.1
              (returned run.2 (payload world0 "" trip)) "b1" COMPLETE trip)
    as (Hcancel & _).
  - reflexivity.
  - discriminate.
  - reflexivity.
  - left. reflexivity.
  - vm_compute. reflexivity.
  - vm_compute. reflexivity.
  - erewrite Hcancel; [reflexivity | reflexivity | discriminate
                      | vm_compute; reflexivity].
Defined.

(** Renaming "b1" changes no asset, no job and sends no mail. *)
Lemma upsertBooking_plain_update_witness :
  assets (upsert0 (rename "b1")).1 = assets world0
  /\ jobs (upsert0 (rename "b1")).1 = jobs world0
  /\ outbox (upsert0 (rename "b1")).1 = []
  /\ (b_name <$> bookings (upsert0 (rename "b1")).1 !! "b1")
     = Some "Excursion".
Proof.
  set (run := upsert0 (rename "b1")).
  destruct (upsertBooking_plain_update whole_hours "checkoutReminder" utc
              (rename "b1") tt world0 run.1
              (returned run.2 (payload world0 "" trip)) "b1")
    as (Hassets & Hjobs & Hout & Hrow & _).
  - reflexivity.
  - discriminate.
  - reflexivity.
  - left. reflexivity.
  - vm_compute. reflexivity.
  - split; [exact Hassets|]. split; [exact Hjobs|]. split; [exact Hout|].
    rewrite Hrow. vm_compute. reflexivity.
Defined.

(** Creating the new booking changes no asset and sends no mail. *)
Lemma upsertBooking_create_frame_witness :
  assets (upsert0 new_booking).1 = assets world0
  /\ outbox (upsert0 new_booking).1 = []
  /\ bookings (upsert0 new_booking).1 !! "b1" = Some trip.
Proof.
  set (run := upsert0 new_booking).
  destruct (upsertBooking_create_frame whole_hours "checkoutReminder" utc
              new_booking tt world0 run.1 run.2)
    as (Hassets & Hout & Hkept).
  - reflexivity.
  - vm_compute. reflexivity.
  - split; [exact Hassets|]. split; [exact Hout|].
    apply Hkept. vm_compute. reflexivity.
Defined.

(** Adding "a4" to "b1" keeps "a1" attached and attaches "a4". *)
Lemma upsertBooking_attaches_witness :
  exists new,
    bookings (upsert0 (add_asset "b1")).1 !! "b1" = Some new
    /\ In "a1" (b_assets new) /\ In "a4" (b_assets new)
    /\ NoDup (b_assets new).
Proof.
  set (run := upsert0 (add_asset "b1")).
  destruct (upsertBooking_attaches whole_hours "checkoutReminder" utc
              (add_asset "b1") tt world0 run.1
              (returned run.2 (payload world0 "" trip)) "b1" trip)
    as (Hin & Hnd & new & Hnew & Hsame).
  - reflexivity.
  - discriminate.
  - vm_compute. reflexivity.
  - vm_compute. reflexivity.
  - exists new. split; [exact Hnew|]. rewrite Hsame.
    split; [apply Hin; left; left; reflexivity|].
    split; [apply Hin; right; left; reflexivity|].
    apply Hnd. apply NoDup_cons. split.
    + intros H. apply list_elem_of_In in H. destruct H as [H|[]].
      discriminate H.
    + apply NoDup_cons. split; [|apply NoDup_nil_2].
      intros H. apply list_elem_of_In in H. destruct H.
Defined.

(** The booking that was created is found under its id. *)
Lemma getBooking_after_upsert_witness :
  exists found,
    (getBooking (r_id (returned (upsert0 new_booking).2
                         (payload world0 "" trip)))
       (upsert0 new_booking).1).2 = Returned (Some found)
    /\ b_name (r_row found) = "Survey"
    /\ b_status (r_row found) = RESERVED.
Proof.
  set (run := upsert0 new_booking).
  destruct (getBooking_after_upsert whole_hours "checkoutReminder" utc
              new_booking tt world0 run.1
              (returned run.2 (payload world0 "" trip)))
    as (found & Hget & _ & Hname & Hstatus & _).
  - vm_compute. reflexivity.
  - exists found. split; [rewrite Hget; reflexivity|].
    split; [rewrite Hname | rewrite Hstatus]; vm_compute; reflexivity.
Defined.

(** No booking "b9" is stored: deleting it throws and changes
    nothing. *)
Lemma deleteBooking_missing_witness :
  delete0 "b9" = (world0, Thrown RecordNotFound).
Proof.
  apply (deleteBooking_missing "b9" tt world0). vm_compute. reflexivity.
Defined.

(** After "b1" is deleted it is not found, it cannot be deleted again,
    and "b2" is still stored. *)
Lemma deleteBooking_then_witness :
  (getBooking "b1" (delete0 "b1").1).2 = Returned None
  /\ (deleteBooking "b1" tt (delete0 "b1").1).2 = Thrown RecordNotFound
  /\ bookings (delete0 "b1").1 !! "b2" = Some draft.
Proof.
  set (run := delete0 "b1").
  destruct (deleteBooking_then "b1" tt world0 run.1
              (returned run.2 (payload world0 "" trip)))
    as (Hget & Hagain & Hothers).
  - vm_compute. reflexivity.
  - split; [rewrite Hget; reflexivity|].
    split; [rewrite Hagain; reflexivity|].
    rewrite Hothers; [vm_compute; reflexivity | discriminate].
Defined.

(** Removing "a1" from the ongoing "b1" leaves "a2" attached and "a1"
    checked out. *)
Lemma removeAssets_effects_witness :
  (b_assets <$> bookings (removeAssets "b1" ["a1"] world0).1 !! "b1")
  = Some ["a2"]
  /\ assets (removeAssets "b1" ["a1"] world0).1 !! "a1" = Some CHECKED_OUT.
Proof.
  set (run := removeAssets "b1" ["a1"] world0).
  destruct (removeAssets_effects "b1" ["a1"] world0 run.1 run.2)
    as (Hassets & _ & _ & _ & _ & Hstored).
  - vm_compute. reflexivity.
  - destruct (Hstored trip) as (res & new & _ & _ & Hnew & Hleft & _).
    + vm_compute. reflexivity.
    + split.
      * rewrite Hnew. simpl. rewrite Hleft. vm_compute. reflexivity.
      * rewrite Hassets. vm_compute. reflexivity.
Defined.

End BookingFacts.
